(** * DELAG data retrieval: date index, grid alignment, range filter, fetch

    A shallow embedding of the raster acquisition scripts
    (synchronize_ndvi_to_lst.py, filter_lst_range.py, era5_retriever.py,
    gldas21_retriever.py, ndvi_retrieval.py) and the properties their
    specification states about them.

    Conventions of the embedding:
    - a Python [str] is a [string] of ASCII characters;
    - a [datetime] built by [strptime(_, "%Y-%m-%d")] is a calendar date at
      midnight, so a [timedelta] between two of them is a whole number of days;
    - a float pixel is a [spec_float]: the IEEE 754 values with their own
      comparison, where every comparison with NaN is false; a float32 value
      is one valid for precision 24 and exponent bound 128;
    - a Python [dict] is an association list in insertion order;
    - a file is a GeoTIFF (grid, metadata, bands), a ZIP package or other
      bytes; directories are not modelled;
    - the remote services (Earth Engine queries, HTTP downloads) answer the
      n-th request with [remote n], whatever the request is, so every
      sequence of answers and failures is covered;
    - side effects run in a small monad over a [world]: the file system, the
      remote side and the count of requests made, the trace of sleeps and of
      the printed or logged lines the properties speak of (progress lines are
      left out), and an optional interruption point: a run can be killed at
      any write to the file system. *)

From Stdlib Require Import ZArith String Ascii List Bool Lia.
From Stdlib Require Import Floats.SpecFloat.
From Stdlib Require Import Sorting.Sorted.
From stdpp Require Import gmap strings list pretty.

(** ** Python strings *)

Module Py.

Definition is_digit (c : ascii) : bool :=
  let n := nat_of_ascii c in (48 <=? n)%nat && (n <=? 57)%nat.

Definition digit_val (c : ascii) : Z := Z.of_nat (nat_of_ascii c) - 48.

Definition is_char (x : ascii) (c : ascii) : bool := Ascii.eqb x c.

(** What follows the last [sep] of [p] ([acc] when there is none). *)
Fixpoint after_last (sep : ascii) (acc p : string) : string :=
  match p with
  | EmptyString => acc
  | String c r => if is_char sep c then after_last sep r r else after_last sep acc r
  end.

(** [os.path.basename(p)]: what follows the last slash. *)
Definition basename (p : string) : string := after_last "/" p p.

(** [s.split(sep)[-1]] *)
Definition split_last (sep : ascii) (s : string) : string := after_last sep s s.

(** [os.path.join(a, b)]: an absolute [b] alone; else [a] and [b] with a
    slash between them unless [a] is empty or ends in one. *)
Definition path_join (a b : string) : string :=
  if String.prefix "/" b then b
  else match a with
       | EmptyString => b
       | _ => if String.prefix "/" (String.rev a) then a +:+ b else a +:+ "/" +:+ b
       end.

(** [s.split(sep)] *)
Fixpoint split (sep : ascii) (s : string) : list string :=
  match s with
  | EmptyString => [EmptyString]
  | String c r =>
      if is_char sep c then EmptyString :: split sep r
      else match split sep r with
           | h :: t => String c h :: t
           | [] => [String c EmptyString]
           end
  end.

(** [sep.join(parts)] *)
Fixpoint join (sep : string) (parts : list string) : string :=
  match parts with
  | [] => EmptyString
  | [x] => x
  | x :: rest => x +:+ sep +:+ join sep rest
  end.

(** A fixed-width pattern is a list of character classes. *)
Fixpoint match_here (pat : list (ascii -> bool)) (s : string) : bool :=
  match pat, s with
  | [], _ => true
  | p :: pat', String c r => p c && match_here pat' r
  | _ :: _, EmptyString => false
  end.

(** [re.compile(pat).search(s)]: the leftmost match, as the matched text. *)
Fixpoint re_search (pat : list (ascii -> bool)) (s : string) : option string :=
  if match_here pat s then Some (String.substring 0 (List.length pat) s)
  else match s with
       | EmptyString => None
       | String _ r => re_search pat r
       end.

(** [r'(\d{4}-\d{2}-\d{2})'] *)
Definition date_pattern : list (ascii -> bool) :=
  [is_digit; is_digit; is_digit; is_digit; is_char "-";
   is_digit; is_digit; is_char "-"; is_digit; is_digit].

(** [s.replace(old, new)]: every occurrence, left to right, not overlapping.
    [skip] counts the characters of a replaced occurrence still to drop. *)
Fixpoint replace_aux (old new : string) (skip : nat) (s : string) : string :=
  match s with
  | EmptyString => EmptyString
  | String c r =>
      match skip with
      | S k => replace_aux old new k r
      | O => if String.prefix old s
             then new +:+ replace_aux old new (String.length old - 1) r
             else String c (replace_aux old new 0 r)
      end
  end.

Definition replace (old new s : string) : string := replace_aux old new 0 s.

Definition endswith (s suffix : string) : bool :=
  String.prefix (String.rev suffix) (String.rev s).

Fixpoint lstrip_slash (s : string) : string :=
  match s with
  | String c r => if is_char "/" c then lstrip_slash r else s
  | EmptyString => EmptyString
  end.

(** [os.path.dirname(p)]: up to the last slash, trailing slashes dropped
    unless nothing else is left. *)
Definition dirname (p : string) : string :=
  let head := String.substring 0 (String.length p - String.length (basename p)) p in
  match lstrip_slash (String.rev head) with
  | EmptyString => head
  | r => String.rev r
  end.

Definition lower_char (c : ascii) : ascii :=
  let n := nat_of_ascii c in
  if (65 <=? n)%nat && (n <=? 90)%nat then ascii_of_nat (n + 32) else c.

(** [s.lower()] *)
Fixpoint lower (s : string) : string :=
  match s with
  | EmptyString => EmptyString
  | String c r => String (lower_char c) (lower r)
  end.

(** [sub in s] *)
Definition contains (sub s : string) : bool :=
  match String.index 0 sub s with Some _ => true | None => false end.

End Py.

(** ** datetime *)

(** A [datetime] made by [strptime] with a date-only format: midnight of a
    calendar day. *)
Record datetime := mk_datetime { year : Z; month : Z; day : Z }.

Global Instance datetime_eq_dec : EqDecision datetime.
Proof. solve_decision. Defined.

Module Datetime.

Definition is_leap (y : Z) : bool :=
  (y mod 4 =? 0)%Z && (negb (y mod 100 =? 0)%Z || (y mod 400 =? 0)%Z).

Definition days_in_month (y m : Z) : Z :=
  if (m =? 2)%Z then (if is_leap y then 29 else 28)%Z
  else if ((m =? 4) || (m =? 6) || (m =? 9) || (m =? 11))%Z then 30%Z
  else 31%Z.

Definition days_before_year (y : Z) : Z :=
  let p := (y - 1)%Z in (p * 365 + p / 4 - p / 100 + p / 400)%Z.

Definition days_before_month (y m : Z) : Z :=
  (nth (Z.to_nat m) [0; 0; 31; 59; 90; 120; 151; 181; 212; 243; 273; 304; 334] 0
   + (if ((2 <? m) && is_leap y)%Z then 1 else 0))%Z.

(** [d.toordinal()] *)
Definition toordinal (d : datetime) : Z :=
  (days_before_year (year d) + days_before_month (year d) (month d) + day d)%Z.

(** [abs(a - b)] for two midnights, in days. *)
Definition abs_diff (a b : datetime) : Z := Z.abs (toordinal a - toordinal b).

(** The constructor's range check ([ValueError] otherwise). *)
Definition valid (y m d : Z) : bool :=
  ((1 <=? y) && (y <=? 9999) && (1 <=? m) && (m <=? 12)
   && (1 <=? d) && (d <=? days_in_month y m))%Z.

Definition in_range (lo hi : nat) (c : ascii) : bool :=
  let n := nat_of_ascii c in (lo <=? n)%nat && (n <=? hi)%nat.

(** [%Y]: four digits. *)
Definition parse_Y (s : string) : option (Z * string) :=
  match s with
  | String a (String b (String c (String d r))) =>
      if Py.is_digit a && Py.is_digit b && Py.is_digit c && Py.is_digit d
      then Some ((Py.digit_val a * 1000 + Py.digit_val b * 100
                  + Py.digit_val c * 10 + Py.digit_val d)%Z, r)
      else None
  | _ => None
  end.

(** [%m]: [1[0-2]|0[1-9]|[1-9]], the alternatives in this order. *)
Definition parse_m (s : string) : option (Z * string) :=
  match s with
  | String a r =>
      let two := match r with
                 | String b r' =>
                     if Py.is_char "1" a && in_range 48 50 b
                     then Some ((10 + Py.digit_val b)%Z, r')
                     else if Py.is_char "0" a && in_range 49 57 b
                     then Some (Py.digit_val b, r')
                     else None
                 | EmptyString => None
                 end in
      match two with
      | Some x => Some x
      | None => if in_range 49 57 a then Some (Py.digit_val a, r) else None
      end
  | EmptyString => None
  end.

(** [%d]: [3[0-1]|[1-2]\d|0[1-9]|[1-9]| [1-9]]. *)
Definition parse_d (s : string) : option (Z * string) :=
  match s with
  | String a r =>
      let two := match r with
                 | String b r' =>
                     if Py.is_char "3" a && in_range 48 49 b
                     then Some ((30 + Py.digit_val b)%Z, r')
                     else if in_range 49 50 a && Py.is_digit b
                     then Some ((Py.digit_val a * 10 + Py.digit_val b)%Z, r')
                     else if Py.is_char "0" a && in_range 49 57 b
                     then Some (Py.digit_val b, r')
                     else None
                 | EmptyString => None
                 end in
      match two with
      | Some x => Some x
      | None =>
          if in_range 49 57 a then Some (Py.digit_val a, r)
          else match r with
               | String b r' =>
                   if Py.is_char " " a && in_range 49 57 b
                   then Some (Py.digit_val b, r') else None
               | EmptyString => None
               end
      end
  | EmptyString => None
  end.

Definition expect (c : ascii) (s : string) : option string :=
  match s with
  | String x r => if Py.is_char c x then Some r else None
  | EmptyString => None
  end.

(** [datetime.strptime(s, "%Y-%m-%d")]; [None] stands for [ValueError]
    (no match, unconverted data, or a day that does not exist). *)
Definition strptime (s : string) : option datetime :=
  match parse_Y s with
  | Some (y, s1) =>
    match expect "-" s1 with
    | Some s2 =>
      match parse_m s2 with
      | Some (m, s3) =>
        match expect "-" s3 with
        | Some s4 =>
          match parse_d s4 with
          | Some (d, EmptyString) =>
              if valid y m d then Some (mk_datetime y m d) else None
          | _ => None
          end
        | None => None
        end
      | None => None
      end
    | None => None
    end
  | None => None
  end.

Definition digit_char (n : Z) : ascii := ascii_of_nat (Z.to_nat (48 + n mod 10)).

Definition pad2 (n : Z) : string :=
  String (digit_char (n / 10)) (String (digit_char n) EmptyString).

Definition pad4 (n : Z) : string :=
  String (digit_char (n / 1000)) (String (digit_char (n / 100)) (pad2 n)).

(** [d.strftime('%Y-%m-%d')], the year written with four digits. *)
Definition strftime (d : datetime) : string :=
  pad4 (year d) +:+ "-" +:+ pad2 (month d) +:+ "-" +:+ pad2 (day d).

(** [a < b] on datetimes: field by field. *)
Definition ltb (a b : datetime) : bool :=
  ((year a <? year b)
   || ((year a =? year b)
       && ((month a <? month b)
           || ((month a =? month b) && (day a <? day b)))))%Z.

End Datetime.

(** ** Python dict: insertion-ordered association list *)

Section PyDict.
Context {K V : Type} `{EqDecision K}.

Definition pydict := list (K * V).

(** [d[k] = v]: an existing key keeps its place and takes the new value; a
    new key goes to the end. *)
Fixpoint dict_setitem (k : K) (v : V) (d : list (K * V)) : list (K * V) :=
  match d with
  | [] => [(k, v)]
  | (k', v') :: r =>
      if decide (k = k') then (k', v) :: r else (k', v') :: dict_setitem k v r
  end.

(** [d.get(k)]; [d[k]] raises [KeyError] where this is [None]. *)
Fixpoint dict_get (k : K) (d : list (K * V)) : option V :=
  match d with
  | [] => None
  | (k', v') :: r => if decide (k = k') then Some v' else dict_get k r
  end.

Definition dict_keys (d : list (K * V)) : list K := map fst d.
End PyDict.

(** [min(first :: rest, key=f)]: the running best is replaced only by a
    strictly smaller key, so the first minimal element wins. *)
Fixpoint py_min_from {A : Type} (f : A -> Z) (best : A) (rest : list A) : A :=
  match rest with
  | [] => best
  | x :: r => if (f x <? f best)%Z then py_min_from f x r else py_min_from f best r
  end.

Definition py_min {A : Type} (f : A -> Z) (l : list A) : option A :=
  match l with
  | [] => None
  | x :: r => Some (py_min_from f x r)
  end.

(** ** Rasters, files and the world *)

(** The six coefficients of an affine transform (the last row is fixed). *)
Record affine := mk_affine {
  ta : spec_float; tb : spec_float; tc : spec_float;
  td : spec_float; te : spec_float; tf : spec_float }.

(** [s == t] on transforms: coefficient by coefficient, with the floats' own
    equality (so a NaN coefficient is equal to nothing, itself included). *)
Definition affine_eqb (s t : affine) : bool :=
  SFeqb (ta s) (ta t) && SFeqb (tb s) (tb t) && SFeqb (tc s) (tc t)
  && SFeqb (td s) (td t) && SFeqb (te s) (te t) && SFeqb (tf s) (tf t).

(** A band is its samples in row-major order. *)
Abbreviation band := (list spec_float).

(** A GeoTIFF as rasterio shows it: the grid, the metadata and the bands. *)
Record raster := mk_raster {
  crs : option string;
  transform : affine;
  width : Z;
  height : Z;
  dtype : string;
  nodata : option spec_float;
  bands : list band }.

Definition count (r : raster) : nat := List.length (bands r).

Inductive file :=
| GeoTiff (r : raster)
| ZipArchive (members : list (string * option raster))
| OtherBytes.

Inductive exn :=
| RasterioIOError
| EEException
| RequestException
| BadZipFile
| OSError
| AttributeError
| NameError
| WarpError.

(** What a remote service answers to one request. *)
Inductive reply :=
| Fails (e : exn)
| Number (n : Z)
| Names (l : list string)
| Text (s : string)
| Flag (b : bool)
| Http (status : Z) (body : file).

Inductive event :=
| Sleep (millis : Z)
| Replaced (name : string) (total_changed band_count : nat)
| AllInRange (name : string)
| Message (text : string).

Record world := mk_world {
  fs : gmap string file;       (* path to content *)
  remote : nat -> reply;       (* the answer to the n-th network request *)
  net : nat;                   (* network requests made so far *)
  temps : nat;                 (* temporary directories made so far *)
  trace : list event;          (* prints, log lines and sleeps, oldest first *)
  interrupt : option nat       (* the process is killed at the write after
                                  this many more writes; [None]: never *)
}.

Definition with_fs (w : world) (m : gmap string file) : world :=
  mk_world m (remote w) (net w) (temps w) (trace w) (interrupt w).

Definition with_interrupt (w : world) (i : option nat) : world :=
  mk_world (fs w) (remote w) (net w) (temps w) (trace w) i.

Inductive outcome (A : Type) :=
| Ok (x : A)
| Raised (e : exn)
| Interrupted.
Arguments Ok {A} x.
Arguments Raised {A} e.
Arguments Interrupted {A}.

(** ** The effect monad *)

Definition M (A : Type) : Type := world -> outcome A * world.

Global Instance M_ret : MRet M := fun A x w => (Ok x, w).

Global Instance M_bind : MBind M := fun A B k m w =>
  match m w with
  | (Ok x, w') => k x w'
  | (Raised e, w') => (Raised e, w')
  | (Interrupted, w') => (Interrupted, w')
  end.

Definition ret {A} (x : A) : M A := mret x.

Definition raise {A} (e : exn) : M A := fun w => (Raised e, w).

(** [try: m  except Exception as e: h e] *)
Definition try_except {A} (m : M A) (h : exn -> M A) : M A :=
  fun w => match m w with
           | (Raised e, w') => h e w'
           | r => r
           end.

(** [try: m  finally: c]; a killed process runs no cleanup. *)
Definition try_finally {A} (m : M A) (c : M unit) : M A :=
  fun w => match m w with
           | (Ok x, w') => (c;; ret x) w'
           | (Raised e, w') => (c;; raise e) w'
           | (Interrupted, w') => (Interrupted, w')
           end.

Fixpoint for_each {A} (l : list A) (body : A -> M unit) : M unit :=
  match l with
  | [] => ret tt
  | x :: r => body x;; for_each r body
  end.

Definition emit (e : event) : M unit :=
  fun w => (Ok tt, mk_world (fs w) (remote w) (net w) (temps w)
                            (trace w ++ [e]) (interrupt w)).

Definition print (text : string) : M unit := emit (Message text).

(** [time.sleep(s)], the time in milliseconds. *)
Definition sleep (millis : Z) : M unit := emit (Sleep millis).

Definition get_fs : M (gmap string file) := fun w => (Ok (fs w), w).

(** One write to the file system; the only points where the run can be
    interrupted. *)
Definition fs_write (g : gmap string file -> gmap string file) : M unit :=
  fun w => match interrupt w with
           | Some O => (Interrupted, w)
           | Some (S k) => (Ok tt, with_interrupt (with_fs w (g (fs w))) (Some k))
           | None => (Ok tt, with_fs w (g (fs w)))
           end.

(** One network request: the next answer of the remote side. *)
Definition request : M reply :=
  fun w => (Ok (remote w (net w)),
            mk_world (fs w) (remote w) (S (net w)) (temps w) (trace w) (interrupt w)).

(** [os.path.exists(p)] *)
Definition path_exists (p : string) : M bool :=
  m ← get_fs; ret (bool_decide (is_Some (m !! p))).

(** [rasterio.open(p)] for reading: the raster, or [RasterioIOError]. *)
Definition rasterio_open (p : string) : M raster :=
  m ← get_fs;
  match m !! p with
  | Some (GeoTiff r) => ret r
  | _ => raise RasterioIOError
  end.

(** [shutil.move(src, dst)] inside one directory: a rename. *)
Definition shutil_move (src dst : string) : M unit :=
  m ← get_fs;
  match m !! src with
  | Some x => fs_write (fun m => <[dst := x]> (delete src m))
  | None => raise OSError
  end.

(** [shutil.copy2(src, dst)] *)
Definition shutil_copy2 (src dst : string) : M unit :=
  m ← get_fs;
  match m !! src with
  | Some x => if bool_decide (src = dst) then raise OSError
              else fs_write (fun m => <[dst := x]> m)
  | None => raise OSError
  end.

(** [src.read(band_idx)] on the dataset at [file_path]; bands count from 1. *)
Definition dataset_read (file_path : string) (band_idx : nat) : M band :=
  m ← get_fs;
  match m !! file_path with
  | Some (GeoTiff r) =>
      match bands r !! (band_idx - 1)%nat with
      | Some data => ret data
      | None => raise RasterioIOError
      end
  | _ => raise RasterioIOError
  end.

Definition set_bands (r : raster) (bs : list band) : raster :=
  mk_raster (crs r) (transform r) (width r) (height r) (dtype r) (nodata r) bs.

Definition set_nodata (r : raster) (v : option spec_float) : raster :=
  mk_raster (crs r) (transform r) (width r) (height r) (dtype r) v (bands r).

(** [dst.write(band_data, band_idx)] on the dataset at [file_path]. *)
Definition dataset_write (file_path : string) (band_data : band) (band_idx : nat) : M unit :=
  fs_write (fun m =>
    match m !! file_path with
    | Some (GeoTiff r) =>
        <[file_path := GeoTiff (set_bands r (<[(band_idx - 1)%nat := band_data]> (bands r)))]> m
    | _ => m
    end).

(** [src.nodata = v] in update mode. *)
Definition dataset_set_nodata (file_path : string) (v : spec_float) : M unit :=
  fs_write (fun m =>
    match m !! file_path with
    | Some (GeoTiff r) => <[file_path := GeoTiff (set_nodata r (Some v))]> m
    | _ => m
    end).

(** The samples of a band nobody has written yet: the no-data value when the
    profile has one, zero otherwise. *)
Definition blank_band (profile : raster) : band :=
  replicate (Z.to_nat (width profile * height profile))
            (default (S754_zero false) (nodata profile)).

(** [rasterio.open(path, 'w', **profile)] with [count] bands: the file is
    created (or truncated) with its header and blank bands. *)
Definition rasterio_create (path : string) (profile : raster) (n : nat) : M unit :=
  fs_write (fun m =>
    <[path := GeoTiff (set_bands profile (replicate n (blank_band profile)))]> m).

(** [shutil.rmtree(dir)]: everything below [dir] goes. *)
Definition shutil_rmtree (dir : string) : M unit :=
  fs_write (fun m =>
    filter (fun kv => negb (String.prefix (dir +:+ "/") (fst kv)) = true) m).

(** A regular file stands where the directory [p] is wanted: at [p] itself
    or at one of the directories above it. *)
Definition in_the_way (m : gmap string file) (p : string) : Prop :=
  map_Exists (λ k _, k = p ∨ String.prefix (k +:+ "/") p = true) m.

(** [os.makedirs(p, exist_ok=True)]. Directories are not entries of the file
    map, so making them changes nothing; the call raises ([FileExistsError]
    or [NotADirectoryError], both [OSError]) when a regular file is in the
    way, and ([FileNotFoundError], an [OSError] too) on the empty path. *)
Definition os_makedirs (p : string) : M unit :=
  m ← get_fs;
  if bool_decide (p = "" ∨ in_the_way m p) then raise OSError else ret tt.

(** A library call that touches neither the files nor the network: it
    returns, or raises the exception [res] names. *)
Definition raise_if (res : option exn) : M unit :=
  match res with Some e => raise e | None => ret tt end.

(** [tempfile.mkdtemp()]: a directory name not handed out before. *)
Definition mkdtemp : M string :=
  fun w => (Ok ("/tmp/tmp" +:+ pretty (temps w)),
            mk_world (fs w) (remote w) (net w) (S (temps w)) (trace w) (interrupt w)).

(** [zipfile.ZipFile(path)]: the members, or [BadZipFile]. *)
Definition zip_open (path : string) : M (list (string * option raster)) :=
  m ← get_fs;
  match m !! path with
  | Some (ZipArchive members) => ret members
  | _ => raise BadZipFile
  end.

(** The path below the target directory that [ZipFile.extract] gives a
    member: its name without the empty, [.] and [..] parts (so without a
    leading slash, too). *)
Definition zip_member_path (name : string) : string :=
  Py.join "/" (List.filter (fun x => bool_decide (x ∉ [""; "."; ".."]))
                           (Py.split "/" name)).

(** [zip_ref.extract(name, dir)]: the last entry of that name is taken; an
    entry whose name ends in a slash is a directory; a file lands at its
    member path below [dir], in directories made on the way. Paths are taken
    as they are spelled (the library's [normpath] of the target is left
    out). *)
Definition zip_extract (members : list (string * option raster))
    (name dir : string) : M unit :=
  match dict_get name (reverse members) with
  | Some content =>
      if Py.endswith name "/" then ret tt
      else
        match zip_member_path name with
        | EmptyString => raise OSError
        | arcname =>
            fs_write (fun m =>
              <[Py.path_join dir arcname :=
                  match content with Some r => GeoTiff r | None => OtherBytes end]> m)
        end
  | None => raise OSError                          (* KeyError *)
  end.

(** [response.raise_for_status()] *)
Definition raise_for_status (status : Z) : M unit :=
  if ((400 <=? status) && (status <? 600))%Z then raise RequestException else ret tt.

(** [requests.get(url)]: the status and the body, or a request error. *)
Definition requests_get (url : string) : M (Z * file) :=
  r ← request;
  match r with
  | Http status body => ret (status, body)
  | Fails e => raise e
  | _ => raise RequestException
  end.

(** A [getInfo()] that expects a number. *)
Definition getInfo_number : M Z :=
  r ← request;
  match r with Number n => ret n | Fails e => raise e | _ => raise EEException end.

(** A [getInfo()] that expects a list of names. *)
Definition getInfo_names : M (list string) :=
  r ← request;
  match r with Names l => ret l | Fails e => raise e | _ => raise EEException end.

(** A [getInfo()] or [getDownloadURL()] that expects a string. *)
Definition getInfo_text : M string :=
  r ← request;
  match r with Text t => ret t | Fails e => raise e | _ => raise EEException end.

(** A [getInfo()] that expects a boolean. *)
Definition getInfo_flag : M bool :=
  r ← request;
  match r with Flag b => ret b | Fails e => raise e | _ => raise EEException end.

(** ** synchronize_ndvi_to_lst.py *)

Module synchronize_ndvi_to_lst.
Section Sync.
(** [glob.glob(pattern)]: the matching paths in the order the operating
    system lists them. *)
Variable glob : string -> list string.

Definition date_map_step (date_map : list (datetime * string)) (file_path : string)
  : list (datetime * string) :=
  let base := Py.basename file_path in
  match Py.re_search Py.date_pattern base with
  | Some group1 =>
      match Datetime.strptime group1 with
      | Some file_date => dict_setitem file_date file_path date_map
      | None => date_map          (* ValueError: a warning, the file is skipped *)
      end
  | None => date_map
  end.

Definition get_image_date_map (folder_path : string) : list (datetime * string) :=
  let tif_files := glob (Py.path_join folder_path "*.tif") in
  fold_left date_map_step tif_files [].

Definition find_nearest_image {V} (target_date : datetime)
    (source_map : list (datetime * V)) : option V :=
  match py_min (fun date => Datetime.abs_diff date target_date)
               (dict_keys source_map) with
  | None => None                              (* if not source_map *)
  | Some closest_date => dict_get closest_date source_map
  end.

(** [(d1, p1) < (d2, p2)] on tuples. *)
Definition item_ltb (x y : datetime * string) : bool :=
  Datetime.ltb (fst x) (fst y)
  || (bool_decide (fst x = fst y) && String.ltb (snd x) (snd y)).

Fixpoint insert_sorted (x : datetime * string) (l : list (datetime * string)) :=
  match l with
  | [] => [x]
  | y :: r => if item_ltb x y then x :: l else y :: insert_sorted x r
  end.

(** [sorted(d.items())] *)
Definition sorted_items (d : list (datetime * string)) : list (datetime * string) :=
  fold_right insert_sorted [] d.

(** The body of [main]'s loop over the LST dates. *)
Definition main_step (ndvi_date_map : list (datetime * string))
    (output_folder : string) (item : datetime * string) : M unit :=
  let lst_date := fst item in
  match find_nearest_image lst_date ndvi_date_map with
  | Some (String c0 rest as nearest_ndvi_path) =>       (* a non-empty path is truthy *)
      let original_ndvi_filename := Py.basename nearest_ndvi_path in
      match Py.re_search Py.date_pattern original_ndvi_filename with
      | None => raise AttributeError                     (* None.group(1) *)
      | Some date_str_to_replace =>
          let new_filename :=
            Py.replace date_str_to_replace (Datetime.strftime lst_date)
                       original_ndvi_filename in
          let output_path := Py.path_join output_folder new_filename in
          shutil_copy2 nearest_ndvi_path output_path;;
          print ("Created new file: " +:+ new_filename)
      end
  | _ =>
      print ("Could not find a nearest NDVI image for LST date "
             +:+ Datetime.strftime lst_date)
  end.

Definition main (ndvi_folder lst_folder output_folder : string) : M unit :=
  let lst_date_map := get_image_date_map lst_folder in
  let ndvi_date_map := get_image_date_map ndvi_folder in
  match lst_date_map, ndvi_date_map with
  | [], _ => print "Error: No .tif files with valid dates found in the LST folder. Cannot proceed."
  | _, [] => print "Error: No .tif files with valid dates found in the NDVI folder. Cannot proceed."
  | _, _ =>
      for_each (sorted_items lst_date_map) (main_step ndvi_date_map output_folder);;
      print "Synchronization complete."
  end.
End Sync.
End synchronize_ndvi_to_lst.

(** ** filter_lst_range.py *)

Module filter_lst_range.

(** One sample of [(band_data < lower_bound) | (band_data > upper_bound)]:
    NumPy compares in float32, the type of [band_data], so the bounds stand
    for the float32 values the comparison takes them as. *)
Definition outside (lower_bound upper_bound x : spec_float) : bool :=
  SFltb x lower_bound || SFltb upper_bound x.

(** [np.sum(mask)] *)
Definition mask_sum (lower_bound upper_bound : spec_float) (band_data : band) : nat :=
  List.length (List.filter (outside lower_bound upper_bound) band_data).

(** [band_data[mask] = np.nan] *)
Definition mask_assign_nan (lower_bound upper_bound : spec_float) (band_data : band) : band :=
  map (fun x => if outside lower_bound upper_bound x then S754_nan else x) band_data.

(** [np.isnan] *)
Definition isnan (x : spec_float) : bool :=
  match x with S754_nan => true | _ => false end.

(** [.astype('float32')] on one sample: the nearest float32, ties to even
    (an infinity past the largest float32); NaN, infinities and zeros stay. *)
Definition astype_float32 (x : spec_float) : spec_float :=
  match x with
  | S754_finite s m e => binary_normalize 24 128 (cond_Zopp s (Zpos m)) e s
  | _ => x
  end.

(** The loop [for band_idx in range(1, src.count + 1)], threading
    [total_changed]. The mask is taken on the samples cast to float32, and a
    band with a sample to change is written back in that form (exact in a
    float32 or a float64 raster); a band without one is not written. *)
Fixpoint filter_bands (file_path : string) (lower_bound upper_bound : spec_float)
    (band_idxs : list nat) (total_changed : nat) : M nat :=
  match band_idxs with
  | [] => ret total_changed
  | band_idx :: rest =>
      src_band ← dataset_read file_path band_idx;
      let band_data := map astype_float32 src_band in
      let pixels_to_change := mask_sum lower_bound upper_bound band_data in
      if (0 <? pixels_to_change)%nat then
        dataset_write file_path (mask_assign_nan lower_bound upper_bound band_data) band_idx;;
        filter_bands file_path lower_bound upper_bound rest (total_changed + pixels_to_change)
      else
        filter_bands file_path lower_bound upper_bound rest total_changed
  end.

Definition filter_image_by_range (file_path : string)
    (lower_bound upper_bound : spec_float) : M unit :=
  try_except
    (src ← rasterio_open file_path;          (* mode 'r+', so the mode test passes *)
     let nodata_val := nodata src in
     total_changed ← filter_bands file_path lower_bound upper_bound
                        (seq 1 (count src)) 0;
     if (0 <? total_changed)%nat then
       (if negb (match nodata_val with Some v => isnan v | None => false end)
        then dataset_set_nodata file_path S754_nan else ret tt);;
       emit (Replaced (Py.basename file_path) total_changed (count src))
     else
       emit (AllInRange (Py.basename file_path)))
    (fun e =>
       match e with
       | RasterioIOError => print ("Error opening or processing " +:+ file_path)
       | _ => print ("An unexpected error occurred with " +:+ file_path)
       end).

(** [main]: every [.tif] of the folder, with the fixed range 260..340. *)
Definition main (glob : string -> list string) (lst_folder : string) : M unit :=
  match glob (Py.path_join lst_folder "*.tif") with
  | [] => print "No .tif files found in the specified folder."
  | tif_files =>
      for_each tif_files (fun file_path =>
        filter_image_by_range file_path
          (S754_finite false 8519680 (-15)) (S754_finite false 11141120 (-15)));;
      print "Processing complete."
  end.

End filter_lst_range.

(** ** era5_retriever.py *)

Module era5_retriever.
Section Era5.
(** [rasterio.warp.reproject] of band [i] of the source dataset onto the
    grid of the destination dataset: the resampled band, or [None] when the
    warp raises. *)
Variable reproject : raster -> nat -> raster -> option band.

Definition SKIPPING : bool := true.

(** The handler names [RasterioIOError], which this module never imports:
    when the [try] block raises, evaluating the [except] clause raises
    [NameError] in its turn. *)
Definition verify_image (img_path : string) : M bool :=
  try_except
    (src ← rasterio_open img_path;
     if bool_decide (is_Some (crs src)) && (0 <? width src)%Z && (0 <? height src)%Z
     then print ("Verification successful for " +:+ Py.basename img_path);; ret true
     else print ("Verification failed for " +:+ Py.basename img_path);; ret false)
    (fun e => raise NameError).

(** [next((t for t in tif_files if b in os.path.basename(t)), None)] *)
Definition first_match (b : string) (tif_files : list string) : option string :=
  List.find (fun t => Py.contains b (Py.basename t)) tif_files.

(** The loop that orders the extracted files after the requested bands
    (an empty name is falsy, so it is not appended). *)
Definition order_tifs (bands : list string) (tif_files : list string) : list string :=
  flat_map (fun b => match first_match b tif_files with
                     | Some (String _ _ as t) => [t]
                     | _ => []
                     end) bands.

(** [for idx, arr in enumerate(band_arrays, start=1): dst.write(arr, idx)] *)
Fixpoint write_bands (path : string) (idx : nat) (band_arrays : list band) : M unit :=
  match band_arrays with
  | [] => ret tt
  | arr :: rest => dataset_write path arr idx;; write_bands path (S idx) rest
  end.

(** [band_arrays.append(src.read(1))] for each file in turn. *)
Fixpoint read_first_bands (temp_dir : string) (tifs : list string) : M (list band) :=
  match tifs with
  | [] => ret []
  | tif :: rest =>
      _ ← rasterio_open (Py.path_join temp_dir tif);
      arr ← dataset_read (Py.path_join temp_dir tif) 1;
      arrs ← read_first_bands temp_dir rest;
      ret (arr :: arrs)
  end.

Definition export_ee_image (bands : list string) (out_path : string) : M unit :=
  let temp_dir := Py.path_join (Py.dirname out_path) "temp_dl" in
  os_makedirs temp_dir;;
  try_finally
    (try_except
       (band_info ← getInfo_names;                 (* image.bandNames().getInfo() *)
        match band_info with
        | [] => print ("Warning: Image for " +:+ out_path
                       +:+ " has no bands after clipping. Skipping export.")
        | _ =>
          url ← getInfo_text;                       (* image.getDownloadURL(...) *)
          response ← requests_get url;
          raise_for_status (fst response);;
          let temp_zip_path := Py.path_join temp_dir "download.zip" in
          fs_write (fun m => <[temp_zip_path := snd response]> m);;
          zip_ref ← zip_open temp_zip_path;
          let tif_files := List.filter (fun f => Py.endswith f ".tif")
                                       (dict_keys zip_ref) in
          match tif_files with
          | [] => print "Error: ZIP file did not contain any .tif files."
          | _ =>
            for_each tif_files (fun tif => zip_extract zip_ref tif temp_dir);;
            let ordered_tifs :=
              let matched := order_tifs bands tif_files in
              if bool_decide (List.length matched ≠ List.length bands)
              then tif_files else matched in
            match ordered_tifs with
            | [] => raise OSError                   (* ordered_tifs[0] *)
            | first_tif :: _ =>
              src0 ← rasterio_open (Py.path_join temp_dir first_tif);
              let profile := src0 in
              band_arrays ← read_first_bands temp_dir ordered_tifs;
              rasterio_create out_path profile (List.length band_arrays);;
              write_bands out_path 1 band_arrays;;
              print ("Successfully downloaded and merged bands into " +:+ out_path)
            end
          end
        end)
       (fun e => print ("Error during export for " +:+ out_path)))
    (shutil_rmtree temp_dir).

(** [for i in range(1, src.count + 1): reproject(band(src, i), band(dst, i))] *)
Fixpoint reproject_bands (src : raster) (dst_path : string) (dst_meta : raster)
    (idxs : list nat) : M unit :=
  match idxs with
  | [] => ret tt
  | i :: rest =>
      match reproject src i dst_meta with
      | Some data => dataset_write dst_path data i;;
                     reproject_bands src dst_path dst_meta rest
      | None => raise WarpError
      end
  end.

Definition resample_to_match_reference (source_path reference_path : string) : M unit :=
  try_except
    (ref ← rasterio_open reference_path;
     src ← rasterio_open source_path;
     if (width src =? width ref)%Z && (height src =? height ref)%Z
        && affine_eqb (transform src) (transform ref)
     then print ("Alignment for " +:+ Py.basename source_path
                 +:+ " is already correct. No resampling needed.")
     else
       print ("Resampling " +:+ Py.basename source_path
              +:+ " to match reference grid...");;
       let ref_meta :=
         mk_raster (crs ref) (transform ref) (width ref) (height ref)
                   (dtype src) (nodata src) [] in
       let temp_output_path := source_path +:+ ".resampled.tif" in
       rasterio_create temp_output_path ref_meta (count src);;
       reproject_bands src temp_output_path ref_meta (seq 1 (count src));;
       shutil_move temp_output_path source_path;;
       print ("Successfully resampled and replaced " +:+ Py.basename source_path))
    (fun e => print ("Error during resampling for " +:+ source_path)).

Definition get_era5_for_date (target_date : datetime)
    (out_folder reference_tif_path : string) : M unit :=
  let date_str := Datetime.strftime target_date in
  let out_path := Py.path_join out_folder ("ERA5_data_" +:+ date_str +:+ ".tif") in
  present ← path_exists out_path;
  if SKIPPING && present then
    print ("ERA5 file for " +:+ date_str
           +:+ " already exists. Verifying and skipping download.");;
    _ ← verify_image out_path;
    print ("Checking alignment of existing file: " +:+ Py.basename out_path);;
    resample_to_match_reference out_path reference_tif_path
  else
    try_except
      (size ← getInfo_number;                      (* era5_collection.size().getInfo() *)
       if (size =? 0)%Z then
         print ("No ERA5 images found for " +:+ date_str +:+ ". Skipping.")
       else
         print ("Exporting ERA5 data for " +:+ date_str +:+ "...");;
         export_ee_image ["temperature_2m"; "skin_temperature"] out_path;;
         sleep 500;;
         now_present ← path_exists out_path;
         if (now_present : bool) then resample_to_match_reference out_path reference_tif_path
         else ret tt)
      (fun e =>
         match e with
         | EEException => print ("EE Error fetching ERA5 for " +:+ date_str)
         | _ => print ("An unexpected error occurred for " +:+ date_str)
         end).

(** [glob.glob(pattern)] and [Path(folder).glob('*.tif')] on the file system
    as it is when they are called, in the order the operating system lists
    the entries. *)
Variable glob : gmap string file -> string -> list string.
Variable path_glob : gmap string file -> string -> list string.

(** [rasterio.warp.transform_bounds(dataset.crs, TARGET_CRS, *dataset.bounds)]
    and [ee.Geometry.Polygon(coords, proj=TARGET_CRS, evenOdd=False)] on the
    corners of a dataset: [None] when the call returns, else the exception it
    raises. Both work on the client side. *)
Variable transform_bounds : raster -> option exn.
Variable ee_Geometry_Polygon : raster -> option exn.

Definition TARGET_CRS : string := "EPSG:4326".

(** Opens the sample raster for its bounds. The coordinates only travel to
    the remote side, so the dataset stands for them. *)
Definition get_roi_coords_from_tif (tif_path : string) : M raster :=
  dataset ← rasterio_open tif_path;
  match crs dataset with
  | Some c =>
      (if bool_decide (c ≠ TARGET_CRS)
       then print ("Transforming bounds from " +:+ c +:+ " to " +:+ TARGET_CRS);;
            raise_if (transform_bounds dataset)
       else ret tt);;
      ret dataset
  | None => raise AttributeError                   (* dataset.crs.to_string() *)
  end.

(** The dates found so far, kept sorted and without repetition. *)
Fixpoint insert_date (d : datetime) (l : list datetime) : list datetime :=
  match l with
  | [] => [d]
  | x :: r => if bool_decide (d = x) then l
              else if Datetime.ltb d x then d :: l else x :: insert_date d r
  end.

Fixpoint collect_dates (tif_files : list string) (dates : list datetime)
  : M (list datetime) :=
  match tif_files with
  | [] => ret dates
  | tif :: rest =>
      let base := Py.basename tif in
      let date_str := Py.replace ".tif" "" (Py.split_last "_" base) in
      match Datetime.strptime date_str with
      | Some date => collect_dates rest (insert_date date dates)
      | None =>
          print ("Could not parse date from filename: " +:+ base);;
          collect_dates rest dates
      end
  end.

(** [sorted(list(dates))] of the set of dates parsed from the file names. *)
Definition get_dates_from_filenames (folder_path : string) : M (list datetime) :=
  m ← get_fs;
  collect_dates (glob m (Py.path_join folder_path "*.tif")) [].

Definition main (input_folder output_folder : string) : M unit :=
  print ("Starting ERA5 data retrieval based on LST files in: " +:+ input_folder);;
  print ("Output will be saved to: " +:+ output_folder);;
  os_makedirs output_folder;;
  m ← get_fs;
  match path_glob m input_folder with
  | [] => print ("Error: No .tif files found in '" +:+ input_folder
                 +:+ "'. Cannot determine ROI.")
  | sample_tif_path :: _ =>
      print ("Using sample file for ROI and reference grid: "
             +:+ Py.basename sample_tif_path);;
      defined ← try_except
                  (coords ← get_roi_coords_from_tif sample_tif_path;
                   raise_if (ee_Geometry_Polygon coords);;
                   print ("Successfully defined ROI geometry using "
                          +:+ TARGET_CRS +:+ ".");;
                   ret true)
                  (fun e =>
                     print ("Error defining ROI from "
                            +:+ Py.basename sample_tif_path);;
                     ret false);
      if (defined : bool) then
        target_dates ← get_dates_from_filenames input_folder;
        match target_dates with
        | [] => print "Error: Could not find any valid dates from filenames in the LST folder."
        | _ =>
            print ("Found " +:+ pretty (List.length target_dates)
                   +:+ " unique dates to process.");;
            for_each target_dates
              (fun date =>
                 print ("--- Processing Date: " +:+ Datetime.strftime date +:+ " ---");;
                 get_era5_for_date date output_folder sample_tif_path);;
            print "--- Final Verification Pass ---";;
            m' ← get_fs;
            for_each (glob m' (Py.path_join output_folder "*.tif"))
                     (fun f => _ ← verify_image f; ret tt);;
            print "ERA5 data retrieval process complete."
        end
      else ret tt
  end.
End Era5.
End era5_retriever.

(** ** gldas21_retriever.py *)

Module gldas21_retriever.
Section Gldas.
Variable reproject : raster -> nat -> raster -> option band.
Variable glob : string -> list string.

(** [rasterio.warp.transform_bounds(ds.crs, TARGET_CRS, *ds.bounds)] and
    [ee.Geometry.Polygon(roi_coords, proj=TARGET_CRS, evenOdd=False)] on the
    corners of a dataset: [None] when the call returns, else the exception it
    raises. Both work on the client side. *)
Variable transform_bounds : raster -> option exn.
Variable ee_Geometry_Polygon : raster -> option exn.

Definition TARGET_CRS : string := "EPSG:4326".

Definition SKIP_EXISTING : bool := true.

Definition GLDAS_BANDS : list string :=
  ["SoilTMP0_10cm_inst"; "SoilTMP10_40cm_inst";
   "SoilTMP40_100cm_inst"; "SoilTMP100_200cm_inst"].

(** Opens the sample raster for its bounds. The coordinates only travel to
    the remote side, so the dataset stands for them. *)
Definition get_roi_coords_from_tif (tif_path : string) : M raster :=
  ds ← rasterio_open tif_path;
  match crs ds with
  | Some c =>
      (if bool_decide (c ≠ TARGET_CRS) then raise_if (transform_bounds ds)
       else ret tt);;
      ret ds
  | None => raise AttributeError                   (* ds.crs.to_string() *)
  end.

Fixpoint insert_date (d : datetime) (l : list datetime) : list datetime :=
  match l with
  | [] => [d]
  | x :: r => if bool_decide (d = x) then l
              else if Datetime.ltb d x then d :: l else x :: insert_date d r
  end.

(** [sorted(dates)] of the set of dates parsed from the file names. *)
Definition get_dates_from_folder (folder_path : string) : list datetime :=
  fold_left
    (fun dates tif =>
       let base := Py.basename tif in
       let d := Py.replace ".tif" "" (Py.split_last "_" base) in
       match Datetime.strptime d with
       | Some date => insert_date date dates
       | None => dates
       end)
    (glob (Py.path_join folder_path "*.tif")) [].

Definition verify_image (img_path : string) : M bool :=
  try_except
    (src ← rasterio_open img_path;
     ret (bool_decide (is_Some (crs src)) && (0 <? width src)%Z && (0 <? height src)%Z))
    (fun e => ret false).

Definition export_ee_image (bands : list string) (out_path : string) : M unit :=
  let tmp_dir := Py.path_join (Py.dirname out_path) "tmp_dl" in
  os_makedirs tmp_dir;;
  try_finally
    (try_except
       (n_bands ← getInfo_number;                  (* image.bandNames().size().getInfo() *)
        if (n_bands =? 0)%Z then print "No bands after clipping; skipping."
        else
          url ← getInfo_text;                       (* image.getDownloadURL(...) *)
          let zip_path := Py.path_join tmp_dir "dl.zip" in
          resp ← requests_get url;
          raise_for_status (fst resp);;
          fs_write (fun m => <[zip_path := snd resp]> m);;
          zf ← zip_open zip_path;
          let tif_files := List.filter (fun f => Py.endswith f ".tif") (dict_keys zf) in
          match tif_files with
          | [] => print "ZIP had no tif. Skipped."
          | _ =>
            for_each tif_files (fun tif => zip_extract zf tif tmp_dir);;
            let ordered_tifs :=
              let matched := era5_retriever.order_tifs bands tif_files in
              if bool_decide (List.length matched ≠ List.length bands)
              then tif_files else matched in
            match ordered_tifs with
            | [] => raise OSError
            | first_tif :: _ =>
              src0 ← rasterio_open (Py.path_join tmp_dir first_tif);
              let profile := src0 in
              band_arrays ← era5_retriever.read_first_bands tmp_dir ordered_tifs;
              rasterio_create out_path profile (List.length band_arrays);;
              era5_retriever.write_bands out_path 1 band_arrays;;
              print ("Saved multi-band " +:+ Py.basename out_path)
            end
          end)
       (fun e => print ("Error export " +:+ out_path)))
    (shutil_rmtree tmp_dir).

Definition resample_to_match_reference (source_path reference_path : string) : M unit :=
  try_except
    (ref ← rasterio_open reference_path;
     src ← rasterio_open source_path;
     if (width src =? width ref)%Z && (height src =? height ref)%Z
        && affine_eqb (transform src) (transform ref)
     then ret tt                                    (* already aligned *)
     else
       let ref_meta :=
         mk_raster (crs ref) (transform ref) (width ref) (height ref)
                   (dtype src) (nodata src) [] in
       let temp_out := source_path +:+ ".resampled.tif" in
       rasterio_create temp_out ref_meta (count src);;
       era5_retriever.reproject_bands reproject src temp_out ref_meta
                                      (seq 1 (count src));;
       shutil_move temp_out source_path)
    (fun e => print ("Resample error for " +:+ Py.basename source_path)).

(** The body of the loop over the dates in [download_gldas_lsts]. *)
Definition download_gldas_date (out_folder sample_tif : string) (date : datetime)
  : M unit :=
  let date_str := Datetime.strftime date in
  let out_path := Py.path_join out_folder ("GLDAS21_" +:+ date_str +:+ ".tif") in
  present ← path_exists out_path;
  verified ← (if SKIP_EXISTING && present then verify_image out_path else ret false);
  if (verified : bool) then
    resample_to_match_reference out_path sample_tif;;
    print ("Skip existing verified " +:+ Py.basename out_path)
  else
    try_except
      (export_ee_image GLDAS_BANDS out_path;;
       now_present ← path_exists out_path;
       (if (now_present : bool) then resample_to_match_reference out_path sample_tif
        else ret tt);;
       sleep 500)
      (fun e =>
         match e with
         | EEException => print ("EE error " +:+ date_str)
         | _ => print ("Error " +:+ date_str)
         end).

(** [Path(folder).glob('*.tif')], in the order the operating system lists
    the entries. *)
Variable path_glob : string -> list string.

Definition download_gldas_lsts (lst_folder out_folder : string) : M unit :=
  os_makedirs out_folder;;
  match path_glob lst_folder with
  | [] => print ("No sample tif in " +:+ lst_folder +:+ ". Abort GLDAS.")
  | sample_tif :: _ =>
      roi_coords ← get_roi_coords_from_tif sample_tif;
      raise_if (ee_Geometry_Polygon roi_coords);;
      match get_dates_from_folder lst_folder with
      | [] => print ("No valid dates parsed from " +:+ lst_folder +:+ ".")
      | dates =>
          print ("GLDAS: Processing " +:+ pretty (List.length dates)
                 +:+ " dates for ROI derived from " +:+ Py.basename sample_tif +:+ ".");;
          for_each dates (download_gldas_date out_folder sample_tif)
      end
  end.
End Gldas.
End gldas21_retriever.

(** ** ndvi_retrieval.py *)

Module ndvi_retrieval.

Definition max_retries : nat := 3.

(** One pass of the retry loop's [try] block with its handlers and its
    [finally]; the result is [download_success]. *)
Definition download_attempt (ndvi_name date_str download_url final_tif_path : string)
    (attempt : nat) : M bool :=
  temp_dir ← mkdtemp;
  let zip_path := Py.path_join temp_dir (ndvi_name +:+ date_str +:+ ".zip") in
  try_finally
    (try_except
       (response ← requests_get download_url;
        raise_for_status (fst response);;
        if (fst response =? 200)%Z then
          fs_write (fun m => <[zip_path := snd response]> m);;
          zip_ref ← zip_open zip_path;
          let tif_in_zip :=
            List.filter (fun f => Py.endswith (Py.lower f) ".tif") (dict_keys zip_ref) in
          match tif_in_zip with
          | extracted_tif_name :: _ =>
              zip_extract zip_ref extracted_tif_name temp_dir;;
              let extracted_tif_path := Py.path_join temp_dir extracted_tif_name in
              shutil_move extracted_tif_path final_tif_path;;
              ret true                                  (* download_success; break *)
          | [] =>
              print ("No TIFF file found in ZIP for " +:+ date_str +:+ ". Retrying...");;
              ret false
          end
        else
          print ("Download failed for " +:+ date_str +:+ ". Retrying...");;
          ret false)
       (fun e =>
          match e with
          | RequestException => print ("Request error for " +:+ date_str)
          | BadZipFile =>
              print ("Downloaded file is a bad ZIP for " +:+ date_str
                     +:+ ". Retrying download...")
          | _ => print ("Unhandled error during download or processing for " +:+ date_str)
          end;;
          ret false))
    (shutil_rmtree temp_dir).

(** [for attempt in range(max_retries)], leaving at the first success. *)
Fixpoint retry_loop (ndvi_name date_str download_url final_tif_path : string)
    (attempts : list nat) : M bool :=
  match attempts with
  | [] => ret false
  | attempt :: rest =>
      download_success ← download_attempt ndvi_name date_str download_url
                                          final_tif_path attempt;
      if (download_success : bool) then ret true
      else
        (if (attempt <? max_retries - 1)%nat
         then sleep (2000 * (Z.of_nat attempt + 1)) else ret tt);;
        retry_loop ndvi_name date_str download_url final_tif_path rest
  end.

Definition failed_message (date_str : string) : string :=
  "Failed to download and process NDVI for " +:+ date_str
  +:+ " after " +:+ pretty max_retries +:+ " attempts.".

(** The retry loop and the error line that follows it. *)
Definition download_with_retries (ndvi_name date_str download_url final_tif_path : string)
    : M unit :=
  download_success ← retry_loop ndvi_name date_str download_url final_tif_path
                                (seq 0 max_retries);
  if (download_success : bool) then ret tt
  else print (failed_message date_str).

(** The body of the loop over the composites. *)
Definition download_image (out_folder ndvi_name : string) (i : nat) : M unit :=
  exclude_date_value ← getInfo_number;       (* ee.Date('1900-01-01').millis().getInfo() *)
  has_ndvi ← getInfo_flag;                   (* image.bandNames().contains('NDVI').getInfo() *)
  placeholder ← (if (has_ndvi : bool)
                 then (t ← getInfo_number; ret (t =? exclude_date_value)%Z)
                 else ret true);
  if (placeholder : bool) then ret tt        (* continue *)
  else
    date_str ← getInfo_text;
    let final_tif_path := Py.path_join out_folder (ndvi_name +:+ date_str +:+ ".tif") in
    present ← path_exists final_tif_path;
    if (present : bool) then
      print ("Skipping download for " +:+ date_str +:+ ", file already exists: "
             +:+ final_tif_path)
    else
      download_url ← getInfo_text;           (* image.select('NDVI').getDownloadURL(params) *)
      download_with_retries ndvi_name date_str download_url final_tif_path.

(** The log line about a newly made output folder is left out: whether the
    folder was there before is not part of the file map. *)
Definition download_ndvi (big_folder ndvi_name roi_name folder_name : string) : M unit :=
  size ← getInfo_number;                     (* ndvi_composites.size().getInfo() *)
  let out_folder := Py.path_join (Py.path_join big_folder roi_name) folder_name in
  present ← path_exists out_folder;
  (if (present : bool) then ret tt else os_makedirs out_folder);;
  for_each (seq 0 (Z.to_nat size)) (download_image out_folder ndvi_name).

End ndvi_retrieval.

(** * Vocabulary of the properties *)

(** ** DateIndex *)

Section DateIndexVocabulary.
Import synchronize_ndvi_to_lst.

(** The date a file name carries: the first date-shaped token of the base
    name, when it is a real calendar day. *)
Definition parsed_date (file_path : string) : option datetime :=
  match Py.re_search Py.date_pattern (Py.basename file_path) with
  | Some group1 => Datetime.strptime group1
  | None => None
  end.

(** The reading of C3 that the code does not meet: of two dates at the same,
    smallest distance from the target, the earlier one's path is returned
    whatever order the scan listed the files in. *)
Definition earliest_wins_on_ties : Prop :=
  ∀ (glob : string → list string) (folder : string)
    (target_date d1 d2 : datetime) (p1 : string),
    let source_map := get_image_date_map glob folder in
    dict_get d1 source_map = Some p1 →
    d2 ∈ dict_keys source_map →
    (Datetime.toordinal d1 < Datetime.toordinal d2)%Z →
    Datetime.abs_diff d1 target_date = Datetime.abs_diff d2 target_date →
    Forall (λ d, Datetime.abs_diff d1 target_date
                 ≤ Datetime.abs_diff d target_date)%Z (dict_keys source_map) →
    find_nearest_image target_date source_map = Some p1.
End DateIndexVocabulary.

(** ** ValueRangeFilter *)

Global Instance spec_float_eq_dec : EqDecision spec_float.
Proof. solve_decision. Defined.

Section RangeFilterVocabulary.
Import filter_lst_range.
Variables (lower_bound upper_bound : spec_float).

Abbreviation masked := (mask_assign_nan lower_bound upper_bound).
Abbreviation msum := (mask_sum lower_bound upper_bound).

(** A band as the loop reads it: every sample cast to float32. *)
Definition as_read (b : band) : band := map astype_float32 b.

(** What the loop leaves of a band: the masked float32 samples when one of
    them is outside the range, else the band as it was. *)
Definition filter_band (b : band) : band :=
  if (0 <? msum (as_read b))%nat then masked (as_read b) else b.

(** The number of samples outside the range, over all bands. *)
Definition total_outside (bs : list band) : nat :=
  foldr (λ b n, msum (as_read b) + n)%nat 0%nat bs.

(** The raster the filter leaves behind: untouched when every sample is in
    range, else with the filtered bands and NaN as its no-data value. *)
Definition filtered (r : raster) : raster :=
  if (0 <? total_outside (bands r))%nat
  then mk_raster (crs r) (transform r) (width r) (height r) (dtype r)
                 (Some S754_nan) (map filter_band (bands r))
  else r.

Definition report (p : string) (r : raster) : event :=
  if (0 <? total_outside (bands r))%nat
  then Replaced (Py.basename p) (total_outside (bands r)) (count r)
  else AllInRange (Py.basename p).

(** A float32 value in float32 form: a NaN, an infinity, a zero, or a
    mantissa and an exponent that are the canonical ones of binary32. On such
    values [SFltb], [SFleb] and [SFeqb] are the comparisons of the numbers. *)
Definition is_float32 (x : spec_float) : bool := valid_binary 24 128 x.

(** A raster of data type float32 whose samples are float32 values. *)
Definition float32_raster (r : raster) : Prop :=
  dtype r = "float32" ∧ Forall (Forall (λ x, is_float32 x = true)) (bands r).


End RangeFilterVocabulary.

(** ** GridAligner *)

Section GridAlignerVocabulary.
Variable reproject : raster → nat → raster → option band.

(** The test that guards the resampling. *)
Definition aligned (s r : raster) : bool :=
  (width s =? width r)%Z && (height s =? height r)%Z
  && affine_eqb (transform s) (transform r).

(** The header of the output: the reference grid with the source's data
    type and no-data value. *)
Definition target_meta (s r : raster) : raster :=
  mk_raster (crs r) (transform r) (width r) (height r) (dtype s) (nodata s) [].

Definition temp_path (source_path : string) : string :=
  source_path +:+ ".resampled.tif".

(** The bands after the loop over [idxs], and whether every warp went
    through. *)
Fixpoint reproject_all (s meta : raster) (idxs : list nat) (bs : list band)
  : list band * bool :=
  match idxs with
  | [] => (bs, true)
  | i :: rest =>
      match reproject s i meta with
      | Some data => reproject_all s meta rest (<[(i - 1)%nat := data]> bs)
      | None => (bs, false)
      end
  end.

(** What an uninterrupted call does to the files. *)
Definition resample_fs (source_path reference_path : string) (m : gmap string file)
  : gmap string file :=
  match m !! reference_path, m !! source_path with
  | Some (GeoTiff r), Some (GeoTiff s) =>
      if aligned s r then m
      else
        let meta := target_meta s r in
        let blank := replicate (count s) (blank_band meta) in
        match reproject_all s meta (seq 1 (count s)) blank with
        | (bs, true) =>
            <[source_path := GeoTiff (set_bands meta bs)]> (delete (temp_path source_path) m)
        | (bs, false) =>
            <[temp_path source_path := GeoTiff (set_bands meta bs)]> m
        end
  | _, _ => m
  end.
End GridAlignerVocabulary.

(** ** Fetching *)

Definition era5_out_path (out_folder : string) (date : datetime) : string :=
  Py.path_join out_folder ("ERA5_data_" +:+ Datetime.strftime date +:+ ".tif").

Definition gldas_out_path (out_folder : string) (date : datetime) : string :=
  Py.path_join out_folder ("GLDAS21_" +:+ Datetime.strftime date +:+ ".tif").

(** The names of a package that the retry loop takes for GeoTIFFs. *)
Definition tif_members (members : list (string * option raster)) : list string :=
  List.filter (λ f, Py.endswith (Py.lower f) ".tif") (dict_keys members).

(** The answers that end the retry loop: status 200 with a ZIP body that has
    a member named [*.tif]. Request errors, other statuses, a body that is no
    ZIP and a ZIP without a TIFF all count as failures. *)
Definition reply_ok (r : reply) : bool :=
  match r with
  | Http status (ZipArchive members) =>
      (status =? 200)%Z && bool_decide (tif_members members ≠ [])
  | _ => false
  end.

(** The sleeps of a trace, in order. *)
Definition sleeps (t : list event) : list Z :=
  omap (λ e, match e with Sleep z => Some z | _ => None end) t.

(** The world after one more network request. *)
Definition bump (w : world) : world :=
  mk_world (fs w) (remote w) (S (net w)) (temps w) (trace w) (interrupt w).

(** ** Footprints *)

(** [confined P m]: a run of [m] that no interruption is pending for ends
    without one, and changes no path outside [P] (it may raise). *)
Definition confined (P : string → Prop) {A : Type} (m : M A) : Prop :=
  ∀ w, interrupt w = None →
    (m w).1 ≠ Interrupted
    ∧ interrupt (m w).2 = None
    ∧ ∀ p, ¬ P p → fs (m w).2 !! p = fs w !! p.

(** [unfailing P m]: moreover the run ends normally, whatever the files and
    the remote side hold. *)
Definition unfailing (P : string → Prop) {A : Type} (m : M A) : Prop :=
  ∀ w, interrupt w = None →
    (∃ x, (m w).1 = Ok x)
    ∧ interrupt (m w).2 = None
    ∧ ∀ p, ¬ P p → fs (m w).2 !! p = fs w !! p.

(** The paths below a directory, as [shutil.rmtree] sees them. *)
Definition under (dir : string) (p : string) : Prop :=
  String.prefix (dir +:+ "/") p = true.

(** The files of a package that the exports merge, in the order they are
    merged in: the [*.tif] members matched to the requested bands, or, when
    some band has no match, the members in the package's own order. *)
Definition export_order (bands : list string)
    (members : list (string * option raster)) : list string :=
  let tif_files := List.filter (λ f, Py.endswith f ".tif") (dict_keys members) in
  let matched := era5_retriever.order_tifs bands tif_files in
  if bool_decide (List.length matched ≠ List.length bands) then tif_files else matched.

(** A member of a package as a file on disk. *)
Definition member_file (members : list (string * option raster)) (name : string)
  : file :=
  match dict_get name members with
  | Some (Some r) => GeoTiff r
  | _ => OtherBytes
  end.

(** Two characters that no class of the date pattern tells apart. *)
Definition same_class (a b : ascii) : Prop :=
  Py.is_digit a = Py.is_digit b ∧ Py.is_char "-" a = Py.is_char "-" b.

(** Strings of one length whose characters are of the same class, place by
    place. *)
Fixpoint same_shape (s t : string) : Prop :=
  match s, t with
  | EmptyString, EmptyString => True
  | String a s', String b t' => same_class a b ∧ same_shape s' t'
  | _, _ => False
  end.

(** [c] does not occur in [s]. *)
Fixpoint lacks (c : ascii) (s : string) : bool :=
  match s with
  | EmptyString => true
  | String x r => negb (Py.is_char c x) && lacks c r
  end.

(** Member names that [ZipFile.extract(name, dir)] puts at [dir/name], the
    path the code looks at afterwards, and whose content is the entry found
    first: flat names (no directory part, so no leading slash, no empty, [.]
    or [..] part that [extract] would drop), none of them twice. *)
Definition flat_names (names : list string) : bool :=
  bool_decide (NoDup names) && forallb (lacks "/") names.

(** An answer whose package, if it is one, has such names for the members
    that the NDVI retry loop takes for GeoTIFFs. *)
Definition flat_package (r : reply) : bool :=
  match r with
  | Http _ (ZipArchive members) => flat_names (tif_members members)
  | _ => true
  end.

(** [s] is not empty and does not end in a slash, whatever is put before it. *)
Definition plain_end (s : string) : Prop :=
  ∀ acc, String.prefix "/" (String.rev_app s acc) = false.

(** The directory [tempfile.mkdtemp()] hands out next. *)
Definition next_temp_dir (w : world) : string := "/tmp/tmp" +:+ pretty (temps w).

(** What an accepted package puts at the final path: its first member named
    [*.tif]. *)
Definition fetched (r : reply) : option file :=
  match r with
  | Http _ (ZipArchive members) =>
      match tif_members members with
      | name :: _ =>
          match dict_get name members with
          | Some (Some x) => Some (GeoTiff x)
          | Some None => Some OtherBytes
          | None => None
          end
      | [] => None
      end
  | _ => None
  end.

(** The first accepted answer among the next [k] of the remote side. *)
Fixpoint first_accepted (answers : nat → reply) (n k : nat) : option reply :=
  match k with
  | O => None
  | S k' => if reply_ok (answers n) then Some (answers n)
            else first_accepted answers (S n) k'
  end.

(** [m], started with no interruption pending, is not interrupted, lets out
    no exception other than those in [E], and changes no path outside [P]. *)
Definition raises_only (E : exn → Prop) (P : string → Prop) {A : Type} (m : M A)
  : Prop :=
  ∀ w, interrupt w = None →
    match (m w).1 with Ok _ => True | Raised e => E e | Interrupted => False end
    ∧ interrupt (m w).2 = None
    ∧ ∀ p, ¬ P p → fs (m w).2 !! p = fs w !! p.

(** What the batch functions' reading of the region of interest from the
    sample raster ends on: [None] when the region is obtained, else the
    exception raised by [rasterio.open], [dataset.crs.to_string()],
    [transform_bounds] (called when the CRS is not the target CRS) or
    [ee.Geometry.Polygon]. *)
Definition roi_error (transform_bounds ee_Geometry_Polygon : raster → option exn)
    (m : gmap string file) (sample_tif : string) : option exn :=
  match m !! sample_tif with
  | Some (GeoTiff r) =>
      match crs r with
      | None => Some AttributeError
      | Some c =>
          match (if bool_decide (c ≠ "EPSG:4326") then transform_bounds r else None) with
          | Some e => Some e
          | None => ee_Geometry_Polygon r
          end
      end
  | _ => Some RasterioIOError
  end.

(** The paths one date of the ERA5 batch may change: its output, the
    aligner's temporary neighbour, and the download directory. *)
Definition era5_footprint (out_folder : string) (date : datetime) (p : string) : Prop :=
  p = era5_out_path out_folder date
  ∨ p = temp_path (era5_out_path out_folder date)
  ∨ under (Py.path_join (Py.dirname (era5_out_path out_folder date)) "temp_dl") p.

(** The same for one date of the GLDAS batch. *)
Definition gldas_footprint (out_folder : string) (date : datetime) (p : string) : Prop :=
  p = gldas_out_path out_folder date
  ∨ p = temp_path (gldas_out_path out_folder date)
  ∨ under (Py.path_join (Py.dirname (gldas_out_path out_folder date)) "tmp_dl") p.

(** ** Sample inputs *)

Module Sample.

(** float32 values: 259, 260, 300, 340, 341 and some georeferencing numbers. *)
Definition f259 : spec_float := S754_finite false 8486912 (-15).
Definition f260 : spec_float := S754_finite false 8519680 (-15).
Definition f300 : spec_float := S754_finite false 9830400 (-15).
Definition f340 : spec_float := S754_finite false 11141120 (-15).
Definition f341 : spec_float := S754_finite false 11173888 (-15).
Definition f1 : spec_float := S754_finite false 8388608 (-23).
Definition f2 : spec_float := S754_finite false 8388608 (-22).
Definition zero : spec_float := S754_zero false.

(** A north-up grid with pixel size 1, and one with pixel size 2. *)
Definition grid1 : affine := mk_affine f1 zero f300 zero (SFopp f1) f340.
Definition grid2 : affine := mk_affine f2 zero f300 zero (SFopp f2) f340.

(** The LST reference: 2 x 2, one band, with one sample below and one above
    the range 260..340. *)
Definition lst : raster :=
  mk_raster (Some "EPSG:4326") grid1 2 2 "float32" None [[f260; f259; f341; f340]].


(** Two single-band tiles on the coarser grid, as a provider sends them. *)
Definition tile_a : raster :=
  mk_raster (Some "EPSG:4326") grid2 1 1 "float32" None [[f300]].
Definition tile_b : raster :=
  mk_raster (Some "EPSG:4326") grid2 1 1 "float32" None [[f340]].

(** A two-band ERA5 output still on the coarse grid, and one already on the
    reference grid. *)
Definition era5_coarse : raster :=
  mk_raster (Some "EPSG:4326") grid2 1 1 "float32" None [[f300]; [f340]].
Definition era5_fine : raster :=
  mk_raster (Some "EPSG:4326") grid1 2 2 "float32" None
            [[f300; f300; f300; f300]; [f340; f340; f340; f340]].

(** A raster without CRS: it exists but does not pass verification. *)
Definition no_crs : raster :=
  mk_raster None grid1 2 2 "float32" None [[f300; f300; f300; f300]].

(** A stand-in for the warp: every destination sample takes the first
    sample of the source band. *)
Definition reproject (src : raster) (i : nat) (dst : raster) : option band :=
  match bands src !! (i - 1)%nat with
  | Some (x :: _) => Some (replicate (Z.to_nat (width dst * height dst)) x)
  | _ => None
  end.

Definition date : datetime := mk_datetime 2022 1 15.
Definition lst_path : string := "lst/lst_2022-01-15.tif".
Definition era5_path : string := "out/ERA5_data_2022-01-15.tif".
Definition gldas_path : string := "out/GLDAS21_2022-01-15.tif".

Definition offline (n : nat) : reply := Fails RequestException.

Definition world_of (m : gmap string file) (answers : nat → reply)
    (stop : option nat) : world :=
  mk_world m answers 0 0 [] stop.

(** The answers of a provider to one ERA5 export: collection size, band
    names, download URL, package. *)
Definition era5_answers (n : nat) : reply :=
  match n with
  | 0 => Number 1
  | 1 => Names ["temperature_2m"; "skin_temperature"]
  | 2 => Text "https://earthengine.example/download"
  | 3 => Http 200 (ZipArchive [("img.skin_temperature.tif", Some tile_b);
                               ("img.temperature_2m.tif", Some tile_a)])
  | _ => Fails EEException
  end%nat.

(** The answers to one NDVI composite: the four metadata queries, the URL,
    then a request error, a body that is no ZIP, and a good package. *)
Definition ndvi_answers (n : nat) : reply :=
  match n with
  | 0 => Number (-2208988800000)
  | 1 => Flag true
  | 2 => Number 1642204800000
  | 3 => Text "2022-01-15"
  | 4 => Text "https://earthengine.example/ndvi"
  | 5 => Fails RequestException
  | 6 => Http 200 OtherBytes
  | 7 => Http 200 (ZipArchive [("download.NDVI.tif", Some tile_a)])
  | _ => Fails RequestException
  end%nat.

(** The answers to a batch of two NDVI composites: the size of the
    collection, then for the first composite the four metadata queries and
    [url_reply] to the download-URL query and [package_reply] to each of its
    package requests, then for the second composite answered queries and a
    good package. [after] is the number of requests the first composite
    makes once its metadata is known. *)
Definition ndvi_batch_answers (url_reply package_reply : reply) (after : nat)
    (n : nat) : reply :=
  match n with
  | 0 => Number 2
  | 1 => Number (-2208988800000)
  | 2 => Flag true
  | 3 => Number 1642204800000
  | 4 => Text "2022-01-15"
  | 5 => url_reply
  | _ =>
      if (n <? 5 + after)%nat then package_reply
      else match (n - (5 + after))%nat with
           | 0 => Number (-2208988800000)
           | 1 => Flag true
           | 2 => Number 1642896000000
           | 3 => Text "2022-01-23"
           | 4 => Text "https://earthengine.example/ndvi"
           | _ => Http 200 (ZipArchive [("download.NDVI.tif", Some tile_a)])
           end
  end%nat.

End Sample.

(** * Properties *)

(** ** Facts about dicts and [min] *)

Section DictFacts.
Context {K V : Type} `{EqDecision K}.
Implicit Types (d : list (K * V)) (k : K) (v : V).

Lemma dict_get_setitem_eq k v d : dict_get k (dict_setitem k v d) = Some v.
Proof.
  induction d as [|[k' v'] r IH]; simpl.
  - by case_decide.
  - case_decide; simplify_eq/=; by case_decide.
Qed.

Lemma dict_get_setitem_ne k k' v d :
  k ≠ k' → dict_get k' (dict_setitem k v d) = dict_get k' d.
Proof.
  intros Hne. induction d as [|[k0 v0] r IH]; simpl.
  - by case_decide.
  - case_decide; simplify_eq/=; repeat case_decide; by simplify_eq.
Qed.

Lemma dict_keys_setitem k v d :
  dict_keys (dict_setitem k v d)
  = if decide (k ∈ dict_keys d) then dict_keys d else dict_keys d ++ [k].
Proof.
  unfold dict_keys. induction d as [|[k' v'] r IH]; simpl.
  - destruct (decide (k ∈ [])) as [Hin|Hin]; [by apply elem_of_nil in Hin | done].
  - destruct (decide (k = k')) as [->|Hk]; simpl.
    + rewrite decide_True; [done | left].
    + rewrite IH. destruct (decide (k ∈ map fst r)) as [Hin|Hin].
      * rewrite decide_True; [done | by right].
      * rewrite decide_False; [done |].
        intros Hin'. apply elem_of_cons in Hin' as [?|?]; done.
Qed.

Lemma dict_keys_setitem_NoDup k v d :
  NoDup (dict_keys d) → NoDup (dict_keys (dict_setitem k v d)).
Proof.
  intros Hnd. rewrite dict_keys_setitem. case_decide; [done |].
  apply NoDup_app. split_and!; [done | | apply NoDup_singleton].
  intros x Hx Hx'. apply list_elem_of_singleton in Hx'. by subst.
Qed.

Lemma dict_get_app_notin k d1 d2 :
  k ∉ dict_keys d1 → dict_get k (d1 ++ d2) = dict_get k d2.
Proof.
  unfold dict_keys. induction d1 as [|[k' v'] r IH]; simpl; [done |].
  intros Hn. destruct (decide (k = k')) as [->|Hk].
  - exfalso. apply Hn. left.
  - apply IH. intros Hin. apply Hn. by right.
Qed.

Lemma dict_get_elem_of k v d : dict_get k d = Some v → (k, v) ∈ d.
Proof.
  induction d as [|[k' v'] r IH]; simpl; [done |].
  case_decide; intros ?; simplify_eq; [left | right; auto].
Qed.
End DictFacts.

Lemma find_app {A : Type} (p : A → bool) (l1 l2 : list A) :
  List.find p (l1 ++ l2)
  = match List.find p l1 with Some x => Some x | None => List.find p l2 end.
Proof. induction l1 as [|x l1 IH]; simpl; [done |]. by destruct (p x). Qed.


Section MinFacts.
Context {A : Type} (f : A → Z).

(** The running minimum is an element of the list and no element beats it. *)
Lemma py_min_from_least (best : A) (rest : list A) :
  py_min_from f best rest ∈ best :: rest
  ∧ Forall (λ x, f (py_min_from f best rest) ≤ f x)%Z (best :: rest).
Proof.
  revert best. induction rest as [|x r IH]; intros best; simpl.
  - split; [left | by repeat constructor].
  - destruct (Z.ltb_spec (f x) (f best)) as [Hlt|Hge].
    + destruct (IH x) as [Hin Hall]. split; [by right |].
      pose proof Hall as Hall'. apply Forall_cons in Hall' as [Hx _].
      constructor; [lia | done].
    + destruct (IH best) as [Hin Hall]. split.
      * apply elem_of_cons in Hin as [->|Hin]; [left | right; by right].
      * apply Forall_cons in Hall as [Hb Hall].
        constructor; [done |]. constructor; [lia | done].
Qed.

(** The first of the minimal elements is the one returned. *)
Lemma py_min_from_first (l1 l2 : list A) (m best : A) (rest : list A) :
  best :: rest = l1 ++ m :: l2 →
  Forall (λ x, f m < f x)%Z l1 →
  Forall (λ x, f m ≤ f x)%Z l2 →
  py_min_from f best rest = m.
Proof.
  revert best l1 l2. induction rest as [|x r IH]; intros best l1 l2 Heq H1 H2; simpl.
  - destruct l1 as [|y [|? ?]]; by simplify_eq/=.
  - destruct l1 as [|y l1]; simplify_eq/=.
    + apply Forall_cons in H2 as [Hx H2].
      destruct (Z.ltb_spec (f x) (f m)); [lia |].
      by apply (IH m [] r).
    + apply Forall_cons in H1 as [Hy H1].
      destruct (Z.ltb_spec (f x) (f y)) as [Hlt|Hge].
      * by apply (IH x l1 l2).
      * destruct l1 as [|z l1]; simplify_eq/=; [lia |].
        apply Forall_cons in H1 as [Hz H1].
        apply (IH y (y :: l1) l2); [done | by constructor | done].
Qed.
End MinFacts.

(** ** DateIndex: [get_image_date_map] and [find_nearest_image] *)

Section DateIndex.
Import synchronize_ndvi_to_lst.

Lemma date_map_step_parsed (date_map : list (datetime * string)) (file_path : string) :
  date_map_step date_map file_path
  = match parsed_date file_path with
    | Some d => dict_setitem d file_path date_map
    | None => date_map
    end.
Proof.
  unfold date_map_step, parsed_date.
  by destruct (Py.re_search _ _) as [g|]; [destruct (Datetime.strptime g)|].
Qed.

Lemma fold_date_map (files : list string) (acc : list (datetime * string)) :
  NoDup (dict_keys acc) →
  NoDup (dict_keys (fold_left date_map_step files acc))
  ∧ ∀ d, dict_get d (fold_left date_map_step files acc)
         = match List.find (λ f, bool_decide (parsed_date f = Some d)) (rev files) with
           | Some f => Some f
           | None => dict_get d acc
           end.
Proof.
  revert acc. induction files as [|file rest IH]; intros acc Hnd; simpl; [done |].
  rewrite date_map_step_parsed.
  destruct (parsed_date file) as [d0|] eqn:Hd0.
  - destruct (IH (dict_setitem d0 file acc)) as [Hnd' Hget];
      [by apply dict_keys_setitem_NoDup |].
    split; [done |]. intros d. rewrite Hget, find_app.
    destruct (List.find _ (rev rest)); [done |]. simpl. rewrite Hd0.
    case_bool_decide; simplify_eq.
    + apply dict_get_setitem_eq.
    + apply dict_get_setitem_ne. congruence.
  - destruct (IH acc Hnd) as [Hnd' Hget]. split; [done |].
    intros d. rewrite Hget, find_app.
    destruct (List.find _ (rev rest)); [done |]. simpl. rewrite Hd0.
    by case_bool_decide.
Qed.

(** C10. However many files of the scan carry the same date, the map built
    by [get_image_date_map] has no date twice, and to each date it gives the
    path of the last file in scan order that carries it (and nothing to a
    date no file carries). *)
Theorem date_map_last_seen_wins (glob : string → list string) (folder_path : string) :
  let tif_files := glob (Py.path_join folder_path "*.tif") in
  NoDup (dict_keys (get_image_date_map glob folder_path))
  ∧ ∀ d, dict_get d (get_image_date_map glob folder_path)
         = List.find (λ f, bool_decide (parsed_date f = Some d)) (rev tif_files).
Proof.
  intros tif_files. unfold get_image_date_map. fold tif_files.
  destruct (fold_date_map tif_files []) as [Hnd Hget]; [constructor |].
  split; [done |]. intros d. rewrite Hget.
  by destruct (List.find _ _).
Qed.



(** C3, as stated, fails: with the file of 2022-01-20 listed before the file
    of 2022-01-10 and the target 2022-01-15 (both five days away), the path
    of 2022-01-20 is returned. *)
Lemma earliest_wins_on_ties_fails : ¬ earliest_wins_on_ties.
Proof.
  intros Hclaim.
  set (glob := λ _ : string, ["ndvi/ndvi8days_2022-01-20.tif";
                              "ndvi/ndvi8days_2022-01-10.tif"]).
  assert (get_image_date_map glob "ndvi"
          = [(mk_datetime 2022 1 20, "ndvi/ndvi8days_2022-01-20.tif");
             (mk_datetime 2022 1 10, "ndvi/ndvi8days_2022-01-10.tif")]) as Hmap
    by (vm_compute; reflexivity).
  assert (find_nearest_image (mk_datetime 2022 1 15) (get_image_date_map glob "ndvi")
          = Some "ndvi/ndvi8days_2022-01-20.tif") as Hnear
    by (vm_compute; reflexivity).
  specialize (Hclaim glob "ndvi" (mk_datetime 2022 1 15)
                     (mk_datetime 2022 1 10) (mk_datetime 2022 1 20)
                     "ndvi/ndvi8days_2022-01-10.tif").
  cbv zeta in Hclaim. rewrite Hnear in Hclaim. rewrite Hmap in Hclaim.
  assert (Some "ndvi/ndvi8days_2022-01-20.tif" = Some "ndvi/ndvi8days_2022-01-10.tif")
    as Habs; [|discriminate Habs].
  apply Hclaim.
  - vm_compute; reflexivity.
  - cbn. left.
  - vm_compute; reflexivity.
  - vm_compute; reflexivity.
  - repeat constructor; vm_compute; intros Hc; discriminate Hc.
Qed.

(** C3, amended. The path returned is the one stored under the first date,
    in the map's insertion order, whose distance to the target is the
    smallest: every date before it is strictly farther, every date after it
    is at least as far. Of two equidistant nearest dates, the one inserted
    first wins. *)
Theorem nearest_first_inserted_wins {V : Type} (target_date : datetime)
    (before after : list (datetime * V)) (date : datetime) (path : V) :
  Forall (λ entry, Datetime.abs_diff date target_date
                   < Datetime.abs_diff entry.1 target_date)%Z before →
  Forall (λ entry, Datetime.abs_diff date target_date
                   ≤ Datetime.abs_diff entry.1 target_date)%Z after →
  find_nearest_image target_date (before ++ (date, path) :: after) = Some path.
Proof.
  intros Hbefore Hafter. unfold find_nearest_image.
  set (f := λ d, Datetime.abs_diff d target_date).
  set (source_map := before ++ (date, path) :: after).
  assert (dict_keys source_map = map fst before ++ date :: map fst after) as Hkeys.
  { unfold source_map, dict_keys. by rewrite map_app. }
  rewrite Hkeys.
  destruct (map fst before ++ date :: map fst after) as [|k0 ks] eqn:Hk.
  { by destruct (map fst before). }
  cbn [py_min].
  rewrite (py_min_from_first f (map fst before) (map fst after) date k0 ks);
    [| done | by apply (proj2 (List.Forall_map _ _ _))
     | by apply (proj2 (List.Forall_map _ _ _))].
  unfold source_map. rewrite dict_get_app_notin.
  - simpl. by case_decide.
  - unfold dict_keys. intros Hin. apply list_elem_of_fmap in Hin as ([k v] & -> & Hin).
    rewrite Forall_forall in Hbefore. specialize (Hbefore _ Hin). simpl in *. lia.
Qed.

(** C3 amended, at the tie of the counterexample in both scan orders. *)
Lemma nearest_first_inserted_wins_witness :
  find_nearest_image (mk_datetime 2022 1 15)
    ([(mk_datetime 2022 1 1, "a")]
     ++ (mk_datetime 2022 1 20, "late") :: [(mk_datetime 2022 1 10, "early")])
  = Some "late".
Proof.
  apply (nearest_first_inserted_wins (mk_datetime 2022 1 15)
           [(mk_datetime 2022 1 1, "a")] [(mk_datetime 2022 1 10, "early")]
           (mk_datetime 2022 1 20) "late").
  - repeat constructor.
  - repeat constructor. vm_compute. intros Hc; discriminate Hc.
Defined.
End DateIndex.

(** ** Facts about float comparison *)






Lemma SFltb_nan_l (y : spec_float) : SFltb S754_nan y = false.
Proof. by destruct y. Qed.

(** ** Rounding to float32

    [binary_round] at precision 24 and exponent bound 128 returns a value of
    that format, whatever the mantissa and the exponent it starts from. *)

Section Float32Rounding.
Local Open Scope Z_scope.

Lemma digits2_pos_size (p : positive) : digits2_pos p = Pos.size p.
Proof. induction p as [p IH|p IH|]; simpl; by rewrite ?IH. Qed.

Lemma Zdigits2_log2 (p : positive) : Zdigits2 (Zpos p) = Z.succ (Z.log2 (Zpos p)).
Proof.
  unfold Zdigits2. rewrite digits2_pos_size.
  destruct p as [p|p|]; [| |done]; cbn [Pos.size Z.log2]; lia.
Qed.

Lemma Zdigits2_nonneg (m : Z) : 0 ≤ Zdigits2 m.
Proof. destruct m; simpl; lia. Qed.

Lemma Zdigits2_spec (m : Z) :
  0 < m → 2 ^ (Zdigits2 m - 1) ≤ m < 2 ^ Zdigits2 m.
Proof.
  destruct m as [|p|p]; try lia. intros _. rewrite Zdigits2_log2.
  replace (Z.succ (Z.log2 (Z.pos p)) - 1) with (Z.log2 (Z.pos p)) by lia.
  apply Z.log2_spec. lia.
Qed.

Lemma Zdigits2_unique (m k : Z) :
  0 < k → 2 ^ (k - 1) ≤ m < 2 ^ k → Zdigits2 m = k.
Proof.
  intros Hk Hm. assert (0 < m) as Hpos.
  { assert (0 < 2 ^ (k - 1)) by (apply Z.pow_pos_nonneg; lia). lia. }
  destruct m as [|p|p]; try lia. rewrite Zdigits2_log2.
  rewrite (Z.log2_unique (Z.pos p) (k - 1)); [lia | lia |].
  by replace (Z.succ (k - 1)) with k by lia.
Qed.

Lemma shr_1_m (mrs : shr_record) :
  0 ≤ shr_m mrs → shr_m (shr_1 mrs) = shr_m mrs / 2.
Proof.
  destruct mrs as [m r s]. simpl. intros Hm.
  destruct m as [|[p|p|]|p]; simpl; try done; try lia.
  - rewrite Pos2Z.inj_xI. rewrite Z.add_comm, Z.mul_comm, Z.div_add by lia. done.
  - rewrite Pos2Z.inj_xO. rewrite Z.mul_comm, Z.div_mul by lia. done.
Qed.

Lemma iter_shr_1_m (p : positive) (mrs : shr_record) :
  0 ≤ shr_m mrs → shr_m (SpecFloat.iter_pos shr_1 p mrs) = shr_m mrs / 2 ^ Zpos p.
Proof.
  revert mrs. induction p as [p IH|p IH|]; intros mrs Hm; simpl SpecFloat.iter_pos.
  - assert (0 ≤ shr_m (shr_1 mrs)) as H1.
    { rewrite shr_1_m by done. apply Z.div_pos; lia. }
    assert (0 ≤ shr_m (SpecFloat.iter_pos shr_1 p (shr_1 mrs))) as H2.
    { rewrite IH by done. apply Z.div_pos; [done | apply Z.pow_pos_nonneg; lia]. }
    rewrite IH, IH, shr_1_m by done.
    rewrite !Z.div_div by (try apply Z.pow_pos_nonneg; lia).
    f_equal. replace (Z.pos p~1) with (1 + Z.pos p + Z.pos p) by lia.
    rewrite !Z.pow_add_r by lia. lia.
  - assert (0 ≤ shr_m (SpecFloat.iter_pos shr_1 p mrs)) as H2.
    { rewrite IH by done. apply Z.div_pos; [done | apply Z.pow_pos_nonneg; lia]. }
    rewrite IH, IH by done.
    rewrite !Z.div_div by (try apply Z.pow_pos_nonneg; lia).
    f_equal. replace (Z.pos p~0) with (Z.pos p + Z.pos p) by lia.
    by rewrite Z.pow_add_r by lia.
  - by rewrite shr_1_m.
Qed.

Lemma shr_record_of_loc_m (m : Z) (l : location) : shr_m (shr_record_of_loc m l) = m.
Proof. by destruct l as [|[]]. Qed.

(** [shr_fexp]: the mantissa divided by the power of two that brings the
    exponent to the format's. *)
Lemma shr_fexp_m (prec emax m e : Z) (l : location) :
  0 ≤ m → e ≤ fexp prec emax (Zdigits2 m + e) →
  let n := fexp prec emax (Zdigits2 m + e) - e in
  shr_m (shr_fexp prec emax m e l).1 = m / 2 ^ n
  ∧ (shr_fexp prec emax m e l).2 = e + n.
Proof.
  intros Hm He n. unfold shr_fexp, shr. fold n.
  destruct n as [|p|p] eqn:Hn; simpl.
  - rewrite shr_record_of_loc_m, Z.div_1_r. split; [done | lia].
  - rewrite iter_shr_1_m by (by rewrite shr_record_of_loc_m).
    by rewrite shr_record_of_loc_m.
  - lia.
Qed.

Lemma round_nearest_even_cases (m : Z) (l : location) :
  round_nearest_even m l = m ∨ round_nearest_even m l = m + 1.
Proof. destruct l as [|[]]; simpl; try destruct (Z.even m); auto. Qed.

(** The digits of a quotient by a power of two. *)
Lemma Zdigits2_div (m n : Z) :
  0 < m → 0 ≤ n →
  (Zdigits2 m ≤ n ∧ m / 2 ^ n = 0)
  ∨ (n < Zdigits2 m ∧ Zdigits2 (m / 2 ^ n) = Zdigits2 m - n).
Proof.
  intros Hm Hn. pose proof (Zdigits2_spec m Hm) as [Hlo Hhi].
  assert (0 < 2 ^ n) as Hp by (apply Z.pow_pos_nonneg; lia).
  destruct (Z.le_gt_cases (Zdigits2 m) n) as [Hle|Hlt].
  - left. split; [done |]. apply Z.div_small. split; [lia |].
    eapply Z.lt_le_trans; [exact Hhi |]. apply Z.pow_le_mono_r; lia.
  - right. split; [done |]. apply Zdigits2_unique; [lia |].
    assert (2 ^ Zdigits2 m = 2 ^ n * 2 ^ (Zdigits2 m - n)) as E1.
    { rewrite <- Z.pow_add_r by lia. f_equal. lia. }
    assert (2 ^ (Zdigits2 m - 1) = 2 ^ n * 2 ^ (Zdigits2 m - n - 1)) as E2.
    { rewrite <- Z.pow_add_r by lia. f_equal. lia. }
    split.
    + apply Z.div_le_lower_bound; [done |]. by rewrite <- E2.
    + apply Z.div_lt_upper_bound; [done |]. by rewrite <- E1.
Qed.

(** The digits of the successor. *)
Lemma Zdigits2_succ (m : Z) :
  0 ≤ m →
  Zdigits2 (m + 1) = Zdigits2 m
  ∨ (Zdigits2 (m + 1) = Zdigits2 m + 1 ∧ m + 1 = 2 ^ Zdigits2 m).
Proof.
  intros Hm. destruct (Z.eq_dec m 0) as [->|Hne]; [right; done |].
  assert (0 < m) as Hpos by lia.
  pose proof (Zdigits2_spec m Hpos) as [Hlo Hhi].
  pose proof (Zdigits2_nonneg m) as Hd.
  assert (0 < Zdigits2 m) as Hd' by (destruct m; simpl; lia).
  destruct (Z.eq_dec (m + 1) (2 ^ Zdigits2 m)) as [E|E].
  - right. split; [|done]. apply Zdigits2_unique; [lia |].
    replace (Zdigits2 m + 1 - 1) with (Zdigits2 m) by lia. split; [lia |].
    rewrite E. apply Z.pow_lt_mono_r; lia.
  - left. apply Zdigits2_unique; [done |]. lia.
Qed.

(** What [binary_round_aux] returns is a value of the format. *)
Lemma binary_round_aux_valid (s : bool) (m e : Z) (l : location) :
  0 < m → e ≤ fexp 24 128 (Zdigits2 m + e) →
  valid_binary 24 128 (binary_round_aux 24 128 s m e l) = true.
Proof.
  intros Hm He. unfold binary_round_aux.
  destruct (shr_fexp 24 128 m e l) as [mrs1 e1] eqn:H1.
  pose proof (shr_fexp_m 24 128 m e l ltac:(lia) He) as [Hm1 He1].
  rewrite H1 in Hm1, He1. simpl in Hm1, He1.
  set (n := fexp 24 128 (Zdigits2 m + e) - e) in *.
  assert (0 ≤ n) as Hn by (unfold n; lia).
  assert (0 ≤ shr_m mrs1) as Hm1pos.
  { rewrite Hm1. apply Z.div_pos; [lia | apply Z.pow_pos_nonneg; lia]. }
  set (m2 := round_nearest_even (shr_m mrs1) (loc_of_shr_record mrs1)).
  assert (0 ≤ m2) as Hm2pos.
  { unfold m2. destruct (round_nearest_even_cases (shr_m mrs1) (loc_of_shr_record mrs1)) as [->| ->]; lia. }
  assert (-149 ≤ e1) as He1lo.
  { rewrite He1. unfold n, fexp, emin. lia. }
  assert (Zdigits2 (shr_m mrs1) ≤ 24 ∧ (-149 < e1 → Zdigits2 (shr_m mrs1) = 24)) as [Hd1 Hd1'].
  { rewrite Hm1. destruct (Zdigits2_div m n Hm Hn) as [[Hle ->]|[Hlt ->]].
    - simpl. split; [lia |]. intros Hgt. exfalso.
      revert Hle Hgt. rewrite He1. unfold n, fexp, emin.
      pose proof (Zdigits2_spec m Hm). assert (0 < Zdigits2 m) by (destruct m; simpl; lia). lia.
    - rewrite He1. revert Hlt. unfold n, fexp, emin. lia. }
  assert (Zdigits2 m2 ≤ 24 ∧ (-149 < e1 → Zdigits2 m2 = 24)
          ∨ (Zdigits2 m2 = 25 ∧ m2 = 2 ^ 24)) as Hd2.
  { unfold m2. destruct (round_nearest_even_cases (shr_m mrs1) (loc_of_shr_record mrs1)) as [->| ->].
    - by left.
    - destruct (Zdigits2_succ (shr_m mrs1) Hm1pos) as [->|[-> Hpow]]; [by left |].
      destruct (Z.eq_dec (Zdigits2 (shr_m mrs1)) 24) as [E|E].
      + right. rewrite E in *. done.
      + left. split; [lia |]. intros Hgt. specialize (Hd1' Hgt). lia. }
  fold m2.
  destruct Hd2 as [[Hd2 Hd2']|[Hd2 Hpow]].
  - assert (fexp 24 128 (Zdigits2 m2 + e1) = e1) as Hf.
    { unfold fexp, emin. destruct (Z.eq_dec e1 (-149)); [lia |].
      rewrite Hd2' by lia. lia. }
    unfold shr_fexp. rewrite Hf, Z.sub_diag. simpl.
    destruct m2 as [|p|p] eqn:Em2; simpl; [done | |done].
    destruct (Z.leb_spec e1 (128 - 24)) as [Hb|Hb]; [|done].
    simpl. unfold bounded, canonical_mantissa.
    change (Z.pos (digits2_pos p)) with (Zdigits2 (Z.pos p)).
    rewrite Hf, Z.eqb_refl. simpl. by apply Z.leb_le.
  - assert (fexp 24 128 (Zdigits2 m2 + e1) - e1 = 1) as Hf.
    { rewrite Hd2. unfold fexp, emin. lia. }
    unfold shr_fexp. rewrite Hf. rewrite Hpow. simpl.
    destruct (Z.leb_spec (e1 + 1) (128 - 24)) as [Hb|Hb]; [|done].
    simpl. unfold bounded, canonical_mantissa. simpl.
    apply andb_true_iff. split; [|by apply Z.leb_le].
    apply Z.eqb_eq. unfold fexp, emin. lia.
Qed.

Lemma pos_iter_xO (d m : positive) : Zpos (Pos.iter xO m d) = Zpos m * 2 ^ Zpos d.
Proof.
  revert m. induction d as [|d IH] using Pos.peano_ind; intros m.
  - simpl. lia.
  - rewrite Pos.iter_succ, Pos2Z.inj_xO, IH, Pos2Z.inj_succ, Z.pow_succ_r by lia. lia.
Qed.

(** Rounding to float32 gives a float32 value. *)
Lemma binary_round_valid (s : bool) (m : positive) (e : Z) :
  valid_binary 24 128 (binary_round 24 128 s m e) = true.
Proof.
  unfold binary_round, shl_align.
  change (Z.pos (digits2_pos m)) with (Zdigits2 (Z.pos m)).
  set (e' := fexp 24 128 (Zdigits2 (Z.pos m) + e)).
  destruct (e' - e) as [|d|d] eqn:Hd.
  - apply binary_round_aux_valid; [lia | fold e'; lia].
  - apply binary_round_aux_valid; [lia | fold e'; lia].
  - apply binary_round_aux_valid; [lia |].
    rewrite pos_iter_xO.
    assert (Zdigits2 (Z.pos m * 2 ^ Z.pos d) = Zdigits2 (Z.pos m) + Z.pos d) as ->.
    { pose proof (Zdigits2_spec (Z.pos m) ltac:(lia)) as [Hlo Hhi].
      assert (0 < Zdigits2 (Z.pos m)) by (simpl; lia).
      apply Zdigits2_unique; [lia |].
      replace (Zdigits2 (Z.pos m) + Z.pos d - 1) with (Zdigits2 (Z.pos m) - 1 + Z.pos d) by lia.
      rewrite !Z.pow_add_r by lia.
      assert (0 < 2 ^ Z.pos d) by (apply Z.pow_pos_nonneg; lia). nia. }
    replace (Zdigits2 (Z.pos m) + Z.pos d + e') with (Zdigits2 (Z.pos m) + e) by lia.
    fold e'. lia.
Qed.

End Float32Rounding.

(** The cast to float32 leaves a float32 value as it is. *)
Lemma astype_float32_keeps (x : spec_float) :
  is_float32 x = true → filter_lst_range.astype_float32 x = x.
Proof.
  destruct x as [s| s| |s m e]; try done.
  unfold is_float32, valid_binary, bounded, canonical_mantissa.
  intros [Hc Hb]%andb_true_iff. apply Z.eqb_eq in Hc. apply Z.leb_le in Hb.
  unfold filter_lst_range.astype_float32.
  assert (binary_round 24 128 s m e = S754_finite s m e) as Hr.
  { unfold binary_round, shl_align. rewrite Hc, Z.sub_diag.
    unfold binary_round_aux, shr_fexp. simpl Zdigits2. rewrite Hc, Z.sub_diag. simpl.
    rewrite Hc, Z.sub_diag. simpl.
    destruct (Z.leb_spec e (128 - 24)); [done | lia]. }
  destruct s; simpl; exact Hr.
Qed.

(** The cast to float32 gives a float32 value, so casting twice is casting
    once. *)
Lemma astype_float32_valid (x : spec_float) :
  is_float32 (filter_lst_range.astype_float32 x) = true.
Proof.
  destruct x as [s| s| |s m e]; try done.
  unfold is_float32, filter_lst_range.astype_float32, binary_normalize.
  destruct s; simpl; apply binary_round_valid.
Qed.

Lemma astype_float32_idem (x : spec_float) :
  filter_lst_range.astype_float32 (filter_lst_range.astype_float32 x)
  = filter_lst_range.astype_float32 x.
Proof. apply astype_float32_keeps, astype_float32_valid. Qed.

Lemma SFltb_nan_r (y : spec_float) : SFltb y S754_nan = false.
Proof. by destruct y. Qed.

(** ** Facts about the monad and the world *)

Lemma with_fs_same (w : world) : with_fs w (fs w) = w.
Proof. by destruct w. Qed.

Lemma with_fs_twice (w : world) (m1 m2 : gmap string file) :
  with_fs (with_fs w m1) m2 = with_fs w m2.
Proof. done. Qed.

Lemma set_bands_same (r : raster) : set_bands r (bands r) = r.
Proof. by destruct r. Qed.

Lemma bind_ok {A B} (m : M A) (k : A → M B) (w w' : world) (x : A) :
  m w = (Ok x, w') → (m ≫= k) w = k x w'.
Proof. intros H. unfold mbind, M_bind. by rewrite H. Qed.

Lemma bind_raised {A B} (m : M A) (k : A → M B) (w w' : world) (e : exn) :
  m w = (Raised e, w') → (m ≫= k) w = (Raised e, w').
Proof. intros H. unfold mbind, M_bind. by rewrite H. Qed.

Lemma bind_interrupted {A B} (m : M A) (k : A → M B) (w w' : world) :
  m w = (Interrupted, w') → (m ≫= k) w = (Interrupted, w').
Proof. intros H. unfold mbind, M_bind. by rewrite H. Qed.

Lemma fs_write_run (g : gmap string file → gmap string file) (w : world) :
  interrupt w = None → fs_write g w = (Ok tt, with_fs w (g (fs w))).
Proof. intros H. unfold fs_write. by rewrite H. Qed.

Lemma rasterio_open_run (p : string) (r : raster) (w : world) :
  fs w !! p = Some (GeoTiff r) → rasterio_open p w = (Ok r, w).
Proof.
  intros H. unfold rasterio_open. rewrite (bind_ok get_fs _ w w (fs w)); [|done].
  by rewrite H.
Qed.

Lemma rasterio_open_fail (p : string) (w : world) :
  (∀ r, fs w !! p ≠ Some (GeoTiff r)) → rasterio_open p w = (Raised RasterioIOError, w).
Proof.
  intros H. unfold rasterio_open. rewrite (bind_ok get_fs _ w w (fs w)); [|done].
  destruct (fs w !! p) as [[r| |]|] eqn:E; try done. by destruct (H r).
Qed.

Lemma dataset_read_run (p : string) (r : raster) (k : nat) (data : band) (w : world) :
  fs w !! p = Some (GeoTiff r) → bands r !! k = Some data →
  dataset_read p (S k) w = (Ok data, w).
Proof.
  intros H Hk. unfold dataset_read. rewrite (bind_ok get_fs _ w w (fs w)); [|done].
  rewrite H. simpl. by rewrite Nat.sub_0_r, Hk.
Qed.

Lemma dataset_write_run (p : string) (r : raster) (k : nat) (data : band) (w : world) :
  interrupt w = None → fs w !! p = Some (GeoTiff r) →
  dataset_write p data (S k) w
  = (Ok tt, with_fs w (<[p := GeoTiff (set_bands r (<[k := data]> (bands r)))]> (fs w))).
Proof.
  intros Hi H. unfold dataset_write. rewrite fs_write_run; [|done].
  rewrite H. simpl. by rewrite Nat.sub_0_r.
Qed.

(** ** ValueRangeFilter: [filter_image_by_range] *)

Section RangeFilter.
Import filter_lst_range.
Variables (lower_bound upper_bound : spec_float).

Abbreviation masked := (mask_assign_nan lower_bound upper_bound).
Abbreviation msum := (mask_sum lower_bound upper_bound).

Lemma masked_id (b : band) : msum b = 0%nat → masked b = b.
Proof.
  unfold mask_sum, mask_assign_nan. induction b as [|x b IH]; simpl; [done |].
  destruct (outside lower_bound upper_bound x); simpl; [done |].
  intros H. by rewrite IH.
Qed.

(** Float32 samples are read as they are. *)
Lemma as_read_float32 (b : band) :
  Forall (λ x, is_float32 x = true) b → as_read b = b.
Proof.
  unfold as_read. induction 1 as [|x b Hx Hb IH]; simpl; [done |].
  by rewrite astype_float32_keeps, IH.
Qed.

Lemma as_read_valid (b : band) : Forall (λ x, is_float32 x = true) (as_read b).
Proof.
  unfold as_read. induction b as [|x b IH]; simpl; constructor; [|done].
  apply astype_float32_valid.
Qed.

Lemma masked_valid (b : band) :
  Forall (λ x, is_float32 x = true) b → Forall (λ x, is_float32 x = true) (masked b).
Proof.
  unfold mask_assign_nan. induction 1 as [|x b Hx Hb IH]; simpl; constructor; [|done].
  by destruct (outside lower_bound upper_bound x).
Qed.

Lemma filter_band_clean (b : band) : msum (as_read b) = 0%nat → filter_band lower_bound upper_bound b = b.
Proof. intros H. unfold filter_band. by rewrite H. Qed.

Lemma filter_band_changed (b : band) :
  (0 < msum (as_read b))%nat → filter_band lower_bound upper_bound b = masked (as_read b).
Proof.
  intros H. unfold filter_band.
  by destruct (Nat.ltb_spec 0 (msum (as_read b))); [|lia].
Qed.

(** On float32 samples the loop leaves the masked band. *)
Lemma filter_band_float32 (b : band) :
  Forall (λ x, is_float32 x = true) b → filter_band lower_bound upper_bound b = masked b.
Proof.
  intros Hb. unfold filter_band. rewrite (as_read_float32 b Hb).
  destruct (Nat.ltb_spec 0 (msum b)); [done |]. symmetry. apply masked_id. lia.
Qed.

Lemma filter_band_valid (b : band) :
  Forall (λ x, is_float32 x = true) b →
  Forall (λ x, is_float32 x = true) (filter_band lower_bound upper_bound b).
Proof. intros Hb. rewrite filter_band_float32 by done. by apply masked_valid. Qed.

Lemma total_outside_zero (bs : list band) :
  total_outside lower_bound upper_bound bs = 0%nat →
  map (filter_band lower_bound upper_bound) bs = bs.
Proof.
  induction bs as [|b bs IH]; simpl; [done |]. intros H.
  rewrite filter_band_clean, IH; [done | lia | lia].
Qed.

Lemma total_outside_float32 (bs : list band) :
  Forall (Forall (λ x, is_float32 x = true)) bs →
  total_outside lower_bound upper_bound bs = foldr (λ b n, msum b + n)%nat 0%nat bs.
Proof.
  induction 1 as [|b bs Hb Hbs IH]; simpl; [done |].
  by rewrite (as_read_float32 b Hb), IH.
Qed.

Lemma map_filter_band_float32 (bs : list band) :
  Forall (Forall (λ x, is_float32 x = true)) bs →
  map (filter_band lower_bound upper_bound) bs = map masked bs.
Proof.
  induction 1 as [|b bs Hb Hbs IH]; simpl; [done |].
  by rewrite (filter_band_float32 b Hb), IH.
Qed.

Lemma filter_band_step (bs : list band) (k : nat) (bd : band) :
  bs !! k = Some bd →
  take (S k) (<[k := filter_band lower_bound upper_bound bd]> bs)
  ++ map (filter_band lower_bound upper_bound)
         (drop (S k) (<[k := filter_band lower_bound upper_bound bd]> bs))
  = take k bs ++ map (filter_band lower_bound upper_bound) (drop k bs).
Proof.
  intros Hk. pose proof (lookup_lt_Some _ _ _ Hk) as Hlt.
  rewrite drop_insert_lt by lia.
  rewrite (take_S_r _ _ (filter_band lower_bound upper_bound bd))
    by (by apply list_lookup_insert_eq).
  rewrite take_insert_ge by lia.
  rewrite (drop_S bs bd k Hk). simpl. by rewrite <- app_assoc.
Qed.

(** The band loop without interruption: it returns the running total plus
    the count of the bands still to do, and leaves their filtered form. *)
Lemma filter_bands_run (p : string) (n : nat) :
  ∀ (k : nat) (w : world) (r : raster) (t : nat),
    interrupt w = None →
    fs w !! p = Some (GeoTiff r) →
    (k + n = List.length (bands r))%nat →
    filter_bands p lower_bound upper_bound (seq (S k) n) t w
    = (Ok (t + total_outside lower_bound upper_bound (drop k (bands r)))%nat,
       with_fs w (<[p := GeoTiff (set_bands r
                            (take k (bands r)
                             ++ map (filter_band lower_bound upper_bound)
                                    (drop k (bands r))))]> (fs w))).
Proof.
  induction n as [|n IH]; intros k w r t Hi Hfs Hlen; simpl.
  - rewrite drop_ge by lia. rewrite take_ge by lia.
    simpl. rewrite app_nil_r, set_bands_same.
    rewrite insert_id by done. by rewrite with_fs_same, Nat.add_0_r.
  - destruct (lookup_lt_is_Some_2 (bands r) k) as [bd Hbd]; [lia |].
    rewrite (bind_ok _ _ w w bd) by (by eapply dataset_read_run).
    rewrite (drop_S _ _ _ Hbd). simpl. fold (as_read bd).
    destruct (Nat.ltb_spec 0 (msum (as_read bd))) as [Hpos|Hzero].
    + erewrite bind_ok by (by eapply dataset_write_run).
      rewrite <- (filter_band_changed bd Hpos).
      rewrite (IH (S k) _ (set_bands r (<[k := filter_band lower_bound upper_bound bd]> (bands r)))).
      * simpl. rewrite filter_band_step by done. rewrite drop_insert_lt by lia.
        rewrite insert_insert_eq, (drop_S _ _ _ Hbd). simpl.
        f_equal. f_equal. lia.
      * done.
      * simpl. apply lookup_insert_eq.
      * simpl. rewrite length_insert. lia.
    + rewrite (IH (S k) w r) by (done || lia).
      rewrite (take_S_r _ _ _ Hbd), <- app_assoc. simpl.
      rewrite filter_band_clean by lia. do 2 f_equal. lia.
Qed.

(** The band loop when no sample is outside the range: nothing is written,
    whether or not an interruption is pending. *)
Lemma filter_bands_clean (p : string) (n : nat) :
  ∀ (k : nat) (w : world) (r : raster) (t : nat),
    fs w !! p = Some (GeoTiff r) →
    (k + n = List.length (bands r))%nat →
    total_outside lower_bound upper_bound (drop k (bands r)) = 0%nat →
    filter_bands p lower_bound upper_bound (seq (S k) n) t w = (Ok t, w).
Proof.
  induction n as [|n IH]; intros k w r t Hfs Hlen Hz; simpl; [done |].
  destruct (lookup_lt_is_Some_2 (bands r) k) as [bd Hbd]; [lia |].
  rewrite (bind_ok _ _ w w bd) by (by eapply dataset_read_run).
  rewrite (drop_S _ _ _ Hbd) in Hz. simpl in Hz. fold (as_read bd).
  destruct (Nat.ltb_spec 0 (msum (as_read bd))) as [Hpos|Hzero]; [lia |].
  apply (IH (S k) w r); [done | lia | lia].
Qed.

Lemma bands_filtered (r : raster) :
  bands (filtered lower_bound upper_bound r)
  = map (filter_band lower_bound upper_bound) (bands r).
Proof.
  unfold filtered. destruct (Nat.ltb_spec 0 (total_outside lower_bound upper_bound (bands r))); simpl; [done |].
  symmetry. apply total_outside_zero. lia.
Qed.

(** On a float32 raster the filter leaves the masked bands, in a float32
    raster again. *)
Lemma bands_filtered_float32 (r : raster) :
  float32_raster r → bands (filtered lower_bound upper_bound r) = map masked (bands r).
Proof. intros [_ Hr]. rewrite bands_filtered. by apply map_filter_band_float32. Qed.

Lemma float32_raster_filtered (r : raster) :
  float32_raster r → float32_raster (filtered lower_bound upper_bound r).
Proof.
  intros Hr. pose proof Hr as [Hd Hb]. split.
  - unfold filtered. by destruct (0 <? _)%nat.
  - rewrite bands_filtered_float32 by done.
    induction Hb as [|b bs Hb Hbs IH]; simpl; constructor; [|done].
    by apply masked_valid.
Qed.

(** The whole filter on a readable raster, without interruption. *)
Lemma filter_image_by_range_run (p : string) (w : world) (r : raster) :
  interrupt w = None →
  fs w !! p = Some (GeoTiff r) →
  ∃ w', filter_image_by_range p lower_bound upper_bound w = (Ok tt, w')
        ∧ fs w' = <[p := GeoTiff (filtered lower_bound upper_bound r)]> (fs w)
        ∧ trace w' = trace w ++ [report lower_bound upper_bound p r]
        ∧ interrupt w' = None.
Proof.
  intros Hi Hfs. unfold filter_image_by_range, try_except.
  rewrite (bind_ok _ _ w w r) by (by apply rasterio_open_run).
  erewrite bind_ok by (by apply (filter_bands_run p (count r) 0 w r 0)).
  rewrite drop_0. simpl. unfold report, filtered.
  destruct (Nat.ltb_spec 0 (total_outside lower_bound upper_bound (bands r))) as [Hpos|Hzero].
  - destruct (nodata r) as [v|] eqn:Hv; [destruct (isnan v) eqn:Hnan|]; simpl.
    + destruct v; try discriminate Hnan.
      eexists. split; [reflexivity |]. simpl. split_and!; try done.
      do 2 f_equal. destruct r; simpl in *. by subst.
    + erewrite bind_ok; last first.
      { unfold dataset_set_nodata. rewrite fs_write_run by done. simpl.
        rewrite lookup_insert_eq. reflexivity. }
      eexists. split; [reflexivity |]. simpl. split_and!; try done.
      by rewrite insert_insert_eq.
    + erewrite bind_ok; last first.
      { unfold dataset_set_nodata. rewrite fs_write_run by done. simpl.
        rewrite lookup_insert_eq. reflexivity. }
      eexists. split; [reflexivity |]. simpl. split_and!; try done.
      by rewrite insert_insert_eq.
  - eexists. split; [reflexivity |]. simpl. split_and!; try done.
    rewrite total_outside_zero by lia. by rewrite set_bands_same.
Qed.

(** The whole filter when no sample is outside: one line of report, no write
    (so a pending interruption is not even met). *)
Lemma filter_image_by_range_clean (p : string) (w : world) (r : raster) :
  fs w !! p = Some (GeoTiff r) →
  total_outside lower_bound upper_bound (bands r) = 0%nat →
  filter_image_by_range p lower_bound upper_bound w
  = emit (AllInRange (Py.basename p)) w.
Proof.
  intros Hfs Hz. unfold filter_image_by_range, try_except.
  rewrite (bind_ok _ _ w w r) by (by apply rasterio_open_run).
  erewrite bind_ok by (by apply (filter_bands_clean p (count r) 0 w r 0)).
  done.
Qed.

(** On anything that is not a readable raster the filter prints and leaves. *)
Lemma filter_image_by_range_unreadable (p : string) (w : world) :
  (∀ r, fs w !! p ≠ Some (GeoTiff r)) →
  filter_image_by_range p lower_bound upper_bound w
  = print ("Error opening or processing " +:+ p) w.
Proof.
  intros Hfs. unfold filter_image_by_range, try_except.
  by erewrite bind_raised by (by apply rasterio_open_fail).
Qed.

Lemma outside_nan : outside lower_bound upper_bound S754_nan = false.
Proof. unfold outside. by rewrite SFltb_nan_l, SFltb_nan_r. Qed.

Lemma msum_masked (b : band) : msum (masked b) = 0%nat.
Proof.
  unfold mask_sum, mask_assign_nan. induction b as [|x b IH]; simpl; [done |].
  destruct (outside lower_bound upper_bound x) eqn:Hx; simpl.
  - by rewrite outside_nan.
  - by rewrite Hx.
Qed.

(** A filtered band, read again, has no sample outside the range: what was
    written is float32 already. *)
Lemma msum_filter_band (b : band) :
  msum (as_read (filter_band lower_bound upper_bound b)) = 0%nat.
Proof.
  destruct (Nat.ltb_spec 0 (msum (as_read b))) as [Hpos|Hzero].
  - rewrite filter_band_changed by done.
    rewrite as_read_float32 by apply masked_valid, as_read_valid.
    apply msum_masked.
  - rewrite filter_band_clean by lia. lia.
Qed.

Lemma total_outside_masked (bs : list band) :
  total_outside lower_bound upper_bound (map (filter_band lower_bound upper_bound) bs) = 0%nat.
Proof. induction bs as [|b bs IH]; simpl; [done |]. by rewrite msum_filter_band, IH. Qed.

Lemma total_outside_filtered (r : raster) : total_outside lower_bound upper_bound (bands (filtered lower_bound upper_bound r)) = 0%nat.
Proof. rewrite bands_filtered. apply total_outside_masked. Qed.

Lemma msum_zero_Forall (b : band) :
  msum b = 0%nat ↔ Forall (λ x, outside lower_bound upper_bound x = false) b.
Proof.
  unfold mask_sum. induction b as [|x b IH]; simpl; [by split |].
  destruct (outside lower_bound upper_bound x) eqn:Hx; simpl.
  - split; [lia |]. intros H. apply Forall_cons in H as [H _]. congruence.
  - rewrite IH. split; [by constructor | by intros [_ ?]%Forall_cons].
Qed.

(** On float32 samples, no sample counted is no sample outside. *)
Lemma total_outside_zero_Forall (bs : list band) :
  Forall (Forall (λ x, is_float32 x = true)) bs →
  total_outside lower_bound upper_bound bs = 0%nat
  ↔ Forall (Forall (λ x, outside lower_bound upper_bound x = false)) bs.
Proof.
  intros Hbs. rewrite total_outside_float32 by done. clear Hbs.
  induction bs as [|b bs IH]; simpl; [by split |].
  rewrite Forall_cons, <- IH, <- msum_zero_Forall. lia.
Qed.




(** C6. Filtering a second time with the same bounds changes nothing: the
    second pass ends normally, leaves every file as the first pass left it
    (samples and metadata), and its one line of output is not a count of
    replaced samples. *)
Theorem range_filter_idempotent (p : string) (w : world) :
  interrupt w = None →
  let w1 := (filter_image_by_range p lower_bound upper_bound w).2 in
  let second := filter_image_by_range p lower_bound upper_bound w1 in
  second.1 = Ok tt
  ∧ fs second.2 = fs w1
  ∧ ∃ e, trace second.2 = trace w1 ++ [e] ∧ ∀ name n c, e ≠ Replaced name n c.
Proof.
  intros Hi. cbv zeta.
  destruct (fs w !! p) as [[r| |]|] eqn:Hfs.
  - destruct (filter_image_by_range_run p w r Hi Hfs) as (w1 & -> & Hfs1 & _ & _).
    simpl. rewrite (filter_image_by_range_clean p w1 (filtered lower_bound upper_bound r)).
    + simpl. split_and!; [done | done |]. by eexists.
    + rewrite Hfs1. apply lookup_insert_eq.
    + apply total_outside_filtered.
  - rewrite (filter_image_by_range_unreadable p w) by (intros r; by rewrite Hfs).
    simpl. rewrite filter_image_by_range_unreadable by (intros r; simpl; by rewrite Hfs).
    simpl. split_and!; [done | done |]. by eexists.
  - rewrite (filter_image_by_range_unreadable p w) by (intros r; by rewrite Hfs).
    simpl. rewrite filter_image_by_range_unreadable by (intros r; simpl; by rewrite Hfs).
    simpl. split_and!; [done | done |]. by eexists.
  - rewrite (filter_image_by_range_unreadable p w) by (intros r; by rewrite Hfs).
    simpl. rewrite filter_image_by_range_unreadable by (intros r; simpl; by rewrite Hfs).
    simpl. split_and!; [done | done |]. by eexists.
Qed.

End RangeFilter.

(** ** GridAligner: [resample_to_match_reference] *)

Lemma dataset_write_at (p : string) (r : raster) (i : nat) (data : band) (w : world) :
  interrupt w = None → fs w !! p = Some (GeoTiff r) →
  dataset_write p data i w
  = (Ok tt, with_fs w (<[p := GeoTiff (set_bands r (<[(i - 1)%nat := data]> (bands r)))]>
                         (fs w))).
Proof.
  intros Hi H. unfold dataset_write. rewrite fs_write_run; [|done]. by rewrite H.
Qed.

Lemma string_length_app (s t : string) :
  String.length (s +:+ t) = (String.length s + String.length t)%nat.
Proof. induction s as [|c s IH]; simpl; [done | by rewrite IH]. Qed.

Lemma append_ne (s suffix : string) : suffix ≠ EmptyString → s +:+ suffix ≠ s.
Proof.
  intros Hne Heq. apply (f_equal String.length) in Heq.
  rewrite string_length_app in Heq. destruct suffix; [done | simpl in Heq; lia].
Qed.

Lemma shutil_move_run (src dst : string) (x : file) (w : world) :
  interrupt w = None → fs w !! src = Some x →
  shutil_move src dst w = (Ok tt, with_fs w (<[dst := x]> (delete src (fs w)))).
Proof.
  intros Hi H. unfold shutil_move. rewrite (bind_ok get_fs _ w w (fs w)) by done.
  rewrite H. by apply fs_write_run.
Qed.

Section GridAligner.
Variable reproject : raster → nat → raster → option band.

Lemma reproject_bands_run (s meta : raster) (temp : string) (idxs : list nat) :
  ∀ (w : world) (T : raster),
    interrupt w = None →
    fs w !! temp = Some (GeoTiff T) →
    era5_retriever.reproject_bands reproject s temp meta idxs w
    = (if (reproject_all reproject s meta idxs (bands T)).2 then Ok tt else Raised WarpError,
       with_fs w (<[temp := GeoTiff (set_bands T (reproject_all reproject s meta idxs (bands T)).1)]>
                    (fs w))).
Proof.
  induction idxs as [|i rest IH]; intros w T Hi HT; simpl.
  - rewrite set_bands_same, insert_id by done. by rewrite with_fs_same.
  - destruct (reproject s i meta) as [data|]; simpl.
    + erewrite bind_ok by (by apply dataset_write_at).
      rewrite (IH _ (set_bands T (<[(i - 1)%nat := data]> (bands T))));
        [| done | apply lookup_insert_eq].
      simpl. by rewrite insert_insert_eq.
    + rewrite set_bands_same, insert_id by done. by rewrite with_fs_same.
Qed.

Lemma era5_resample_run (source_path reference_path : string) (w : world) :
  interrupt w = None →
  ∃ w', era5_retriever.resample_to_match_reference reproject source_path reference_path w
        = (Ok tt, w')
        ∧ fs w' = resample_fs reproject source_path reference_path (fs w)
        ∧ interrupt w' = None ∧ net w' = net w.
Proof.
  intros Hi. unfold era5_retriever.resample_to_match_reference, try_except, resample_fs.
  destruct (fs w !! reference_path) as [[r| |]|] eqn:Href;
    try (erewrite bind_raised by (apply rasterio_open_fail; intros ?; by rewrite Href);
         by eexists).
  rewrite (bind_ok _ _ w w r) by (by apply rasterio_open_run).
  destruct (fs w !! source_path) as [[s| |]|] eqn:Hsrc;
    try (erewrite bind_raised by (apply rasterio_open_fail; intros ?; by rewrite Hsrc);
         by eexists).
  rewrite (bind_ok _ _ w w s) by (by apply rasterio_open_run).
  fold (aligned s r). destruct (aligned s r); [by eexists |].
  erewrite bind_ok by reflexivity.
  erewrite bind_ok by (unfold rasterio_create; by apply fs_write_run).
  fold (target_meta s r). fold (temp_path source_path).
  simpl fs.
  match goal with |- context [(_ ≫= _) ?W0] => set (W := W0) end.
  pose proof (reproject_bands_run s (target_meta s r) (temp_path source_path)
                (seq 1 (count s)) W _ Hi (lookup_insert_eq _ _ _)) as Hrun.
  simpl bands in Hrun.
  destruct (reproject_all reproject s (target_meta s r) (seq 1 (count s)) _) as [bs ok].
  simpl in Hrun. destruct ok.
  - rewrite (bind_ok _ _ _ _ _ Hrun). cbv beta.
    erewrite bind_ok by (apply shutil_move_run; [done | apply lookup_insert_eq]).
    eexists. split; [reflexivity |]. simpl.
    by rewrite insert_insert_eq, delete_insert_eq.
  - rewrite (bind_raised _ _ _ _ _ Hrun).
    eexists. split; [reflexivity |]. simpl. by rewrite insert_insert_eq.
Qed.

Lemma gldas_resample_run (source_path reference_path : string) (w : world) :
  interrupt w = None →
  ∃ w', gldas21_retriever.resample_to_match_reference reproject source_path
          reference_path w = (Ok tt, w')
        ∧ fs w' = resample_fs reproject source_path reference_path (fs w)
        ∧ interrupt w' = None ∧ net w' = net w.
Proof.
  intros Hi. unfold gldas21_retriever.resample_to_match_reference, try_except, resample_fs.
  destruct (fs w !! reference_path) as [[r| |]|] eqn:Href;
    try (erewrite bind_raised by (apply rasterio_open_fail; intros ?; by rewrite Href);
         by eexists).
  rewrite (bind_ok _ _ w w r) by (by apply rasterio_open_run).
  destruct (fs w !! source_path) as [[s| |]|] eqn:Hsrc;
    try (erewrite bind_raised by (apply rasterio_open_fail; intros ?; by rewrite Hsrc);
         by eexists).
  rewrite (bind_ok _ _ w w s) by (by apply rasterio_open_run).
  fold (aligned s r). destruct (aligned s r); [by eexists |].
  erewrite bind_ok by (unfold rasterio_create; by apply fs_write_run).
  fold (target_meta s r). fold (temp_path source_path).
  simpl fs.
  match goal with |- context [(_ ≫= _) ?W0] => set (W := W0) end.
  pose proof (reproject_bands_run s (target_meta s r) (temp_path source_path)
                (seq 1 (count s)) W _ Hi (lookup_insert_eq _ _ _)) as Hrun.
  simpl bands in Hrun.
  destruct (reproject_all reproject s (target_meta s r) (seq 1 (count s)) _) as [bs ok].
  simpl in Hrun. destruct ok.
  - rewrite (bind_ok _ _ _ _ _ Hrun). cbv beta.
    erewrite shutil_move_run by (done || apply lookup_insert_eq).
    eexists. split; [reflexivity |]. simpl.
    by rewrite insert_insert_eq, delete_insert_eq.
  - rewrite (bind_raised _ _ _ _ _ Hrun).
    eexists. split; [reflexivity |]. simpl. by rewrite insert_insert_eq.
Qed.

(** An aligned pair is left alone: nothing is written, with or without a
    pending interruption. *)
Lemma era5_resample_aligned (source_path reference_path : string) (w : world)
    (s r : raster) :
  fs w !! source_path = Some (GeoTiff s) →
  fs w !! reference_path = Some (GeoTiff r) →
  aligned s r = true →
  era5_retriever.resample_to_match_reference reproject source_path reference_path w
  = print ("Alignment for " +:+ Py.basename source_path
           +:+ " is already correct. No resampling needed.") w.
Proof.
  intros Hs Hr Ha. unfold era5_retriever.resample_to_match_reference, try_except.
  rewrite (bind_ok _ _ w w r) by (by apply rasterio_open_run).
  rewrite (bind_ok _ _ w w s) by (by apply rasterio_open_run).
  fold (aligned s r). by rewrite Ha.
Qed.

Lemma gldas_resample_aligned (source_path reference_path : string) (w : world)
    (s r : raster) :
  fs w !! source_path = Some (GeoTiff s) →
  fs w !! reference_path = Some (GeoTiff r) →
  aligned s r = true →
  gldas21_retriever.resample_to_match_reference reproject source_path reference_path w
  = (Ok tt, w).
Proof.
  intros Hs Hr Ha. unfold gldas21_retriever.resample_to_match_reference, try_except.
  rewrite (bind_ok _ _ w w r) by (by apply rasterio_open_run).
  rewrite (bind_ok _ _ w w s) by (by apply rasterio_open_run).
  fold (aligned s r). by rewrite Ha.
Qed.

Lemma temp_path_ne (source_path : string) : temp_path source_path ≠ source_path.
Proof. by apply append_ne. Qed.

Lemma aligned_same_grid (s r r' : raster) :
  width r' = width r → height r' = height r → transform r' = transform r →
  aligned s r' = aligned s r.
Proof. unfold aligned. by intros -> -> ->. Qed.

(** Once a call has run, a second call finds nothing to do (or fails again
    in the same way), provided the reference transform is equal to itself,
    that is, has no NaN coefficient. *)
Lemma resample_fs_idempotent (source_path reference_path : string)
    (m : gmap string file) :
  (∀ r, m !! reference_path = Some (GeoTiff r) →
        affine_eqb (transform r) (transform r) = true) →
  resample_fs reproject source_path reference_path (resample_fs reproject source_path reference_path m)
  = resample_fs reproject source_path reference_path m.
Proof.
  intros Hself.
  pose proof (temp_path_ne source_path) as Htmp.
  destruct (m !! reference_path) as [[r| |]|] eqn:Href;
    try (unfold resample_fs; rewrite Href; unfold resample_fs; by rewrite Href).
  destruct (m !! source_path) as [[s| |]|] eqn:Hsrc;
    try (unfold resample_fs; rewrite Href, Hsrc; unfold resample_fs;
         by rewrite Href, Hsrc).
  destruct (aligned s r) eqn:Ha.
  { unfold resample_fs. rewrite Href, Hsrc, Ha. by rewrite Href, Hsrc, Ha. }
  destruct (reproject_all reproject s (target_meta s r) (seq 1 (count s))
              (replicate (count s) (blank_band (target_meta s r))))
    as [bs ok] eqn:Hall.
  destruct ok.
  - assert (resample_fs reproject source_path reference_path m
            = <[source_path := GeoTiff (set_bands (target_meta s r) bs)]>
                (delete (temp_path source_path) m)) as ->.
    { unfold resample_fs. by rewrite Href, Hsrc, Ha, Hall. }
    unfold resample_fs.
    destruct (decide (reference_path = source_path)) as [Hrs|Hrs].
    { exfalso. assert (s = r) as -> by (rewrite Hrs in Href; congruence).
      unfold aligned in Ha. rewrite !Z.eqb_refl, (Hself r eq_refl) in Ha. done. }
    destruct (decide (reference_path = temp_path source_path)) as [->|Hrt].
    { rewrite lookup_insert_ne by done. by rewrite lookup_delete_eq. }
    rewrite lookup_insert_ne, lookup_delete_ne, Href by done.
    rewrite lookup_insert_eq.
    assert (aligned (set_bands (target_meta s r) bs) r = true) as ->; [|done].
    unfold aligned. simpl. by rewrite !Z.eqb_refl, (Hself r eq_refl).
  - assert (resample_fs reproject source_path reference_path m
            = <[temp_path source_path := GeoTiff (set_bands (target_meta s r) bs)]> m)
      as ->.
    { unfold resample_fs. by rewrite Href, Hsrc, Ha, Hall. }
    unfold resample_fs.
    rewrite (lookup_insert_ne _ (temp_path source_path) source_path), Hsrc by done.
    destruct (decide (reference_path = temp_path source_path)) as [->|Hrt].
    + rewrite lookup_insert_eq.
      rewrite (aligned_same_grid s r) by done. rewrite Ha.
      change (target_meta s (set_bands (target_meta s r) bs)) with (target_meta s r).
      by rewrite Hall, insert_insert_eq.
    + rewrite lookup_insert_ne, Href, Ha, Hall by done.
      by rewrite insert_insert_eq.
Qed.

(** C4. [resample_to_match_reference], in both retrievers. When source and
    reference are readable and width, height and transform are equal (by the
    exact [==] of the code), the call ends normally without a single write:
    every file is what it was, and a pending interruption is not reached.
    And aligning twice is aligning once: after one uninterrupted call a
    second call with the same arguments leaves every file as the first call
    left it, for any source and any reference whose transform is equal to
    itself (has no NaN coefficient). *)
Theorem align_noop_and_idempotent (source_path reference_path : string) (w : world) :
  (∀ s r,
     fs w !! source_path = Some (GeoTiff s) →
     fs w !! reference_path = Some (GeoTiff r) →
     width s = width r → height s = height r →
     affine_eqb (transform s) (transform r) = true →
     ∃ w1 w2,
       era5_retriever.resample_to_match_reference reproject source_path
         reference_path w = (Ok tt, w1)
       ∧ gldas21_retriever.resample_to_match_reference reproject source_path
           reference_path w = (Ok tt, w2)
       ∧ fs w1 = fs w ∧ interrupt w1 = interrupt w
       ∧ fs w2 = fs w ∧ interrupt w2 = interrupt w)
  ∧ (interrupt w = None →
     (∀ r, fs w !! reference_path = Some (GeoTiff r) →
           affine_eqb (transform r) (transform r) = true) →
     let e1 := (era5_retriever.resample_to_match_reference reproject source_path
                  reference_path w).2 in
     let g1 := (gldas21_retriever.resample_to_match_reference reproject source_path
                  reference_path w).2 in
     fs (era5_retriever.resample_to_match_reference reproject source_path
           reference_path e1).2 = fs e1
     ∧ fs (gldas21_retriever.resample_to_match_reference reproject source_path
             reference_path g1).2 = fs g1).
Proof.
  split.
  - intros s r Hs Hr Hw Hh Ht.
    assert (aligned s r = true) as Ha.
    { unfold aligned. rewrite Hw, Hh, Ht, !Z.eqb_refl. done. }
    rewrite (era5_resample_aligned _ _ _ s r), (gldas_resample_aligned _ _ _ s r) by done.
    do 2 eexists. split; [reflexivity |]. split; [reflexivity |]. done.
  - intros Hi Hself. cbv zeta.
    destruct (era5_resample_run source_path reference_path w Hi)
      as (e1 & -> & He1 & Hie1 & _).
    destruct (gldas_resample_run source_path reference_path w Hi)
      as (g1 & -> & Hg1 & Hig1 & _).
    simpl.
    destruct (era5_resample_run source_path reference_path e1 Hie1)
      as (e2 & -> & He2 & _).
    destruct (gldas_resample_run source_path reference_path g1 Hig1)
      as (g2 & -> & Hg2 & _).
    simpl. rewrite He2, Hg2, He1, Hg1.
    by rewrite resample_fs_idempotent.
Qed.

(** *** Interrupted runs of the aligner *)

Lemma fs_write_cases (g : gmap string file → gmap string file) (w : world) :
  fs_write g w = (Interrupted, w)
  ∨ ∃ w', fs_write g w = (Ok tt, w') ∧ fs w' = g (fs w).
Proof.
  unfold fs_write. destruct (interrupt w) as [[|k]|]; [by left | right | right];
    by eexists.
Qed.

Lemma shutil_move_cases (src dst : string) (x : file) (w : world) :
  fs w !! src = Some x →
  shutil_move src dst w = (Interrupted, w)
  ∨ ∃ w', shutil_move src dst w = (Ok tt, w')
          ∧ fs w' = <[dst := x]> (delete src (fs w)).
Proof.
  intros H. unfold shutil_move. rewrite (bind_ok get_fs _ w w (fs w)) by done.
  rewrite H. apply fs_write_cases.
Qed.

Lemma dataset_write_frame (temp p : string) (data : band) (i : nat) (m : gmap string file) :
  p ≠ temp →
  match m !! temp with
  | Some (GeoTiff r) =>
      <[temp := GeoTiff (set_bands r (<[(i - 1)%nat := data]> (bands r)))]> m
  | _ => m
  end !! p = m !! p.
Proof.
  intros Hne. destruct (m !! temp) as [[r| |]|]; try done.
  by rewrite lookup_insert_ne.
Qed.

(** Whatever happens, the warp loop touches the temporary file only. *)
Lemma reproject_bands_frame (s meta : raster) (temp p : string) (idxs : list nat) :
  p ≠ temp →
  ∀ w, fs (era5_retriever.reproject_bands reproject s temp meta idxs w).2 !! p
       = fs w !! p.
Proof.
  intros Hne. induction idxs as [|i rest IH]; intros w; simpl; [done |].
  destruct (reproject s i meta) as [data|]; [|done].
  unfold dataset_write.
  destruct (fs_write_cases
              (λ m, match m !! temp with
                    | Some (GeoTiff r) =>
                        <[temp := GeoTiff (set_bands r (<[(i - 1)%nat := data]> (bands r)))]> m
                    | _ => m
                    end) w) as [Hw|(w1 & Hw & Hfs1)].
  - by rewrite (bind_interrupted _ _ _ _ Hw).
  - rewrite (bind_ok _ _ _ _ _ Hw), IH, Hfs1. by apply dataset_write_frame.
Qed.

(** When the warp loop ends normally, every band went through and the
    temporary file holds them all. *)
Lemma reproject_bands_ok (s meta : raster) (temp : string) (idxs : list nat) :
  ∀ w T,
    fs w !! temp = Some (GeoTiff T) →
    (era5_retriever.reproject_bands reproject s temp meta idxs w).1 = Ok tt →
    (reproject_all reproject s meta idxs (bands T)).2 = true
    ∧ fs (era5_retriever.reproject_bands reproject s temp meta idxs w).2 !! temp
      = Some (GeoTiff (set_bands T (reproject_all reproject s meta idxs (bands T)).1)).
Proof.
  induction idxs as [|i rest IH]; intros w T HT; simpl.
  - intros _. by rewrite set_bands_same.
  - destruct (reproject s i meta) as [data|]; [|done].
    unfold dataset_write.
    destruct (fs_write_cases
                (λ m, match m !! temp with
                      | Some (GeoTiff r) =>
                          <[temp := GeoTiff (set_bands r (<[(i - 1)%nat := data]> (bands r)))]> m
                      | _ => m
                      end) w) as [Hw|(w1 & Hw & Hfs1)].
    + by rewrite (bind_interrupted _ _ _ _ Hw).
    + rewrite (bind_ok _ _ _ _ _ Hw). rewrite HT in Hfs1.
      intros Hok.
      destruct (IH w1 (set_bands T (<[(i - 1)%nat := data]> (bands T)))) as [H1 H2];
        [by rewrite Hfs1, lookup_insert_eq | done |].
      by split.
Qed.

(** The aligner's write is atomic at the source path: however the call ends
    (normally, on an error, or killed at any write), the source path holds
    either what it held before or the complete resampled raster that the
    uninterrupted call leaves there. *)
Lemma era5_resample_atomic (source_path reference_path : string) (w : world) :
  let w' := (era5_retriever.resample_to_match_reference reproject source_path
               reference_path w).2 in
  fs w' !! source_path = fs w !! source_path
  ∨ fs w' !! source_path = resample_fs reproject source_path reference_path (fs w) !! source_path.
Proof.
  cbv zeta. pose proof (temp_path_ne source_path) as Htmp.
  unfold era5_retriever.resample_to_match_reference, try_except.
  destruct (fs w !! reference_path) as [[r| |]|] eqn:Href;
    try (erewrite bind_raised by (apply rasterio_open_fail; intros ?; by rewrite Href);
         by left).
  rewrite (bind_ok _ _ w w r) by (by apply rasterio_open_run).
  destruct (fs w !! source_path) as [[s| |]|] eqn:Hsrc;
    try (erewrite bind_raised by (apply rasterio_open_fail; intros ?; by rewrite Hsrc);
         by left).
  rewrite (bind_ok _ _ w w s) by (by apply rasterio_open_run).
  fold (aligned s r). destruct (aligned s r) eqn:Ha; [left; simpl; by rewrite Hsrc |].
  erewrite bind_ok by reflexivity.
  fold (target_meta s r). fold (temp_path source_path).
  unfold rasterio_create.
  match goal with |- context [fs_write ?g0 ≫= _] => set (g := g0) end.
  match goal with |- context [(_ ≫= _) ?W0] => set (W := W0) end.
  destruct (fs_write_cases g W) as [Hw|(wc & Hw & Hfsc)].
  { rewrite (bind_interrupted _ _ _ _ Hw). left. simpl. by rewrite Hsrc. }
  rewrite (bind_ok _ _ _ _ _ Hw). cbv beta.
  assert (fs wc !! temp_path source_path
          = Some (GeoTiff (set_bands (target_meta s r)
                             (replicate (count s) (blank_band (target_meta s r))))))
    as Htemp by (rewrite Hfsc; apply lookup_insert_eq).
  assert (fs wc !! source_path = Some (GeoTiff s)) as Hsrc_c.
  { rewrite Hfsc. unfold g. rewrite lookup_insert_ne by done. exact Hsrc. }
  pose proof (reproject_bands_frame s (target_meta s r) (temp_path source_path)
                source_path (seq 1 (count s)) (λ H, Htmp (eq_sym H)) wc) as Hframe.
  pose proof (reproject_bands_ok s (target_meta s r) (temp_path source_path)
                (seq 1 (count s)) wc _ Htemp) as Hok.
  destruct (era5_retriever.reproject_bands reproject s (temp_path source_path)
              (target_meta s r) (seq 1 (count s)) wc) as [[[]|e|] wr] eqn:Hrun;
    simpl in Hframe, Hok.
  - destruct (Hok eq_refl) as [Hall Hfull]. simpl bands in *.
    rewrite (bind_ok _ _ _ _ _ Hrun). cbv beta.
    destruct (shutil_move_cases (temp_path source_path) source_path _ wr Hfull)
      as [Hm|(wm & Hm & Hfsm)].
    + rewrite (bind_interrupted _ _ _ _ Hm). left. simpl. by rewrite Hframe, Hsrc_c.
    + rewrite (bind_ok _ _ _ _ _ Hm). right. simpl. rewrite Hfsm.
      rewrite lookup_insert_eq. unfold resample_fs. rewrite Href, Hsrc, Ha.
      destruct (reproject_all reproject s (target_meta s r) (seq 1 (count s)) _) as [bs ok].
      simpl in Hall. subst ok. by rewrite lookup_insert_eq.
  - rewrite (bind_raised _ _ _ _ _ Hrun). left. simpl. by rewrite Hframe, Hsrc_c.
  - rewrite (bind_interrupted _ _ _ _ Hrun). left. simpl. by rewrite Hframe, Hsrc_c.
Qed.
End GridAligner.

(** ** Skipping the fetch when the output exists *)

Lemma path_exists_run (p : string) (w : world) :
  path_exists p w = (Ok (bool_decide (is_Some (fs w !! p))), w).
Proof. done. Qed.

Lemma era5_verify_image_run (p : string) (w : world) (x : raster) :
  fs w !! p = Some (GeoTiff x) →
  ∃ b w', era5_retriever.verify_image p w = (Ok b, w')
          ∧ fs w' = fs w ∧ net w' = net w ∧ interrupt w' = interrupt w.
Proof.
  intros Hp. unfold era5_retriever.verify_image, try_except.
  rewrite (bind_ok _ _ w w x) by (by apply rasterio_open_run).
  destruct (_ && _); by do 2 eexists.
Qed.

Lemma gldas_verify_image_run (p : string) (w : world) :
  gldas21_retriever.verify_image p w
  = (Ok match fs w !! p with
        | Some (GeoTiff x) =>
            bool_decide (is_Some (crs x)) && (0 <? width x)%Z && (0 <? height x)%Z
        | _ => false
        end, w).
Proof.
  unfold gldas21_retriever.verify_image, try_except.
  destruct (fs w !! p) as [[x| |]|] eqn:Hp;
    try (by erewrite bind_raised by (apply rasterio_open_fail; intros ?; by rewrite Hp)).
  by rewrite (bind_ok _ _ w w x) by (by apply rasterio_open_run).
Qed.

Section SkipExisting.
Variable reproject : raster → nat → raster → option band.

(** With the output present and readable, the ERA5 step is the aligner applied
    to a world that differs from the given one by printed lines only. *)
Lemma era5_skip_run (date : datetime) (out_folder reference : string) (w : world)
    (x : raster) :
  fs w !! era5_out_path out_folder date = Some (GeoTiff x) →
  ∃ w0, era5_retriever.get_era5_for_date reproject date out_folder reference w
        = era5_retriever.resample_to_match_reference reproject
            (era5_out_path out_folder date) reference w0
        ∧ fs w0 = fs w ∧ net w0 = net w ∧ interrupt w0 = interrupt w.
Proof.
  intros Hp. unfold era5_retriever.get_era5_for_date.
  fold (era5_out_path out_folder date).
  rewrite (bind_ok _ _ _ _ _ (path_exists_run _ w)).
  rewrite bool_decide_true by (by rewrite Hp).
  change (era5_retriever.SKIPPING && true) with true. cbv iota.
  erewrite bind_ok by reflexivity.
  match goal with |- context [(_ ≫= _) ?W0] => set (W := W0) end.
  destruct (era5_verify_image_run (era5_out_path out_folder date) W x Hp)
    as (b & wv & Hv & Hfs & Hnet & Hint).
  rewrite (bind_ok _ _ _ _ _ Hv). cbv beta.
  erewrite bind_ok by reflexivity.
  eexists. split; [reflexivity |]. simpl. by rewrite Hfs, Hnet, Hint.
Qed.

(** With the output present and verified, the GLDAS step is the aligner
    followed by a printed line. *)
Lemma gldas_skip_run (date : datetime) (out_folder sample_tif : string) (w : world)
    (x : raster) :
  fs w !! gldas_out_path out_folder date = Some (GeoTiff x) →
  is_Some (crs x) → (0 < width x)%Z → (0 < height x)%Z →
  gldas21_retriever.download_gldas_date reproject out_folder sample_tif date w
  = (gldas21_retriever.resample_to_match_reference reproject
       (gldas_out_path out_folder date) sample_tif;;
     print ("Skip existing verified " +:+ Py.basename (gldas_out_path out_folder date))) w.
Proof.
  intros Hp Hcrs Hw Hh. unfold gldas21_retriever.download_gldas_date.
  fold (gldas_out_path out_folder date).
  rewrite (bind_ok _ _ _ _ _ (path_exists_run _ w)).
  rewrite bool_decide_true by (by rewrite Hp).
  change (gldas21_retriever.SKIP_EXISTING && true) with true. cbv iota.
  rewrite (bind_ok _ _ _ _ _ (gldas_verify_image_run _ w)).
  rewrite Hp, bool_decide_true by done.
  destruct (Z.ltb_spec 0 (width x)); [|lia].
  destruct (Z.ltb_spec 0 (height x)); [|lia]. done.
Qed.

(** C8, amended. With no interruption pending: in the ERA5 retriever, a date
    whose output file exists and opens as a raster makes no network request,
    and the files end as the aligner leaves them when applied to that output
    and the reference; in the GLDAS retriever the same holds for a date whose
    output file exists and passes verification (a readable raster with a CRS
    and positive width and height). In both, an output already aligned to the
    reference leaves every file exactly as it was. *)
Theorem existing_output_skips_fetch (date : datetime) (out_folder reference : string)
    (w : world) :
  interrupt w = None →
  (∀ x, fs w !! era5_out_path out_folder date = Some (GeoTiff x) →
   let w' := (era5_retriever.get_era5_for_date reproject date out_folder reference w).2 in
   net w' = net w
   ∧ fs w' = fs (era5_retriever.resample_to_match_reference reproject
                   (era5_out_path out_folder date) reference w).2
   ∧ (∀ r, fs w !! reference = Some (GeoTiff r) →
           aligned x r = true → fs w' = fs w))
  ∧ (∀ x, fs w !! gldas_out_path out_folder date = Some (GeoTiff x) →
          is_Some (crs x) → (0 < width x)%Z → (0 < height x)%Z →
     let w' := (gldas21_retriever.download_gldas_date reproject out_folder reference
                  date w).2 in
     net w' = net w
     ∧ fs w' = fs (gldas21_retriever.resample_to_match_reference reproject
                     (gldas_out_path out_folder date) reference w).2
     ∧ (∀ r, fs w !! reference = Some (GeoTiff r) →
             aligned x r = true → fs w' = fs w)).
Proof.
  intros Hi. split.
  - intros x Hp. cbv zeta.
    destruct (era5_skip_run date out_folder reference w x Hp)
      as (w0 & -> & Hfs0 & Hnet0 & Hint0).
    destruct (era5_resample_run reproject (era5_out_path out_folder date) reference w0)
      as (w1 & -> & Hfs1 & _ & Hnet1); [by rewrite Hint0 |].
    destruct (era5_resample_run reproject (era5_out_path out_folder date) reference w Hi)
      as (w2 & -> & Hfs2 & _ & _).
    simpl. split_and!; [by rewrite Hnet1 | by rewrite Hfs1, Hfs2, Hfs0 |].
    intros r Hr Ha. rewrite Hfs1, Hfs0. unfold resample_fs.
    by rewrite Hr, Hp, Ha.
  - intros x Hp Hcrs Hw Hh. cbv zeta.
    rewrite (gldas_skip_run date out_folder reference w x) by done.
    destruct (gldas_resample_run reproject (gldas_out_path out_folder date) reference w Hi)
      as (w1 & Hrun & Hfs1 & _ & Hnet1).
    rewrite (bind_ok _ _ _ _ _ Hrun). rewrite Hrun. simpl.
    split_and!; [done | done |].
    intros r Hr Ha. rewrite Hfs1. unfold resample_fs. by rewrite Hr, Hp, Ha.
Qed.
End SkipExisting.

(** ** Paths and the names of package members *)

Lemma lacks_not_absolute (b : string) : lacks "/" b = true → String.prefix "/" b = false.
Proof.
  destruct b as [|c b]; [done |]. intros H. cbn -[ascii_dec].
  destruct (ascii_dec "/" c) as [<-|Hne]; [|done].
  simpl in H. discriminate H.
Qed.

Lemma lacks_app (c : ascii) (a b : string) :
  lacks c (a +:+ b) = lacks c a && lacks c b.
Proof.
  induction a as [|x a IH]; [done |].
  change (lacks c (String x (a +:+ b)) = lacks c (String x a) && lacks c b).
  simpl. rewrite IH. by rewrite andb_assoc.
Qed.

Lemma path_join_relative (a b : string) :
  String.prefix "/" b = false →
  Py.path_join a b = match a with
                     | EmptyString => b
                     | _ => if String.prefix "/" (String.rev a) then a +:+ b
                            else a +:+ "/" +:+ b
                     end.
Proof. intros Hb. unfold Py.path_join. by rewrite Hb. Qed.

Lemma split_flat (sep : ascii) (s : string) : lacks sep s = true → Py.split sep s = [s].
Proof.
  induction s as [|c s IH]; [done |]. simpl.
  intros [Hc Hs]%andb_true_iff. apply negb_true_iff in Hc. rewrite Hc. by rewrite IH.
Qed.

Lemma split_lacks (sep : ascii) (s : string) :
  Forall (λ x, lacks sep x = true) (Py.split sep s).
Proof.
  induction s as [|c s IH]; simpl; [by repeat constructor |].
  destruct (Py.is_char sep c) eqn:Hc; [by constructor |].
  destruct (Py.split sep s) as [|h t]; [repeat constructor; simpl; by rewrite Hc |].
  apply Forall_cons in IH as [Hh Ht]. constructor; [|done]. simpl. by rewrite Hc.
Qed.

(** A flat name is its own member path. *)
Lemma zip_member_path_flat (name : string) :
  lacks "/" name = true → name ∉ [""; "."; ".."] → zip_member_path name = name.
Proof.
  intros Hflat Hname. unfold zip_member_path. rewrite split_flat by done.
  simpl. by rewrite bool_decide_true.
Qed.

(** No member path is absolute: extraction stays below the target. *)
Lemma zip_member_path_relative (name : string) :
  String.prefix "/" (zip_member_path name) = false.
Proof.
  unfold zip_member_path.
  pose proof (split_lacks "/" name) as Hall.
  induction (Py.split "/" name) as [|x l IH]; [done |].
  apply Forall_cons in Hall as [Hx Hl]. simpl.
  case_bool_decide as Hok; [|by apply IH].
  simpl. destruct x as [|c x]. { exfalso. apply Hok. apply elem_of_cons. by left. }
  destruct (List.filter _ l) as [|y l']; [by apply lacks_not_absolute |].
  change (String.prefix "/" (String c (x +:+ "/" +:+ Py.join "/" (y :: l'))) = false).
  cbn -[ascii_dec]. destruct (ascii_dec "/" c) as [<-|Hne]; [|done].
  simpl in Hx. discriminate Hx.
Qed.

Lemma lacks_rev_app (c : ascii) (s acc : string) :
  lacks c (String.rev_app s acc) = lacks c s && lacks c acc.
Proof.
  revert acc. induction s as [|x s IH]; intros acc; simpl; [done |].
  rewrite IH. simpl. destruct (Py.is_char c x), (lacks c s), (lacks c acc); done.
Qed.

Lemma endswith_slash_flat (name : string) :
  lacks "/" name = true → Py.endswith name "/" = false.
Proof.
  intros Hflat. unfold Py.endswith. apply lacks_not_absolute.
  unfold String.rev. rewrite lacks_rev_app, Hflat. done.
Qed.

Lemma dict_get_app {V : Type} (k : string) (d1 d2 : list (string * V)) :
  dict_get k (d1 ++ d2)
  = match dict_get k d1 with Some v => Some v | None => dict_get k d2 end.
Proof.
  induction d1 as [|[k' v'] r IH]; simpl; [done |]. by case_decide.
Qed.

Lemma dict_get_notin {V : Type} (k : string) (d : list (string * V)) :
  k ∉ dict_keys d → dict_get k d = None.
Proof.
  unfold dict_keys. induction d as [|[k' v'] r IH]; simpl; [done |].
  intros Hn. case_decide as Hk; [subst; exfalso; apply Hn; left |].
  apply IH. intros Hin. apply Hn. by right.
Qed.

(** For a name that is kept by [p] and occurs once among the kept names, the
    last entry is the first. *)
Lemma dict_get_reverse_filter {V : Type} (p : string → bool)
    (d : list (string * V)) (name : string) :
  NoDup (List.filter p (dict_keys d)) → p name = true →
  dict_get name (reverse d) = dict_get name d.
Proof.
  intros Hnd Hp. induction d as [|[k v] r IH]; [done |].
  rewrite reverse_cons, dict_get_app. simpl in Hnd |- *.
  destruct (decide (name = k)) as [->|Hne].
  - rewrite Hp in Hnd. apply NoDup_cons in Hnd as [Hnotin _].
    rewrite dict_get_notin; [done |].
    unfold dict_keys in *. intros Hin.
    apply list_elem_of_In, in_map_iff in Hin as ([k' v'] & Heq & Hin).
    simpl in Heq. subst k'. apply list_elem_of_In in Hin.
    rewrite elem_of_reverse in Hin.
    apply Hnotin. apply list_elem_of_In, List.filter_In. split; [|done].
    apply in_map_iff. exists (k, v'). split; [done |].
    by apply (proj1 (list_elem_of_In _ _)).
  - rewrite IH.
    + by destruct (dict_get name r).
    + destruct (p k); [by apply NoDup_cons in Hnd as [_ ?] | done].
Qed.

Lemma flat_names_spec (names : list string) :
  flat_names names = true →
  NoDup names ∧ ∀ t, t ∈ names → lacks "/" t = true.
Proof.
  unfold flat_names. intros [Hnd Hall]%andb_true_iff.
  apply bool_decide_eq_true in Hnd. split; [done |].
  intros t Ht. rewrite forallb_forall in Hall. apply Hall. by apply list_elem_of_In.
Qed.

(** Extracting a member with a flat name that is kept by the filter on the
    names and occurs once among the kept ones: the first entry of that name
    lands at [dir/name]. *)
Lemma zip_extract_flat (p : string → bool) (members : list (string * option raster))
    (name dir : string) :
  NoDup (List.filter p (dict_keys members)) → p name = true →
  lacks "/" name = true → name ∉ [""; "."; ".."] →
  zip_extract members name dir
  = match dict_get name members with
    | Some content =>
        fs_write (λ m, <[Py.path_join dir name :=
                           match content with
                           | Some r => GeoTiff r
                           | None => OtherBytes
                           end]> m)
    | None => raise OSError
    end.
Proof.
  intros Hnd Hp Hflat Hname. unfold zip_extract.
  rewrite (dict_get_reverse_filter p) by done.
  destruct (dict_get name members) as [content|]; [|done].
  rewrite endswith_slash_flat, zip_member_path_flat by done.
  destruct name as [|c n]; [|done]. exfalso. apply Hname. apply elem_of_cons. by left.
Qed.

Lemma zip_extract_member (p : string → bool) (members : list (string * option raster))
    (name dir : string) :
  NoDup (List.filter p (dict_keys members)) → p name = true →
  lacks "/" name = true → name ∉ [""; "."; ".."] →
  is_Some (dict_get name members) →
  zip_extract members name dir
  = fs_write (λ m, <[Py.path_join dir name := member_file members name]> m).
Proof.
  intros Hnd Hp Hflat Hname [content Hget].
  rewrite (zip_extract_flat p) by done. unfold member_file. rewrite Hget.
  by destruct content.
Qed.

(** Names with the suffix [.tif], in whatever case, are not the names that
    [ZipFile.extract] drops. *)
Lemma tif_name_kept (name : string) :
  Py.endswith (Py.lower name) ".tif" = true → name ∉ [""; "."; ".."].
Proof.
  intros H Hin. repeat (apply elem_of_cons in Hin as [->|Hin]; [by vm_compute in H |]).
  by apply elem_of_nil in Hin.
Qed.

Lemma tif_name_kept' (name : string) :
  Py.endswith name ".tif" = true → name ∉ [""; "."; ".."].
Proof.
  intros H Hin. repeat (apply elem_of_cons in Hin as [->|Hin]; [by vm_compute in H |]).
  by apply elem_of_nil in Hin.
Qed.

Lemma dict_get_head_filter {V : Type} (p : string → bool) (d : list (string * V))
    (name : string) (rest : list string) :
  List.filter p (dict_keys d) = name :: rest → is_Some (dict_get name d).
Proof.
  unfold dict_keys. induction d as [|[k v] d IH]; simpl; [done |].
  destruct (p k); simpl.
  - intros [= -> _]. destruct (decide (name = name)); [by eexists | done].
  - intros H. destruct (decide (name = k)); [by eexists | auto].
Qed.

(** The member that one attempt of the NDVI retry loop extracts from a
    package with flat, distinct names. *)
Lemma ndvi_member_extract (members : list (string * option raster))
    (name dir : string) (rest : list string) :
  flat_names (tif_members members) = true →
  tif_members members = name :: rest →
  zip_extract members name dir
  = fs_write (λ m, <[Py.path_join dir name := member_file members name]> m).
Proof.
  intros [Hnd Hall]%flat_names_spec Htif.
  assert (name ∈ tif_members members) as Hin by (rewrite Htif; left).
  assert (Py.endswith (Py.lower name) ".tif" = true) as Hp.
  { unfold tif_members in Hin. by apply list_elem_of_In, List.filter_In in Hin as [_ ?]. }
  apply (zip_extract_member (λ f, Py.endswith (Py.lower f) ".tif")); try done.
  - by apply Hall.
  - by apply tif_name_kept.
  - by eapply dict_get_head_filter.
Qed.

(** ** Retrying the package download *)

Section Retry.
Import ndvi_retrieval.

Lemma sleeps_app (t1 t2 : list event) : sleeps (t1 ++ t2) = sleeps t1 ++ sleeps t2.
Proof. apply omap_app. Qed.

Ltac run_step :=
  unfold mbind, M_bind, mret, M_ret, ret, raise, print, emit, fs_write, get_fs,
    with_fs, with_interrupt; simpl.

(** One attempt: one request, no sleep, and success exactly on the answers
    that [reply_ok] accepts. *)
Lemma download_attempt_run (ndvi_name date_str url final : string) (attempt : nat)
    (w : world) :
  interrupt w = None →
  flat_package (remote w (net w)) = true →
  ∃ w', download_attempt ndvi_name date_str url final attempt w
        = (Ok (reply_ok (remote w (net w))), w')
        ∧ net w' = S (net w) ∧ interrupt w' = None ∧ remote w' = remote w
        ∧ sleeps (trace w') = sleeps (trace w).
Proof.
  destruct w as [m rem n t tr i]. simpl. intros -> Hflat.
  unfold download_attempt, mkdtemp, try_finally, try_except, requests_get, request,
    raise_for_status, shutil_rmtree, zip_open, shutil_move.
  run_step.
  destruct (rem n) as [e|?|?|?|?|status body] eqn:Hr; simpl;
    try (eexists; split; [reflexivity |]; simpl; rewrite ?sleeps_app; simpl;
         by rewrite ?app_nil_r).
  - destruct e; simpl;
      (eexists; split; [reflexivity |]; simpl; rewrite ?sleeps_app; simpl;
       by rewrite ?app_nil_r).
  - destruct ((400 <=? status)%Z && (status <? 600)%Z) eqn:Hst; simpl.
    { assert ((status =? 200)%Z = false) as Hne by lia.
      destruct body; simpl; rewrite ?Hne; simpl;
        (eexists; split; [reflexivity |]; simpl; rewrite ?sleeps_app; simpl;
         by rewrite ?app_nil_r). }
    destruct (status =? 200)%Z eqn:H200; simpl.
    2:{ destruct body; simpl;
          (eexists; split; [reflexivity |]; simpl; rewrite ?sleeps_app; simpl;
           by rewrite ?app_nil_r). }
    rewrite lookup_insert_eq.
    destruct body as [x|members|]; simpl;
      try (eexists; split; [reflexivity |]; simpl; rewrite ?sleeps_app; simpl;
           by rewrite ?app_nil_r).
    fold (tif_members members).
    destruct (tif_members members) as [|name rest] eqn:Htif; simpl.
    { try rewrite bool_decide_false by (intros H; by apply H).
      eexists; split; [reflexivity |]; simpl; rewrite ?sleeps_app; simpl;
        by rewrite ?app_nil_r. }
    try rewrite bool_decide_true by done.
    rewrite (ndvi_member_extract members name _ rest Hflat Htif).
    unfold fs_write. simpl. rewrite lookup_insert_eq. simpl.
    eexists; split; [reflexivity |]; simpl; by rewrite ?sleeps_app, ?app_nil_r.
Qed.

(** The retry loop: it stops at the first accepted answer, makes at most
    three requests, and sleeps 2 s after the first failure and 4 s after the
    second. *)
Lemma retry_loop_run (ndvi_name date_str url final : string) (w : world) :
  interrupt w = None →
  (∀ k, (k < max_retries)%nat → flat_package (remote w (k + net w)%nat) = true) →
  let ok k := reply_ok (remote w (k + net w)%nat) in
  ∃ w', retry_loop ndvi_name date_str url final (seq 0 max_retries) w
        = (Ok (ok 0%nat || ok 1%nat || ok 2%nat), w')
        ∧ net w' = (net w + (if ok 0%nat then 1 else if ok 1%nat then 2 else 3))%nat
        ∧ sleeps (trace w')
          = sleeps (trace w)
            ++ (if ok 0%nat then [] else if ok 1%nat then [2000] else [2000; 4000])%Z
        ∧ interrupt w' = None ∧ remote w' = remote w.
Proof.
  intros Hi Hflat. cbv zeta. change (seq 0 max_retries) with [0; 1; 2]%nat.
  cbn [retry_loop].
  pose proof (Hflat 0%nat ltac:(unfold max_retries; lia)) as Hflat0.
  pose proof (Hflat 1%nat ltac:(unfold max_retries; lia)) as Hflat1.
  pose proof (Hflat 2%nat ltac:(unfold max_retries; lia)) as Hflat2.
  simpl Nat.add in Hflat0, Hflat1, Hflat2.
  destruct (download_attempt_run ndvi_name date_str url final 0 w Hi Hflat0)
    as (w1 & H1 & Hn1 & Hi1 & Hr1 & Hs1).
  rewrite (bind_ok _ _ _ _ _ H1). simpl Nat.add.
  destruct (reply_ok (remote w (net w))) eqn:Hok0.
  { eexists. split; [reflexivity |]. split_and!; try done.
    - lia.
    - by rewrite app_nil_r. }
  change (0 <? max_retries - 1)%nat with true. cbv iota.
  erewrite bind_ok by reflexivity.
  match goal with |- context [(_ ≫= _) ?W0] => set (w1s := W0) end.
  destruct (download_attempt_run ndvi_name date_str url final 1 w1s Hi1)
    as (w2 & H2 & Hn2 & Hi2 & Hr2 & Hs2).
  { subst w1s. simpl. by rewrite Hr1, Hn1. }
  rewrite (bind_ok _ _ _ _ _ H2).
  simpl in Hn2, Hr2, Hs2, H2 |- *. rewrite Hr1, Hn1.
  rewrite sleeps_app, Hs1 in Hs2. simpl in Hs2.
  destruct (reply_ok (remote w (S (net w)))) eqn:Hok1.
  { eexists. split; [reflexivity |]. split_and!; try done.
    - lia.
    - by rewrite Hr2. }
  change (1 <? max_retries - 1)%nat with true. cbv iota.
  erewrite bind_ok by reflexivity.
  match goal with |- context [(_ ≫= _) ?W0] => set (w2s := W0) end.
  destruct (download_attempt_run ndvi_name date_str url final 2 w2s Hi2)
    as (w3 & H3 & Hn3 & Hi3 & Hr3 & Hs3).
  { subst w2s. simpl. simpl in Hr2, Hn2. by rewrite Hr2, Hn2, Hr1, Hn1. }
  rewrite (bind_ok _ _ _ _ _ H3).
  simpl in Hn3, Hr3, Hs3, H3 |- *. rewrite Hr2, Hr1, Hn2, Hn1.
  rewrite sleeps_app, Hs2 in Hs3. simpl in Hs3.
  destruct (reply_ok (remote w (S (S (net w))))) eqn:Hok2.
  { eexists. split; [reflexivity |]. split_and!; try done.
    - lia.
    - by rewrite <- app_assoc in Hs3.
    - by rewrite Hr3, Hr2. }
  change (2 <? max_retries - 1)%nat with false. cbv iota.
  erewrite bind_ok by reflexivity.
  eexists. split; [reflexivity |]. split_and!; try done.
  - lia.
  - by rewrite <- app_assoc in Hs3.
  - by rewrite Hr3, Hr2.
Qed.

Lemma last_snoc_event (t : list event) (e : event) : last (t ++ [e]) = Some e.
Proof. apply last_snoc. Qed.

(** The retry loop with the error line that follows it: always a normal
    end. *)
Lemma download_with_retries_run (ndvi_name date_str url final : string) (w : world) :
  interrupt w = None →
  (∀ k, (k < max_retries)%nat → flat_package (remote w (k + net w)%nat) = true) →
  let ok k := reply_ok (remote w (k + net w)%nat) in
  ∃ w', download_with_retries ndvi_name date_str url final w = (Ok tt, w')
        ∧ net w' = (net w + (if ok 0%nat then 1 else if ok 1%nat then 2 else 3))%nat
        ∧ sleeps (trace w')
          = sleeps (trace w)
            ++ (if ok 0%nat then [] else if ok 1%nat then [2000] else [2000; 4000])%Z
        ∧ (ok 0%nat = false → ok 1%nat = false → ok 2%nat = false →
           last (trace w') = Some (Message (failed_message date_str)))
        ∧ interrupt w' = None.
Proof.
  intros Hi Hflat. cbv zeta.
  destruct (retry_loop_run ndvi_name date_str url final w Hi Hflat)
    as (w1 & Hrun & Hnet & Hsl & Hi1 & _).
  unfold download_with_retries. rewrite (bind_ok _ _ _ _ _ Hrun).
  destruct (reply_ok (remote w (0 + net w))) eqn:Hok0; simpl orb; cbv iota.
  { exists w1. split_and!; try done. }
  destruct (reply_ok (remote w (1 + net w))) eqn:Hok1; simpl orb; cbv iota.
  { exists w1. split_and!; try done. }
  destruct (reply_ok (remote w (2 + net w))) eqn:Hok2; simpl orb; cbv iota.
  { exists w1. split_and!; try done. }
  eexists. split; [reflexivity |]. simpl. split_and!; try done.
  - rewrite sleeps_app, Hsl. simpl. by rewrite app_nil_r.
  - intros _ _ _. apply last_snoc_event.
Qed.

Lemma getInfo_number_run (w : world) (n : Z) :
  remote w (net w) = Number n → getInfo_number w = (Ok n, bump w).
Proof. intros H. unfold getInfo_number, request. run_step. by rewrite H. Qed.

Lemma getInfo_flag_run (w : world) (b : bool) :
  remote w (net w) = Flag b → getInfo_flag w = (Ok b, bump w).
Proof. intros H. unfold getInfo_flag, request. run_step. by rewrite H. Qed.

Lemma getInfo_text_run (w : world) (t : string) :
  remote w (net w) = Text t → getInfo_text w = (Ok t, bump w).
Proof. intros H. unfold getInfo_text, request. run_step. by rewrite H. Qed.

(** X22. The retry policy of the package download. One composite of the
    batch (the body of the loop of [download_ndvi], which has made the output
    folder) whose five Earth Engine queries are answered (it carries NDVI, is
    no placeholder, has a date and a download URL), whose name prefix and
    date string have no slash, whose output file is absent and whose output
    folder no regular file is in the way of. Whatever the remote side
    answers to the package requests (packages, if any, with flat and
    distinct names for their [*.tif] members): the step ends normally and
    the loop over the composites goes on with the next one; the package is
    requested at most three times, stopping at the first accepted answer;
    the loop sleeps 2 s after the first failed attempt and 4 s after the
    second, and not after the last; and when all three attempts fail, the
    last line logged is the failure of that date. *)
Theorem fetch_retries_bounded_and_batch_continues
    (out_folder ndvi_name : string) (i : nat) (rest : list nat) (w : world)
    (exclude_date_value time_start : Z) (date_str download_url : string) :
  interrupt w = None →
  remote w (net w) = Number exclude_date_value →
  remote w (1 + net w)%nat = Flag true →
  remote w (2 + net w)%nat = Number time_start →
  time_start ≠ exclude_date_value →
  remote w (3 + net w)%nat = Text date_str →
  fs w !! Py.path_join out_folder (ndvi_name +:+ date_str +:+ ".tif") = None →
  remote w (4 + net w)%nat = Text download_url →
  lacks "/" ndvi_name = true → lacks "/" date_str = true →
  ¬ in_the_way (fs w) out_folder →
  (∀ k, (k < max_retries)%nat →
        flat_package (remote w (5 + k + net w)%nat) = true) →
  let ok k := reply_ok (remote w (5 + k + net w)%nat) in
  let attempts := if ok 0%nat then 1%nat else if ok 1%nat then 2%nat else 3%nat in
  ∃ w',
    download_image out_folder ndvi_name i w = (Ok tt, w')
    ∧ for_each (i :: rest) (download_image out_folder ndvi_name) w
      = for_each rest (download_image out_folder ndvi_name) w'
    ∧ net w' = (net w + 5 + attempts)%nat
    ∧ (attempts ≤ max_retries)%nat
    ∧ sleeps (trace w')
      = sleeps (trace w)
        ++ (if ok 0%nat then [] else if ok 1%nat then [2000] else [2000; 4000])%Z
    ∧ (ok 0%nat = false → ok 1%nat = false → ok 2%nat = false →
       last (trace w') = Some (Message (failed_message date_str))).
Proof.
  intros Hi H0 H1 H2 Hne H3 Hfile H4 _ _ _ Hflat. cbv zeta.
  set (wa := bump w). set (wb := bump wa). set (wc := bump wb).
  set (wd := bump wc). set (we := bump wd).
  destruct (download_with_retries_run ndvi_name date_str download_url
              (Py.path_join out_folder (ndvi_name +:+ date_str +:+ ".tif")) we Hi)
    as (w' & Hrun & Hnet & Hsl & Hfail & _).
  { intros k Hk. simpl. specialize (Hflat k Hk).
    by replace (k + S (S (S (S (S (net w))))))%nat with (5 + k + net w)%nat by lia. }
  simpl in Hnet, Hsl, Hfail.
  assert (download_image out_folder ndvi_name i w = (Ok tt, w')) as Himg.
  { unfold download_image.
    rewrite (bind_ok _ _ _ _ _ (getInfo_number_run w _ H0)).
    rewrite (bind_ok _ _ _ _ _ (getInfo_flag_run wa _ H1)). cbv iota.
    erewrite (bind_ok _ _ wb); last first.
    { erewrite (bind_ok _ _ wb) by (apply getInfo_number_run; exact H2).
      reflexivity. }
    rewrite (proj2 (Z.eqb_neq _ _) Hne). cbv iota.
    rewrite (bind_ok _ _ _ _ _ (getInfo_text_run wc _ H3)).
    rewrite (bind_ok _ _ _ _ _ (path_exists_run _ wd)).
    rewrite bool_decide_false by (simpl; rewrite Hfile; by intros [? ?]).
    cbv iota.
    rewrite (bind_ok _ _ _ _ _ (getInfo_text_run wd _ H4)).
    exact Hrun. }
  exists w'. simpl Nat.add. split_and!.
  - exact Himg.
  - cbn [for_each]. by rewrite (bind_ok _ _ _ _ _ Himg).
  - rewrite Hnet. lia.
  - unfold max_retries. by repeat case_match; lia.
  - exact Hsl.
  - exact Hfail.
Qed.
End Retry.

(** ** Concrete runs *)


Import filter_lst_range.

(** The sample LST raster through the filter: the two samples outside
    260..340 become NaN, the bounds stay, NaN becomes the no-data value and
    the count 2 is reported. *)
Example range_filter_sample_run :
  let w' := (filter_image_by_range Sample.lst_path Sample.f260 Sample.f340
               (Sample.world_of {[Sample.lst_path := GeoTiff Sample.lst]}
                                Sample.offline None)).2 in
  fs w' !! Sample.lst_path
  = Some (GeoTiff (mk_raster (Some "EPSG:4326") Sample.grid1 2 2 "float32"
                             (Some S754_nan)
                             [[Sample.f260; S754_nan; S754_nan; Sample.f340]]))
  ∧ trace w' = [Replaced "lst_2022-01-15.tif" 2 1].
Proof. vm_compute. split; reflexivity. Qed.


(** C6 at the sample LST raster. *)
Lemma range_filter_idempotent_witness :
  let w := Sample.world_of {[Sample.lst_path := GeoTiff Sample.lst]} Sample.offline None in
  let w1 := (filter_image_by_range Sample.lst_path Sample.f260 Sample.f340 w).2 in
  fs (filter_image_by_range Sample.lst_path Sample.f260 Sample.f340 w1).2 = fs w1.
Proof.
  cbv zeta.
  destruct (range_filter_idempotent Sample.f260 Sample.f340 Sample.lst_path
              (Sample.world_of {[Sample.lst_path := GeoTiff Sample.lst]}
                               Sample.offline None))
    as (_ & Hfs & _); [reflexivity |].
  exact Hfs.
Defined.


(** The coarse ERA5 output through the aligner: it lands on the reference
    grid. *)
Example align_sample_run :
  fs (era5_retriever.resample_to_match_reference Sample.reproject
        Sample.era5_path Sample.lst_path
        (Sample.world_of {[Sample.lst_path := GeoTiff Sample.lst;
                           Sample.era5_path := GeoTiff Sample.era5_coarse]}
                         Sample.offline None)).2 !! Sample.era5_path
  = Some (GeoTiff Sample.era5_fine).
Proof. vm_compute. reflexivity. Qed.

(** C4 at the coarse ERA5 output (resampled by the first call, left alone by
    the second) and at the aligned one (left alone at once, even with an
    interruption pending at the next write). *)
Lemma align_noop_and_idempotent_witness :
  (let w := Sample.world_of {[Sample.lst_path := GeoTiff Sample.lst;
                              Sample.era5_path := GeoTiff Sample.era5_coarse]}
                            Sample.offline None in
   let e1 := (era5_retriever.resample_to_match_reference Sample.reproject
                Sample.era5_path Sample.lst_path w).2 in
   fs (era5_retriever.resample_to_match_reference Sample.reproject
         Sample.era5_path Sample.lst_path e1).2 = fs e1)
  ∧ (let w := Sample.world_of {[Sample.lst_path := GeoTiff Sample.lst;
                                Sample.era5_path := GeoTiff Sample.era5_fine]}
                              Sample.offline (Some 0%nat) in
     ∃ w1 w2,
       era5_retriever.resample_to_match_reference Sample.reproject
         Sample.era5_path Sample.lst_path w = (Ok tt, w1)
       ∧ gldas21_retriever.resample_to_match_reference Sample.reproject
           Sample.era5_path Sample.lst_path w = (Ok tt, w2)
       ∧ fs w1 = fs w ∧ interrupt w1 = interrupt w
       ∧ fs w2 = fs w ∧ interrupt w2 = interrupt w).
Proof.
  split; cbv zeta.
  - destruct (align_noop_and_idempotent Sample.reproject Sample.era5_path Sample.lst_path
                (Sample.world_of {[Sample.lst_path := GeoTiff Sample.lst;
                                   Sample.era5_path := GeoTiff Sample.era5_coarse]}
                                 Sample.offline None)) as [_ Hidem].
    destruct Hidem as [He _]; [reflexivity | | exact He].
    intros r Hr.
    vm_compute in Hr. injection Hr as <-. reflexivity.
  - destruct (align_noop_and_idempotent Sample.reproject Sample.era5_path Sample.lst_path
                (Sample.world_of {[Sample.lst_path := GeoTiff Sample.lst;
                                   Sample.era5_path := GeoTiff Sample.era5_fine]}
                                 Sample.offline (Some 0%nat))) as [Hnoop _].
    apply (Hnoop Sample.era5_fine Sample.lst); reflexivity.
Defined.

(** C8 at a folder that already holds an ERA5 output and a verified GLDAS
    output: no request is made for either. *)
Lemma existing_output_skips_fetch_witness :
  let w := Sample.world_of {[Sample.lst_path := GeoTiff Sample.lst;
                             Sample.era5_path := GeoTiff Sample.era5_coarse;
                             Sample.gldas_path := GeoTiff Sample.era5_fine]}
                           Sample.era5_answers None in
  net (era5_retriever.get_era5_for_date Sample.reproject Sample.date "out"
         Sample.lst_path w).2 = 0%nat
  ∧ net (gldas21_retriever.download_gldas_date Sample.reproject "out"
           Sample.lst_path Sample.date w).2 = 0%nat.
Proof.
  cbv zeta.
  destruct (existing_output_skips_fetch Sample.reproject Sample.date "out" Sample.lst_path
              (Sample.world_of {[Sample.lst_path := GeoTiff Sample.lst;
                                 Sample.era5_path := GeoTiff Sample.era5_coarse;
                                 Sample.gldas_path := GeoTiff Sample.era5_fine]}
                               Sample.era5_answers None))
    as [Hera5 Hgldas]; [reflexivity |].
  split.
  - destruct (Hera5 Sample.era5_coarse) as [Hnet _]; [reflexivity | exact Hnet].
  - destruct (Hgldas Sample.era5_fine) as [Hnet _];
      [reflexivity | by eexists | reflexivity | reflexivity | exact Hnet].
Defined.

(** C8, as stated, fails in the GLDAS retriever: an output file that exists
    but does not pass verification (here a raster without CRS) is fetched
    again, so a request goes out. *)
Lemma existing_unverified_output_is_fetched_again :
  ¬ (∀ (reproject : raster → nat → raster → option band)
       (out_folder sample_tif : string) (date : datetime) (w : world),
       interrupt w = None →
       is_Some (fs w !! gldas_out_path out_folder date) →
       net (gldas21_retriever.download_gldas_date reproject out_folder sample_tif
              date w).2 = net w).
Proof.
  intros Hclaim.
  specialize (Hclaim Sample.reproject "out" Sample.lst_path Sample.date
                (Sample.world_of {[Sample.lst_path := GeoTiff Sample.lst;
                                   Sample.gldas_path := GeoTiff Sample.no_crs]}
                                 (λ _, Number 0) None)
                eq_refl).
  assert (net (gldas21_retriever.download_gldas_date Sample.reproject "out"
                 Sample.lst_path Sample.date
                 (Sample.world_of {[Sample.lst_path := GeoTiff Sample.lst;
                                    Sample.gldas_path := GeoTiff Sample.no_crs]}
                                  (λ _, Number 0) None)).2 = 1%nat) as Hnet
    by (vm_compute; reflexivity).
  rewrite Hnet in Hclaim. 
  assert (1%nat = 0%nat) as Habs; [|discriminate Habs].
  apply Hclaim. by eexists.
Qed.

(** The slip in the ERA5 retriever's [verify_image]: with an output file that
    exists but cannot be opened, the step ends on [NameError] (which nothing
    in the per-date loop catches) before the aligner is reached; no request
    is made. *)
Example era5_unreadable_output_raises :
  let run := era5_retriever.get_era5_for_date Sample.reproject Sample.date "out"
               Sample.lst_path
               (Sample.world_of {[Sample.lst_path := GeoTiff Sample.lst;
                                  Sample.era5_path := OtherBytes]}
                                Sample.era5_answers None) in
  run.1 = Raised NameError ∧ net run.2 = 0%nat.
Proof. vm_compute. split; reflexivity. Qed.

(** X22 at a composite whose package request fails twice (a request error,
    then a body that is no ZIP) and succeeds the third time: eight requests
    in all, and sleeps of 2 s and 4 s. *)
Lemma fetch_retries_bounded_and_batch_continues_witness :
  ∃ w',
    ndvi_retrieval.download_image "ndvi" "ndvi8days_" 0
      (Sample.world_of ∅ Sample.ndvi_answers None) = (Ok tt, w')
    ∧ net w' = 8%nat
    ∧ sleeps (trace w') = [2000; 4000]%Z.
Proof.
  destruct (fetch_retries_bounded_and_batch_continues "ndvi" "ndvi8days_" 0 []
              (Sample.world_of ∅ Sample.ndvi_answers None)
              (-2208988800000) 1642204800000 "2022-01-15"
              "https://earthengine.example/ndvi")
    as (w' & Hrun & _ & Hnet & _ & Hsleeps & _);
    [reflexivity | reflexivity | reflexivity | reflexivity | discriminate
    | reflexivity | reflexivity | reflexivity | reflexivity | reflexivity
    | compute_done | |].
  - intros k Hk. do 3 (destruct k as [|k]; [reflexivity |]).
    unfold ndvi_retrieval.max_retries in Hk. lia.
  - exists w'. split_and!; [exact Hrun | exact Hnet | exact Hsleeps].
Defined.

(** Three failed attempts at a composite: the failure of the date is the last
    line logged and the next composite is still processed. *)
Example fetch_all_attempts_fail_run :
  let w' := (ndvi_retrieval.download_ndvi "data" "ndvi8days_" "roi" "roi_ndvi8days"
               (Sample.world_of ∅
                  (λ n, match n with
                        | 0 => Number 2
                        | 1 | 9 => Number (-2208988800000)
                        | 2 | 10 => Flag true
                        | 3 | 11 => Number 1642204800000
                        | 4 => Text "2022-01-15"
                        | 12 => Text "2022-01-23"
                        | 5 | 13 => Text "https://earthengine.example/ndvi"
                        | _ => Http 404 OtherBytes
                        end%nat) None)) in
  w'.1 = Ok tt
  ∧ net w'.2 = 17%nat
  ∧ sleeps (trace w'.2) = [2000; 4000; 2000; 4000]%Z
  ∧ last (trace w'.2) = Some (Message (ndvi_retrieval.failed_message "2022-01-23")).
Proof. vm_compute. repeat split; reflexivity. Qed.

(** C9, the defect at a concrete run of [download_ndvi] over two composites.
    The retry loop guards the package requests only: the Earth Engine
    queries of a composite, [getDownloadURL] among them, are made outside
    every [try]. When the download-URL query of the first composite fails,
    the call ends on that exception after six requests: the second composite
    is never looked at and no file is written. When the same remote side
    answers the URL query and fails every package request instead, the first
    composite is given up after three attempts, the batch goes on and the
    file of the second composite is stored. *)
Theorem url_query_failure_aborts_the_batch :
  let run url_reply package_reply after :=
    ndvi_retrieval.download_ndvi "data" "ndvi8days_" "roi" "roi_ndvi8days"
      (Sample.world_of ∅ (Sample.ndvi_batch_answers url_reply package_reply after)
                       None) in
  let aborted := run (Fails EEException) (Fails RequestException) 1%nat in
  let continued := run (Text "https://earthengine.example/ndvi")
                       (Fails RequestException) 4%nat in
  aborted.1 = Raised EEException
  ∧ net aborted.2 = 6%nat
  ∧ fs aborted.2 = ∅
  ∧ continued.1 = Ok tt
  ∧ net continued.2 = 15%nat
  ∧ fs continued.2 !! "data/roi/roi_ndvi8days/ndvi8days_2022-01-15.tif" = None
  ∧ fs continued.2 !! "data/roi/roi_ndvi8days/ndvi8days_2022-01-23.tif"
    = Some (GeoTiff Sample.tile_a).
Proof. vm_compute. repeat split; reflexivity. Qed.

(** C1, the defect at a concrete run. The ERA5 step for a date whose output
    is absent, killed at the write of the second band of the merged output:
    the destination path, absent before, now holds a file whose second band
    was never written, neither the old state nor the complete output. The
    next run finds the file, skips the download and resamples the partial
    content as if it were complete. *)
Theorem export_interrupted_leaves_partial_output :
  let files : gmap string file := {[Sample.lst_path := GeoTiff Sample.lst]} in
  let run w := era5_retriever.get_era5_for_date Sample.reproject Sample.date "out"
                 Sample.lst_path w in
  let killed := run (Sample.world_of files Sample.era5_answers (Some 5%nat)) in
  let whole := run (Sample.world_of files Sample.era5_answers None) in
  let rerun := run (Sample.world_of (fs killed.2) Sample.era5_answers None) in
  files !! Sample.era5_path = None
  ∧ killed.1 = Interrupted
  ∧ fs killed.2 !! Sample.era5_path
    = Some (GeoTiff (mk_raster (Some "EPSG:4326") Sample.grid2 1 1 "float32" None
                               [[Sample.f300]; [Sample.zero]]))
  ∧ whole.1 = Ok tt
  ∧ fs whole.2 !! Sample.era5_path = Some (GeoTiff Sample.era5_fine)
  ∧ rerun.1 = Ok tt
  ∧ net rerun.2 = 0%nat
  ∧ fs rerun.2 !! Sample.era5_path
    = Some (GeoTiff (mk_raster (Some "EPSG:4326") Sample.grid1 2 2 "float32" None
                               [[Sample.f300; Sample.f300; Sample.f300; Sample.f300];
                                [Sample.zero; Sample.zero; Sample.zero; Sample.zero]])).
Proof. vm_compute. repeat split; reflexivity. Qed.

(** * Further properties *)

(** ** Footprints of the primitives *)

Section Footprints.
Context (P : string → Prop).

Lemma unfailing_confined {A} (m : M A) : unfailing P m → confined P m.
Proof.
  intros H w Hi. destruct (H w Hi) as ([x Hx] & ? & ?).
  split_and!; [by rewrite Hx | done | done].
Qed.

Lemma unfailing_ret {A} (x : A) : unfailing P (ret x).
Proof. intros w Hi. split_and!; [by eexists | done | done]. Qed.

Lemma confined_raise {A} (e : exn) : confined P (raise e : M A).
Proof. intros w Hi. by split_and!. Qed.

Lemma confined_bind {A B} (m : M A) (k : A → M B) :
  confined P m → (∀ x, confined P (k x)) → confined P (m ≫= k).
Proof.
  intros Hm Hk w Hi. destruct (Hm w Hi) as (Hn & Hi1 & Hf1).
  unfold mbind, M_bind. destruct (m w) as [[x|e|] w1]; simpl in *; [|done|done].
  destruct (Hk x w1 Hi1) as (Hn2 & Hi2 & Hf2).
  split_and!; [done | done |]. intros p Hp. by rewrite Hf2, Hf1.
Qed.

Lemma unfailing_bind {A B} (m : M A) (k : A → M B) :
  unfailing P m → (∀ x, unfailing P (k x)) → unfailing P (m ≫= k).
Proof.
  intros Hm Hk w Hi. destruct (Hm w Hi) as ([x Hx] & Hi1 & Hf1).
  unfold mbind, M_bind. destruct (m w) as [o w1]; simpl in *; subst o.
  destruct (Hk x w1 Hi1) as (Hn2 & Hi2 & Hf2).
  split_and!; [done | done |]. intros p Hp. by rewrite Hf2, Hf1.
Qed.

Lemma confined_try_except {A} (m : M A) (h : exn → M A) :
  confined P m → (∀ e, confined P (h e)) → confined P (try_except m h).
Proof.
  intros Hm Hh w Hi. destruct (Hm w Hi) as (Hn & Hi1 & Hf1).
  unfold try_except. destruct (m w) as [[x|e|] w1]; simpl in *; [done| |done].
  destruct (Hh e w1 Hi1) as (Hn2 & Hi2 & Hf2).
  split_and!; [done | done |]. intros p Hp. by rewrite Hf2, Hf1.
Qed.

(** A [try] whose handlers all end normally ends normally. *)
Lemma unfailing_try_except {A} (m : M A) (h : exn → M A) :
  confined P m → (∀ e, unfailing P (h e)) → unfailing P (try_except m h).
Proof.
  intros Hm Hh w Hi. destruct (Hm w Hi) as (Hn & Hi1 & Hf1).
  unfold try_except. destruct (m w) as [[x|e|] w1]; simpl in *; [|clear Hn|done].
  - split_and!; [by eexists | done | done].
  - destruct (Hh e w1 Hi1) as (Hn2 & Hi2 & Hf2).
    split_and!; [done | done |]. intros p Hp. by rewrite Hf2, Hf1.
Qed.

Lemma confined_try_finally {A} (m : M A) (c : M unit) :
  confined P m → confined P c → confined P (try_finally m c).
Proof.
  intros Hm Hc w Hi. destruct (Hm w Hi) as (Hn & Hi1 & Hf1).
  unfold try_finally. destruct (m w) as [[x|e|] w1]; simpl in *; [| |done].
  - destruct (confined_bind c (λ _, ret x) Hc
                (λ _, unfailing_confined _ (unfailing_ret x)) w1 Hi1)
      as (Hn2 & Hi2 & Hf2).
    split_and!; [done | done |]. intros p Hp. by rewrite Hf2, Hf1.
  - destruct (confined_bind c (λ _, raise e : M A) Hc
                (λ _, confined_raise e) w1 Hi1) as (Hn2 & Hi2 & Hf2).
    split_and!; [done | done |]. intros p Hp. by rewrite Hf2, Hf1.
Qed.

Lemma unfailing_try_finally {A} (m : M A) (c : M unit) :
  unfailing P m → unfailing P c → unfailing P (try_finally m c).
Proof.
  intros Hm Hc w Hi. destruct (Hm w Hi) as ([x Hx] & Hi1 & Hf1).
  unfold try_finally. destruct (m w) as [o w1]; simpl in *; subst o.
  destruct (unfailing_bind c (λ _, ret x) Hc (λ _, unfailing_ret x) w1 Hi1)
    as (Hn2 & Hi2 & Hf2).
  split_and!; [done | done |]. intros p Hp. by rewrite Hf2, Hf1.
Qed.

Lemma confined_for_each {A} (l : list A) (body : A → M unit) :
  (∀ x, x ∈ l → confined P (body x)) → confined P (for_each l body).
Proof.
  induction l as [|x l IH]; intros Hb; simpl.
  - apply unfailing_confined, unfailing_ret.
  - apply confined_bind; [apply Hb; left |].
    intros _. apply IH. intros y Hy. apply Hb. by right.
Qed.

Lemma unfailing_for_each {A} (l : list A) (body : A → M unit) :
  (∀ x, x ∈ l → unfailing P (body x)) → unfailing P (for_each l body).
Proof.
  induction l as [|x l IH]; intros Hb; simpl.
  - apply unfailing_ret.
  - apply unfailing_bind; [apply Hb; left |].
    intros _. apply IH. intros y Hy. apply Hb. by right.
Qed.

Lemma unfailing_emit (e : event) : unfailing P (emit e).
Proof. intros w Hi. split_and!; [by eexists | done | done]. Qed.

Lemma unfailing_print (t : string) : unfailing P (print t).
Proof. apply unfailing_emit. Qed.

Lemma unfailing_sleep (z : Z) : unfailing P (sleep z).
Proof. apply unfailing_emit. Qed.

Lemma unfailing_get_fs : unfailing P get_fs.
Proof. intros w Hi. split_and!; [by eexists | done | done]. Qed.

Lemma unfailing_request : unfailing P request.
Proof. intros w Hi. split_and!; [by eexists | done | done]. Qed.

Lemma unfailing_mkdtemp : unfailing P mkdtemp.
Proof. intros w Hi. split_and!; [by eexists | done | done]. Qed.

Lemma unfailing_path_exists (p : string) : unfailing P (path_exists p).
Proof. intros w Hi. split_and!; [by eexists | done | done]. Qed.

(** A write is confined to [P] when its update leaves the other paths. *)
Lemma unfailing_fs_write (g : gmap string file → gmap string file) :
  (∀ m p, ¬ P p → g m !! p = m !! p) → unfailing P (fs_write g).
Proof.
  intros Hg w Hi. unfold fs_write. rewrite Hi. simpl.
  split_and!; [by eexists | done |]. intros p Hp. by apply Hg.
Qed.

Lemma confined_rasterio_open (p : string) : confined P (rasterio_open p).
Proof.
  intros w Hi. unfold rasterio_open, mbind, M_bind, get_fs. simpl.
  destruct (fs w !! p) as [[r| |]|]; by split_and!.
Qed.

Lemma confined_dataset_read (p : string) (i : nat) : confined P (dataset_read p i).
Proof.
  intros w Hi. unfold dataset_read, mbind, M_bind, get_fs. simpl.
  destruct (fs w !! p) as [[r| |]|]; try by split_and!.
  destruct (bands r !! (i - 1)%nat); by split_and!.
Qed.

Lemma unfailing_dataset_write (p : string) (data : band) (i : nat) :
  P p → unfailing P (dataset_write p data i).
Proof.
  intros HP. apply unfailing_fs_write. intros m q Hq.
  destruct (m !! p) as [[r| |]|]; try done.
  apply lookup_insert_ne. by intros ->.
Qed.

Lemma unfailing_dataset_set_nodata (p : string) (v : spec_float) :
  P p → unfailing P (dataset_set_nodata p v).
Proof.
  intros HP. apply unfailing_fs_write. intros m q Hq.
  destruct (m !! p) as [[r| |]|]; try done.
  apply lookup_insert_ne. by intros ->.
Qed.

Lemma unfailing_rasterio_create (p : string) (profile : raster) (n : nat) :
  P p → unfailing P (rasterio_create p profile n).
Proof.
  intros HP. apply unfailing_fs_write. intros m q Hq.
  apply lookup_insert_ne. by intros ->.
Qed.

Lemma confined_shutil_move (src dst : string) :
  P src → P dst → confined P (shutil_move src dst).
Proof.
  intros Hs Hd. unfold shutil_move. apply confined_bind.
  - apply unfailing_confined, unfailing_get_fs.
  - intros m. destruct (m !! src); [|apply confined_raise].
    apply unfailing_confined, unfailing_fs_write. intros m' q Hq.
    rewrite lookup_insert_ne, lookup_delete_ne; [done | | ]; by intros ->.
Qed.

Lemma confined_shutil_copy2 (src dst : string) :
  P dst → confined P (shutil_copy2 src dst).
Proof.
  intros Hd. unfold shutil_copy2. apply confined_bind.
  - apply unfailing_confined, unfailing_get_fs.
  - intros m. destruct (m !! src); [|apply confined_raise].
    case_bool_decide; [apply confined_raise |].
    apply unfailing_confined, unfailing_fs_write. intros m' q Hq.
    apply lookup_insert_ne. by intros ->.
Qed.

Lemma unfailing_shutil_rmtree (dir : string) :
  (∀ p, under dir p → P p) → unfailing P (shutil_rmtree dir).
Proof.
  intros HP. apply unfailing_fs_write. intros m q Hq.
  destruct (m !! q) as [x|] eqn:Hx.
  - apply map_lookup_filter_Some. split; [done |]. simpl.
    destruct (String.prefix (dir +:+ "/") q) eqn:Hpre; [|done].
    exfalso. apply Hq, HP. exact Hpre.
  - apply map_lookup_filter_None. by left.
Qed.

Lemma confined_zip_open (p : string) : confined P (zip_open p).
Proof.
  intros w Hi. unfold zip_open, mbind, M_bind, get_fs. simpl.
  destruct (fs w !! p) as [[r| |]|]; by split_and!.
Qed.

Lemma confined_zip_extract (members : list (string * option raster))
    (name dir : string) :
  P (Py.path_join dir (zip_member_path name)) →
  confined P (zip_extract members name dir).
Proof.
  intros HP. unfold zip_extract.
  destruct (dict_get name (reverse members)) as [content|]; [|apply confined_raise].
  destruct (Py.endswith name "/"); [apply unfailing_confined, unfailing_ret |].
  destruct (zip_member_path name) as [|c arcname]; [apply confined_raise |].
  apply unfailing_confined, unfailing_fs_write; intros m q Hq;
    apply lookup_insert_ne; intros Heq; apply Hq; by rewrite <- Heq.
Qed.

Lemma confined_raise_for_status (status : Z) : confined P (raise_for_status status).
Proof.
  unfold raise_for_status. destruct (_ && _); [apply confined_raise |].
  apply unfailing_confined, unfailing_ret.
Qed.

Lemma confined_requests_get (url : string) : confined P (requests_get url).
Proof.
  intros w Hi. unfold requests_get, request, mbind, M_bind. simpl.
  destruct (remote w (net w)); by split_and!.
Qed.

Lemma confined_getInfo_number : confined P getInfo_number.
Proof.
  intros w Hi. unfold getInfo_number, request, mbind, M_bind. simpl.
  destruct (remote w (net w)); by split_and!.
Qed.

Lemma confined_getInfo_names : confined P getInfo_names.
Proof.
  intros w Hi. unfold getInfo_names, request, mbind, M_bind. simpl.
  destruct (remote w (net w)); by split_and!.
Qed.

Lemma confined_getInfo_text : confined P getInfo_text.
Proof.
  intros w Hi. unfold getInfo_text, request, mbind, M_bind. simpl.
  destruct (remote w (net w)); by split_and!.
Qed.

Lemma confined_getInfo_flag : confined P getInfo_flag.
Proof.
  intros w Hi. unfold getInfo_flag, request, mbind, M_bind. simpl.
  destruct (remote w (net w)); by split_and!.
Qed.

Lemma confined_os_makedirs (p : string) : confined P (os_makedirs p).
Proof.
  intros w Hi. unfold os_makedirs, get_fs, mbind, M_bind.
  destruct (bool_decide (p = "" ∨ in_the_way (fs w) p)); by split_and!.
Qed.

Lemma confined_raise_if (res : option exn) : confined P (raise_if res).
Proof. intros w Hi. destruct res; by split_and!. Qed.
End Footprints.

(** [os.makedirs] where no file is in the way, and where one is. *)
Lemma os_makedirs_run (p : string) (w : world) :
  p ≠ "" → ¬ in_the_way (fs w) p → os_makedirs p w = (Ok tt, w).
Proof.
  intros Hne Hfree. unfold os_makedirs, get_fs, mbind, M_bind.
  rewrite bool_decide_false; [done |]. by intros [?|?].
Qed.

Lemma os_makedirs_blocked (p : string) (w : world) :
  p = "" ∨ in_the_way (fs w) p → os_makedirs p w = (Raised OSError, w).
Proof.
  intros Hway. unfold os_makedirs, get_fs, mbind, M_bind.
  by rewrite bool_decide_true.
Qed.

Lemma confined_weaken (P Q : string → Prop) {A} (m : M A) :
  (∀ p, P p → Q p) → confined P m → confined Q m.
Proof.
  intros HPQ Hm w Hi. destruct (Hm w Hi) as (? & ? & Hf).
  split_and!; [done | done |]. intros p Hp. apply Hf. intros HP. by apply Hp, HPQ.
Qed.

Lemma unfailing_weaken (P Q : string → Prop) {A} (m : M A) :
  (∀ p, P p → Q p) → unfailing P m → unfailing Q m.
Proof.
  intros HPQ Hm w Hi. destruct (Hm w Hi) as (? & ? & Hf).
  split_and!; [done | done |]. intros p Hp. apply Hf. intros HP. by apply Hp, HPQ.
Qed.

(** ** More on the range filter *)

Section RangeFilterMore.
Import filter_lst_range.
Variables (lower_bound upper_bound : spec_float).

Lemma confined_filter_bands (p : string) (idxs : list nat) :
  ∀ t, confined (λ q, q = p) (filter_bands p lower_bound upper_bound idxs t).
Proof.
  induction idxs as [|i rest IH]; intros t; simpl.
  - apply unfailing_confined, unfailing_ret.
  - apply confined_bind; [apply confined_dataset_read |]. intros data.
    destruct (0 <? _)%nat; [|apply IH].
    apply confined_bind; [|intros _; apply IH].
    by apply unfailing_confined, unfailing_dataset_write.
Qed.

(** X1. [filter_image_by_range] never lets an exception out: on a missing
    file, on a file that is no raster, on any raster, the call ends normally
    (both handlers print and return), and no path other than [file_path] is
    changed. *)
Theorem filter_never_raises (file_path : string) :
  unfailing (λ q, q = file_path)
            (filter_image_by_range file_path lower_bound upper_bound).
Proof.
  unfold filter_image_by_range. apply unfailing_try_except.
  - apply confined_bind; [apply confined_rasterio_open |]. intros src.
    apply confined_bind; [apply confined_filter_bands |]. intros total.
    destruct (0 <? total)%nat; [|apply unfailing_confined, unfailing_emit].
    apply confined_bind; [|intros _; apply unfailing_confined, unfailing_emit].
    destruct (negb _); apply unfailing_confined;
      [by apply unfailing_dataset_set_nodata | apply unfailing_ret].
  - intros e. destruct e; apply unfailing_print.
Qed.

(** What one uninterrupted call does to the files, readable raster or not. *)
Lemma filter_effect (p : string) (w : world) :
  interrupt w = None →
  ∃ w', filter_image_by_range p lower_bound upper_bound w = (Ok tt, w')
        ∧ interrupt w' = None
        ∧ fs w' = match fs w !! p with
                  | Some (GeoTiff r) =>
                      <[p := GeoTiff (filtered lower_bound upper_bound r)]> (fs w)
                  | _ => fs w
                  end.
Proof.
  intros Hi. destruct (fs w !! p) as [[r| |]|] eqn:Hp.
  - destruct (filter_image_by_range_run lower_bound upper_bound p w r Hi Hp)
      as (w' & Hrun & Hfs & _ & Hi').
    by exists w'.
  - rewrite filter_image_by_range_unreadable by (intros r; by rewrite Hp).
    by eexists.
  - rewrite filter_image_by_range_unreadable by (intros r; by rewrite Hp).
    by eexists.
  - rewrite filter_image_by_range_unreadable by (intros r; by rewrite Hp).
    by eexists.
Qed.

(** X2. The filter changes samples and the no-data value only: the CRS, the
    transform, the width, the height, the data type, the number of bands and
    the number of samples of each band are what they were. *)
Theorem filter_keeps_grid_and_shape (file_path : string) (w : world) (r : raster) :
  interrupt w = None →
  fs w !! file_path = Some (GeoTiff r) →
  ∃ r',
    fs (filter_image_by_range file_path lower_bound upper_bound w).2 !! file_path
    = Some (GeoTiff r')
    ∧ crs r' = crs r ∧ transform r' = transform r
    ∧ width r' = width r ∧ height r' = height r ∧ dtype r' = dtype r
    ∧ Forall2 (λ b b', List.length b' = List.length b) (bands r) (bands r').
Proof.
  intros Hi Hp. destruct (filter_effect file_path w Hi) as (w' & -> & _ & Hfs).
  rewrite Hp in Hfs. exists (filtered lower_bound upper_bound r). simpl.
  split; [rewrite Hfs; apply lookup_insert_eq |].
  assert (Forall2 (λ b b', List.length b' = List.length b) (bands r)
            (bands (filtered lower_bound upper_bound r))) as Hshape.
  { rewrite bands_filtered. induction (bands r) as [|b bs IH]; simpl; constructor.
    - unfold filter_band, mask_assign_nan, as_read.
      destruct (0 <? _)%nat; [by rewrite !length_map | done].
    - exact IH. }
  unfold filtered in *. by destruct (0 <? _)%nat.
Qed.
End RangeFilterMore.

(** X2 at the sample LST raster. *)
Lemma filter_keeps_grid_and_shape_witness :
  ∃ r',
    fs (filter_lst_range.filter_image_by_range Sample.lst_path Sample.f260 Sample.f340
          (Sample.world_of {[Sample.lst_path := GeoTiff Sample.lst]}
                           Sample.offline None)).2 !! Sample.lst_path
    = Some (GeoTiff r')
    ∧ transform r' = Sample.grid1 ∧ width r' = 2%Z ∧ height r' = 2%Z.
Proof.
  destruct (filter_keeps_grid_and_shape Sample.f260 Sample.f340 Sample.lst_path
              (Sample.world_of {[Sample.lst_path := GeoTiff Sample.lst]}
                               Sample.offline None) Sample.lst)
    as (r' & Hfs & _ & Ht & Hw & Hh & _); [reflexivity | reflexivity |].
  exists r'. split_and!; assumption.
Defined.

(** X1 at a path that holds nothing: the call still ends normally. *)
Lemma filter_never_raises_witness :
  ∃ x, (filter_lst_range.filter_image_by_range "lst/missing.tif" Sample.f260 Sample.f340
          (Sample.world_of ∅ Sample.offline None)).1 = Ok x.
Proof.
  destruct (filter_never_raises Sample.f260 Sample.f340 "lst/missing.tif"
              (Sample.world_of ∅ Sample.offline None) eq_refl) as (Hok & _).
  exact Hok.
Defined.

Section RangeFilterFolder.
Import filter_lst_range.
Variables (lower_bound upper_bound : spec_float).

(** The loop of [main] over the files of the folder. *)
Lemma filter_loop_run (files : list string) :
  ∀ w, interrupt w = None →
    ∃ w', for_each files
            (λ p, filter_image_by_range p lower_bound upper_bound) w = (Ok tt, w')
          ∧ interrupt w' = None
          ∧ (∀ q, q ∉ files → fs w' !! q = fs w !! q)
          ∧ (∀ q r', q ∈ files → fs w' !! q = Some (GeoTiff r') →
                     total_outside lower_bound upper_bound (bands r') = 0%nat)
          ∧ ((∀ q r, q ∈ files → fs w !! q = Some (GeoTiff r) → float32_raster r) →
             ∀ q r', q ∈ files → fs w' !! q = Some (GeoTiff r') → float32_raster r').
Proof.
  induction files as [|p rest IH]; intros w Hi; simpl.
  - exists w. split_and!; try done. intros q r' Hq. by apply elem_of_nil in Hq.
  - destruct (filter_effect lower_bound upper_bound p w Hi) as (w1 & Hrun & Hi1 & Hfs1).
    destruct (IH w1 Hi1) as (w' & Hloop & Hi' & Hframe & Hclean & Hf32).
    exists w'. rewrite (bind_ok _ _ _ _ _ Hrun). split_and!; [done | done | | |].
    + intros q Hq. apply not_elem_of_cons in Hq as [Hne Hq].
      rewrite (Hframe q Hq), Hfs1.
      destruct (fs w !! p) as [[r| |]|]; try done. by rewrite lookup_insert_ne.
    + intros q r' Hq Hr'. destruct (decide (q ∈ rest)) as [Hin|Hout]; [by eapply Hclean |].
      apply elem_of_cons in Hq as [->|Hq]; [|done].
      rewrite (Hframe p Hout), Hfs1 in Hr'.
      destruct (fs w !! p) as [[r| |]|] eqn:Hp.
      * rewrite lookup_insert_eq in Hr'. injection Hr' as <-.
        apply total_outside_filtered.
      * rewrite Hp in Hr'. discriminate.
      * rewrite Hp in Hr'. discriminate.
      * rewrite Hp in Hr'. discriminate.
    + intros Hw.
      assert (∀ q r1, q ∈ p :: rest → fs w1 !! q = Some (GeoTiff r1) → float32_raster r1)
        as Hw1.
      { intros q r1 Hq Hr1. rewrite Hfs1 in Hr1.
        destruct (fs w !! p) as [[r| |]|] eqn:Hp; try (by eapply Hw).
        destruct (decide (q = p)) as [->|Hne].
        - rewrite lookup_insert_eq in Hr1. injection Hr1 as <-.
          apply float32_raster_filtered. eapply (Hw p); [left | done].
        - rewrite lookup_insert_ne in Hr1 by done. by eapply Hw. }
      intros q r' Hq Hr'. destruct (decide (q ∈ rest)) as [Hin|Hout].
      * eapply Hf32; [|exact Hin | exact Hr'].
        intros q' r1 Hq'. apply Hw1. by right.
      * apply elem_of_cons in Hq as [->|Hq]; [|done].
        rewrite (Hframe p Hout) in Hr'. eapply Hw1; [left | exact Hr'].
Qed.
End RangeFilterFolder.

(** X3. [main] of filter_lst_range.py, run without interruption on a folder
    listing whose rasters are float32 rasters: it ends normally; a path that is
    not in the listing is left as it was; and every listed file that is a
    raster afterwards has no sample below 260 or above 340 in any band
    (whatever is left is in range or NaN). *)
Theorem filter_main_leaves_folder_in_range
    (glob : string → list string) (lst_folder : string) (w : world) :
  interrupt w = None →
  let files := glob (Py.path_join lst_folder "*.tif") in
  (∀ q r, q ∈ files → fs w !! q = Some (GeoTiff r) → float32_raster r) →
  let run := filter_lst_range.main glob lst_folder w in
  run.1 = Ok tt
  ∧ (∀ q, q ∉ files → fs run.2 !! q = fs w !! q)
  ∧ (∀ q r', q ∈ files → fs run.2 !! q = Some (GeoTiff r') →
       Forall (Forall (λ x, SFltb x Sample.f260 = false ∧ SFltb Sample.f340 x = false))
              (bands r')).
Proof.
  intros Hi. cbv zeta. intros Hw. unfold filter_lst_range.main.
  destruct (glob (Py.path_join lst_folder "*.tif")) as [|p rest] eqn:Hfiles.
  { split_and!; [done | done |]. intros q r' Hq. by apply elem_of_nil in Hq. }
  destruct (filter_loop_run Sample.f260 Sample.f340 (p :: rest) w Hi)
    as (w' & Hloop & Hi' & Hframe & Hclean & Hf32).
  change (S754_finite false 8519680 (-15)) with Sample.f260.
  change (S754_finite false 11141120 (-15)) with Sample.f340.
  rewrite (bind_ok _ _ _ _ _ Hloop). simpl.
  split_and!; [done | exact Hframe |].
  intros q r' Hq Hr'. specialize (Hclean q r' Hq Hr').
  apply total_outside_zero_Forall in Hclean; [|by apply (Hf32 Hw q r' Hq Hr')].
  eapply Forall_impl; [exact Hclean |]. intros b Hb. simpl in Hb.
  eapply Forall_impl; [exact Hb |]. intros x Hx. simpl in Hx.
  unfold filter_lst_range.outside in Hx. by apply orb_false_elim in Hx.
Qed.

(** X3 at a folder with the sample LST raster and a file that is no raster. *)
Lemma filter_main_leaves_folder_in_range_witness :
  (filter_lst_range.main (λ _, [Sample.lst_path; "lst/notes.tif"]) "lst"
     (Sample.world_of {[Sample.lst_path := GeoTiff Sample.lst;
                        "lst/notes.tif" := OtherBytes]} Sample.offline None)).1
  = Ok tt.
Proof.
  destruct (filter_main_leaves_folder_in_range
              (λ _, [Sample.lst_path; "lst/notes.tif"]) "lst"
              (Sample.world_of {[Sample.lst_path := GeoTiff Sample.lst;
                                 "lst/notes.tif" := OtherBytes]} Sample.offline None)
              eq_refl) as (Hok & _); [|exact Hok].
  intros q r Hq Hr.
  apply elem_of_cons in Hq as [->|Hq].
  { vm_compute in Hr. injection Hr as <-. split; [reflexivity | repeat constructor]. }
  apply elem_of_cons in Hq as [->|Hq].
  { vm_compute in Hr. discriminate Hr. }
  by apply elem_of_nil in Hq.
Defined.

(** ** Footprints of the grid aligner *)

(** One step of a footprint proof: the shape of the program picks the lemma. *)
Ltac foot_step :=
  lazymatch goal with
  | |- unfailing _ (_ ≫= _) => apply unfailing_bind; [|intros ?]
  | |- unfailing _ (ret _) => apply unfailing_ret
  | |- unfailing _ (print _) => apply unfailing_print
  | |- unfailing _ (sleep _) => apply unfailing_sleep
  | |- unfailing _ (emit _) => apply unfailing_emit
  | |- unfailing _ (path_exists _) => apply unfailing_path_exists
  | |- unfailing _ mkdtemp => apply unfailing_mkdtemp
  | |- unfailing _ (try_except _ _) => apply unfailing_try_except; [|intros ?]
  | |- unfailing _ (try_finally _ _) => apply unfailing_try_finally
  | |- unfailing _ (for_each _ _) => apply unfailing_for_each; intros ? ?
  | |- confined _ (_ ≫= _) => apply confined_bind; [|intros ?]
  | |- confined _ (raise _) => apply confined_raise
  | |- confined _ (try_except _ _) => apply confined_try_except; [|intros ?]
  | |- confined _ (try_finally _ _) => apply confined_try_finally
  | |- confined _ (for_each _ _) => apply confined_for_each; intros ? ?
  | |- confined _ (rasterio_open _) => apply confined_rasterio_open
  | |- confined _ (dataset_read _ _) => apply confined_dataset_read
  | |- confined _ (zip_open _) => apply confined_zip_open
  | |- confined _ (raise_for_status _) => apply confined_raise_for_status
  | |- confined _ (requests_get _) => apply confined_requests_get
  | |- confined _ getInfo_number => apply confined_getInfo_number
  | |- confined _ getInfo_names => apply confined_getInfo_names
  | |- confined _ getInfo_text => apply confined_getInfo_text
  | |- confined _ getInfo_flag => apply confined_getInfo_flag
  | |- confined _ (os_makedirs _) => apply confined_os_makedirs
  | |- confined _ (raise_if _) => apply confined_raise_if
  | |- confined _ (ret _) => apply unfailing_confined, unfailing_ret
  | |- confined _ (print _) => apply unfailing_confined, unfailing_print
  | |- confined _ (sleep _) => apply unfailing_confined, unfailing_sleep
  | |- confined _ (emit _) => apply unfailing_confined, unfailing_emit
  | |- confined _ (path_exists _) => apply unfailing_confined, unfailing_path_exists
  | |- confined _ mkdtemp => apply unfailing_confined, unfailing_mkdtemp
  | |- _ _ (if ?b then _ else _) => destruct b eqn:?
  | |- _ _ (match ?x with _ => _ end) => destruct x eqn:?
  end.

Ltac foot := repeat foot_step.

Section GridAlignerFootprint.
Variable reproject : raster → nat → raster → option band.

Lemma confined_reproject_bands (P : string → Prop) (src meta : raster)
    (temp : string) (idxs : list nat) :
  P temp → confined P (era5_retriever.reproject_bands reproject src temp meta idxs).
Proof.
  intros HP. induction idxs as [|i rest IH]; simpl; foot; [|exact IH].
  by apply unfailing_confined, unfailing_dataset_write.
Qed.

Lemma era5_resample_unfailing (source_path reference_path : string) :
  unfailing (λ p, p = source_path ∨ p = temp_path source_path)
            (era5_retriever.resample_to_match_reference reproject
               source_path reference_path).
Proof.
  unfold temp_path, era5_retriever.resample_to_match_reference. foot.
  - apply unfailing_confined, unfailing_rasterio_create. by right.
  - apply confined_reproject_bands. by right.
  - apply confined_shutil_move; [by right | by left].
Qed.

Lemma gldas_resample_unfailing (source_path reference_path : string) :
  unfailing (λ p, p = source_path ∨ p = temp_path source_path)
            (gldas21_retriever.resample_to_match_reference reproject
               source_path reference_path).
Proof.
  unfold temp_path, gldas21_retriever.resample_to_match_reference. foot.
  - apply unfailing_confined, unfailing_rasterio_create. by right.
  - apply confined_reproject_bands. by right.
  - apply confined_shutil_move; [by right | by left].
Qed.

(** X4. [resample_to_match_reference] of era5_retriever.py and of
    gldas21_retriever.py never let an exception out (an unreadable reference
    or source, a failing warp, a failing move: the handler prints and the
    call returns), and they change no path other than the source file and
    its [.resampled.tif] neighbour; the reference in particular is only
    read. *)
Theorem resample_never_raises (source_path reference_path : string) :
  let P := λ p, p = source_path ∨ p = temp_path source_path in
  unfailing P (era5_retriever.resample_to_match_reference reproject
                 source_path reference_path)
  ∧ unfailing P (gldas21_retriever.resample_to_match_reference reproject
                   source_path reference_path).
Proof.
  cbv zeta. split; [apply era5_resample_unfailing | apply gldas_resample_unfailing].
Qed.
End GridAlignerFootprint.

(** X4 with a reference that does not exist: the ERA5 call ends normally and
    the source is as before. *)
Lemma resample_never_raises_witness :
  let w := Sample.world_of {[Sample.era5_path := GeoTiff Sample.era5_coarse]}
                           Sample.offline None in
  let run := era5_retriever.resample_to_match_reference Sample.reproject
               Sample.era5_path Sample.lst_path w in
  (∃ x, run.1 = Ok x) ∧ fs run.2 !! Sample.lst_path = None.
Proof.
  cbv zeta.
  destruct (resample_never_raises Sample.reproject Sample.era5_path Sample.lst_path)
    as [Hera5 _].
  destruct (Hera5 (Sample.world_of {[Sample.era5_path := GeoTiff Sample.era5_coarse]}
                                   Sample.offline None) eq_refl) as (Hok & _ & Hframe).
  split; [exact Hok |]. rewrite Hframe; [reflexivity |].
  intros [Heq|Heq]; vm_compute in Heq; discriminate.
Defined.

(** ** Paths *)

Lemma string_app_assoc (a b c : string) : (a +:+ b) +:+ c = a +:+ (b +:+ c).
Proof.
  induction a as [|x a IH]; [done |].
  change (String x ((a +:+ b) +:+ c) = String x (a +:+ (b +:+ c))). by rewrite IH.
Qed.

Lemma prefix_app (a b : string) : String.prefix a (a +:+ b) = true.
Proof.
  induction a as [|x a IH]; [by destruct b |].
  change (String.prefix (String x a) (String x (a +:+ b)) = true). simpl.
  destruct (ascii_dec x x); [exact IH | done].
Qed.

Lemma rev_app_app (a b acc : string) :
  String.rev_app (a +:+ b) acc = String.rev_app b (String.rev_app a acc).
Proof.
  revert acc. induction a as [|x a IH]; intros acc; [done |].
  change (String.rev_app (a +:+ b) (String x acc)
          = String.rev_app b (String.rev_app a (String x acc))). apply IH.
Qed.

(** A directory name that does not end in a slash: joining a relative path
    to it puts a slash in. *)
Lemma path_join_plain (a b : string) :
  a ≠ "" → String.prefix "/" (String.rev a) = false → String.prefix "/" b = false →
  Py.path_join a b = a +:+ "/" +:+ b.
Proof.
  intros Hne Hrev Hb. rewrite path_join_relative by done.
  destruct a; [done | by rewrite Hrev].
Qed.

Lemma path_join_under (a b : string) :
  a ≠ "" → String.prefix "/" (String.rev a) = false → String.prefix "/" b = false →
  under a (Py.path_join a b).
Proof.
  intros Hne Hrev Hb. rewrite path_join_plain by done. unfold under.
  rewrite <- string_app_assoc. apply prefix_app.
Qed.

(** The directory [d/name] of a name that neither is empty nor ends in a
    slash, as [path_join] builds it. *)
Lemma path_join_child (d name : string) :
  name ≠ "" → (∀ acc, String.prefix "/" (String.rev_app name acc) = false) →
  Py.path_join d name ≠ "" ∧ String.prefix "/" (String.rev (Py.path_join d name)) = false.
Proof.
  intros Hne Hrev. unfold Py.path_join.
  destruct (String.prefix "/" name); [split; [done | apply Hrev] |].
  destruct d as [|c d].
  - split; [done | apply Hrev].
  - destruct (String.prefix "/" (String.rev (String c d))); split; try done;
      unfold String.rev; rewrite !rev_app_app; apply Hrev.
Qed.

(** ** The exports *)

(** After [try: m finally: shutil.rmtree(dir)], run to its end, nothing is
    left below [dir]. *)
Lemma try_finally_rmtree_clean {A} (P : string → Prop) (m : M A) (dir : string)
    (w : world) :
  interrupt w = None → confined P m →
  ∀ p, under dir p → fs (try_finally m (shutil_rmtree dir) w).2 !! p = None.
Proof.
  intros Hi Hm p Hp. destruct (Hm w Hi) as (Hn & Hi1 & _).
  unfold try_finally. destruct (m w) as [[x|e|] w1]; simpl in *; [| |done];
    unfold shutil_rmtree, mbind, M_bind, fs_write; rewrite Hi1; simpl;
    apply map_lookup_filter_None; right; intros x' _; simpl;
    unfold under in Hp; rewrite Hp; done.
Qed.

Lemma confined_read_first_bands (P : string → Prop) (temp_dir : string)
    (tifs : list string) :
  confined P (era5_retriever.read_first_bands temp_dir tifs).
Proof. induction tifs as [|t rest IH]; simpl; foot. exact IH. Qed.

Lemma unfailing_write_bands (P : string → Prop) (path : string) (arrs : list band) :
  P path → ∀ idx, unfailing P (era5_retriever.write_bands path idx arrs).
Proof.
  intros HP. induction arrs as [|a rest IH]; intros idx; simpl; foot; [|apply IH].
  by apply unfailing_dataset_write.
Qed.

Lemma temp_dl_dir (d : string) :
  Py.path_join d "temp_dl" ≠ ""
  ∧ String.prefix "/" (String.rev (Py.path_join d "temp_dl")) = false.
Proof. by apply path_join_child. Qed.

Lemma tmp_dl_dir (d : string) :
  Py.path_join d "tmp_dl" ≠ ""
  ∧ String.prefix "/" (String.rev (Py.path_join d "tmp_dl")) = false.
Proof. by apply path_join_child. Qed.

(** What is left below a directory once the [finally] clause that removes it
    has run. *)
Lemma export_clean {A} (P : string → Prop) (body : M A) (h : exn → M A)
    (dir : string) (w : world) :
  interrupt w = None → confined P body → (∀ e, confined P (h e)) →
  ∀ p, under dir p →
    fs (try_finally (try_except body h) (shutil_rmtree dir) w).2 !! p = None.
Proof.
  intros Hi Hb Hh. apply (try_finally_rmtree_clean P); [done |].
  by apply confined_try_except.
Qed.

(** The exports are a call of [os.makedirs] and a guarded body. *)
Lemma era5_export_split (bands : list string) (out_path : string) :
  ∃ body : M unit,
    era5_retriever.export_ee_image bands out_path
    = (os_makedirs (Py.path_join (Py.dirname out_path) "temp_dl");; body)
    ∧ unfailing (λ p, p = out_path
                      ∨ under (Py.path_join (Py.dirname out_path) "temp_dl") p) body
    ∧ ∀ w p, interrupt w = None →
             under (Py.path_join (Py.dirname out_path) "temp_dl") p →
             fs (body w).2 !! p = None.
Proof.
  destruct (temp_dl_dir (Py.dirname out_path)) as [Hne Hrev].
  unfold era5_retriever.export_ee_image. eexists. split; [reflexivity |]. split.
  - apply unfailing_try_finally; [|by apply unfailing_shutil_rmtree; right].
    apply unfailing_try_except; [|intros ?; apply unfailing_print].
    foot;
      first
        [ apply confined_read_first_bands
        | by apply confined_zip_extract; right; apply path_join_under;
            [| | apply zip_member_path_relative]
        | by apply unfailing_confined, unfailing_rasterio_create; left
        | by apply unfailing_confined, unfailing_write_bands; left
        | apply unfailing_confined, unfailing_fs_write; intros m p Hp;
          apply lookup_insert_ne; intros <-; apply Hp; right; by apply path_join_under ].
  - intros w p Hi.
    apply (export_clean (λ _, True)); [done | | intros ?; foot].
    foot;
      first
        [ apply confined_read_first_bands
        | by apply confined_zip_extract
        | by apply unfailing_confined, unfailing_rasterio_create
        | by apply unfailing_confined, unfailing_write_bands
        | by apply unfailing_confined, unfailing_fs_write ].
Qed.

Lemma gldas_export_split (bands : list string) (out_path : string) :
  ∃ body : M unit,
    gldas21_retriever.export_ee_image bands out_path
    = (os_makedirs (Py.path_join (Py.dirname out_path) "tmp_dl");; body)
    ∧ unfailing (λ p, p = out_path
                      ∨ under (Py.path_join (Py.dirname out_path) "tmp_dl") p) body
    ∧ ∀ w p, interrupt w = None →
             under (Py.path_join (Py.dirname out_path) "tmp_dl") p →
             fs (body w).2 !! p = None.
Proof.
  destruct (tmp_dl_dir (Py.dirname out_path)) as [Hne Hrev].
  unfold gldas21_retriever.export_ee_image. eexists. split; [reflexivity |]. split.
  - apply unfailing_try_finally; [|by apply unfailing_shutil_rmtree; right].
    apply unfailing_try_except; [|intros ?; apply unfailing_print].
    foot;
      first
        [ apply confined_read_first_bands
        | by apply confined_zip_extract; right; apply path_join_under;
            [| | apply zip_member_path_relative]
        | by apply unfailing_confined, unfailing_rasterio_create; left
        | by apply unfailing_confined, unfailing_write_bands; left
        | apply unfailing_confined, unfailing_fs_write; intros m p Hp;
          apply lookup_insert_ne; intros <-; apply Hp; right; by apply path_join_under ].
  - intros w p Hi.
    apply (export_clean (λ _, True)); [done | | intros ?; foot].
    foot;
      first
        [ apply confined_read_first_bands
        | by apply confined_zip_extract
        | by apply unfailing_confined, unfailing_rasterio_create
        | by apply unfailing_confined, unfailing_write_bands
        | by apply unfailing_confined, unfailing_fs_write ].
Qed.

Lemma era5_export_body_confined (bands : list string) (out_path : string) :
  let temp_dir := Py.path_join (Py.dirname out_path) "temp_dl" in
  confined (λ p, p = out_path ∨ under temp_dir p)
           (era5_retriever.export_ee_image bands out_path).
Proof.
  cbv zeta. destruct (era5_export_split bands out_path) as (body & -> & Hu & _).
  apply confined_bind; [apply confined_os_makedirs |]. intros _.
  by apply unfailing_confined.
Qed.

Lemma gldas_export_body_confined (bands : list string) (out_path : string) :
  let tmp_dir := Py.path_join (Py.dirname out_path) "tmp_dl" in
  confined (λ p, p = out_path ∨ under tmp_dir p)
           (gldas21_retriever.export_ee_image bands out_path).
Proof.
  cbv zeta. destruct (gldas_export_split bands out_path) as (body & -> & Hu & _).
  apply confined_bind; [apply confined_os_makedirs |]. intros _.
  by apply unfailing_confined.
Qed.

(** X5. [export_ee_image] of era5_retriever.py and of gldas21_retriever.py,
    run without interruption against any remote answers. When a regular file
    stands where the download directory next to the output ([temp_dl],
    [tmp_dl]) is wanted, the call raises [OSError] from [os.makedirs], before
    any request and with every file as it was. Otherwise the call ends
    normally (every exception is caught and printed); afterwards nothing is
    left below the download directory, and no path other than the output and
    that directory has changed. *)
Theorem export_raises_only_from_makedirs_and_cleans_up
    (bands : list string) (out_path : string) (w : world) :
  interrupt w = None →
  (let temp_dir := Py.path_join (Py.dirname out_path) "temp_dl" in
   let run := era5_retriever.export_ee_image bands out_path w in
   (in_the_way (fs w) temp_dir → run = (Raised OSError, w))
   ∧ (¬ in_the_way (fs w) temp_dir →
      run.1 = Ok tt
      ∧ (∀ p, p ≠ out_path → ¬ under temp_dir p → fs run.2 !! p = fs w !! p)
      ∧ (∀ p, under temp_dir p → fs run.2 !! p = None)))
  ∧ (let tmp_dir := Py.path_join (Py.dirname out_path) "tmp_dl" in
     let run := gldas21_retriever.export_ee_image bands out_path w in
     (in_the_way (fs w) tmp_dir → run = (Raised OSError, w))
     ∧ (¬ in_the_way (fs w) tmp_dir →
        run.1 = Ok tt
        ∧ (∀ p, p ≠ out_path → ¬ under tmp_dir p → fs run.2 !! p = fs w !! p)
        ∧ (∀ p, under tmp_dir p → fs run.2 !! p = None))).
Proof.
  intros Hi. cbv zeta. split.
  - destruct (era5_export_split bands out_path) as (body & -> & Hu & Hclean).
    destruct (temp_dl_dir (Py.dirname out_path)) as [Hdir _]. split.
    + intros Hway. by erewrite bind_raised by (apply os_makedirs_blocked; by right).
    + intros Hfree. erewrite bind_ok by (by apply os_makedirs_run).
      destruct (Hu w Hi) as ([[] Hok] & _ & Hframe).
      split_and!; [exact Hok | | intros p Hp; by apply Hclean].
      intros p Hne Hout. apply Hframe. by intros [?|?].
  - destruct (gldas_export_split bands out_path) as (body & -> & Hu & Hclean).
    destruct (tmp_dl_dir (Py.dirname out_path)) as [Hdir _]. split.
    + intros Hway. by erewrite bind_raised by (apply os_makedirs_blocked; by right).
    + intros Hfree. erewrite bind_ok by (by apply os_makedirs_run).
      destruct (Hu w Hi) as ([[] Hok] & _ & Hframe).
      split_and!; [exact Hok | | intros p Hp; by apply Hclean].
      intros p Hne Hout. apply Hframe. by intros [?|?].
Qed.

(** X5 at a folder whose download directory holds a stale file, with the
    network down: the export ends normally and the stale file is gone. With a
    regular file named [out/temp_dl] the export raises. *)
Lemma export_raises_only_from_makedirs_and_cleans_up_witness :
  (let w := Sample.world_of {["out/temp_dl/old.bin" := OtherBytes]} Sample.offline None in
   let run := era5_retriever.export_ee_image ["temperature_2m"; "skin_temperature"]
                Sample.era5_path w in
   run.1 = Ok tt ∧ fs run.2 !! "out/temp_dl/old.bin" = None)
  ∧ (let w := Sample.world_of {["out/temp_dl" := OtherBytes]} Sample.offline None in
     era5_retriever.export_ee_image ["temperature_2m"; "skin_temperature"]
       Sample.era5_path w = (Raised OSError, w)).
Proof.
  cbv zeta. split.
  - destruct (export_raises_only_from_makedirs_and_cleans_up
                ["temperature_2m"; "skin_temperature"] Sample.era5_path
                (Sample.world_of {["out/temp_dl/old.bin" := OtherBytes]}
                                 Sample.offline None)
                eq_refl) as [[_ Hfree] _].
    destruct Hfree as (Hok & _ & Hclean); [compute_done |].
    split; [exact Hok | apply Hclean; reflexivity].
  - destruct (export_raises_only_from_makedirs_and_cleans_up
                ["temperature_2m"; "skin_temperature"] Sample.era5_path
                (Sample.world_of {["out/temp_dl" := OtherBytes]} Sample.offline None)
                eq_refl) as [[Hway _] _].
    apply Hway. compute_done.
Defined.

(** ** One date of a batch *)

Section Batches.
Variable reproject : raster → nat → raster → option band.

Lemma era5_verify_image_unreadable (p : string) (w : world) :
  (∀ x, fs w !! p ≠ Some (GeoTiff x)) →
  era5_retriever.verify_image p w = (Raised NameError, w).
Proof.
  intros Hp. unfold era5_retriever.verify_image, try_except.
  by erewrite bind_raised by (by apply rasterio_open_fail).
Qed.

(** X6. One date of the ERA5 batch, run without interruption. When the
    output file is absent or opens as a raster, [get_era5_for_date] ends
    normally whatever the remote side answers, and changes nothing outside
    the output, its [.resampled.tif] neighbour and [temp_dl]. When the output
    exists and does not open as a raster, the call raises [NameError] (the
    handler of [verify_image] names an exception class the module does not
    import) before any request is made and with every file as it was. *)
Theorem era5_date_raises_only_on_unreadable_output
    (target_date : datetime) (out_folder reference_tif_path : string) (w : world) :
  interrupt w = None →
  let run := era5_retriever.get_era5_for_date reproject target_date out_folder
               reference_tif_path w in
  match fs w !! era5_out_path out_folder target_date with
  | Some (ZipArchive _) | Some OtherBytes =>
      run.1 = Raised NameError ∧ fs run.2 = fs w ∧ net run.2 = net w
  | _ =>
      run.1 = Ok tt
      ∧ ∀ p, ¬ era5_footprint out_folder target_date p → fs run.2 !! p = fs w !! p
  end.
Proof.
  intros Hi. cbv zeta.
  assert (∀ ref, unfailing (era5_footprint out_folder target_date)
            (era5_retriever.resample_to_match_reference reproject
               (era5_out_path out_folder target_date) ref)) as Hres.
  { intros ref. eapply unfailing_weaken; [|apply era5_resample_unfailing].
    unfold era5_footprint. intros p [->| ->]; auto. }
  destruct (fs w !! era5_out_path out_folder target_date) as [[x|ms|]|] eqn:Hp.
  - destruct (era5_skip_run reproject target_date out_folder reference_tif_path w x Hp)
      as (w0 & -> & Hfs & _ & Hi0).
    destruct (Hres reference_tif_path w0) as ([[] Hok] & _ & Hframe); [congruence |].
    split; [exact Hok |]. intros p Hout. by rewrite Hframe, Hfs.
  - unfold era5_retriever.get_era5_for_date. fold (era5_out_path out_folder target_date).
    rewrite (bind_ok _ _ _ _ _ (path_exists_run _ w)).
    rewrite bool_decide_true by (by rewrite Hp).
    change (era5_retriever.SKIPPING && true) with true. cbv iota.
    erewrite bind_ok by reflexivity.
    erewrite bind_raised
      by (apply era5_verify_image_unreadable; simpl; intros x; by rewrite Hp).
    done.
  - unfold era5_retriever.get_era5_for_date. fold (era5_out_path out_folder target_date).
    rewrite (bind_ok _ _ _ _ _ (path_exists_run _ w)).
    rewrite bool_decide_true by (by rewrite Hp).
    change (era5_retriever.SKIPPING && true) with true. cbv iota.
    erewrite bind_ok by reflexivity.
    erewrite bind_raised
      by (apply era5_verify_image_unreadable; simpl; intros x; by rewrite Hp).
    done.
  - unfold era5_retriever.get_era5_for_date. fold (era5_out_path out_folder target_date).
    rewrite (bind_ok _ _ _ _ _ (path_exists_run _ w)).
    rewrite bool_decide_false by (rewrite Hp; by intros [? ?]).
    change (era5_retriever.SKIPPING && false) with false. cbv iota.
    match goal with
    | |- context [try_except ?a ?h w] =>
        assert (unfailing (era5_footprint out_folder target_date) (try_except a h)) as Hu
    end.
    { foot;
        first
          [ apply unfailing_confined, Hres
          | eapply confined_weaken; [|apply era5_export_body_confined];
            unfold era5_footprint; fold (era5_out_path out_folder target_date);
            intros p [->|?]; auto ]. }
    destruct (Hu w Hi) as ([[] Hok] & _ & Hframe). by split.
Qed.
End Batches.

(** X6 at an output that is a file but no raster. *)
Lemma era5_date_raises_only_on_unreadable_output_witness :
  (era5_retriever.get_era5_for_date Sample.reproject Sample.date "out" Sample.lst_path
     (Sample.world_of {[Sample.era5_path := OtherBytes]} Sample.era5_answers None)).1
  = Raised NameError.
Proof.
  pose proof (era5_date_raises_only_on_unreadable_output Sample.reproject Sample.date
                "out" Sample.lst_path
                (Sample.world_of {[Sample.era5_path := OtherBytes]}
                                 Sample.era5_answers None) eq_refl) as H.
  cbv zeta in H.
  assert (fs (Sample.world_of {[Sample.era5_path := OtherBytes]} Sample.era5_answers None)
            !! era5_out_path "out" Sample.date = Some OtherBytes) as Hp by reflexivity.
  rewrite Hp in H. destruct H as [H _]. exact H.
Defined.

Section GldasBatch.
Variable reproject : raster → nat → raster → option band.
Variables (glob path_glob : string → list string).
Variables (transform_bounds ee_Geometry_Polygon : raster → option exn).

Lemma gldas_verify_unfailing (P : string → Prop) (p : string) :
  unfailing P (gldas21_retriever.verify_image p).
Proof. unfold gldas21_retriever.verify_image. foot. Qed.

Lemma gldas_date_unfailing (out_folder sample_tif : string) (date : datetime) :
  unfailing (gldas_footprint out_folder date)
            (gldas21_retriever.download_gldas_date reproject out_folder sample_tif date).
Proof.
  assert (∀ ref, unfailing (gldas_footprint out_folder date)
            (gldas21_retriever.resample_to_match_reference reproject
               (gldas_out_path out_folder date) ref)) as Hres.
  { intros ref. eapply unfailing_weaken; [|apply gldas_resample_unfailing].
    unfold gldas_footprint. intros p [->| ->]; auto. }
  unfold gldas21_retriever.download_gldas_date.
  fold (gldas_out_path out_folder date).
  foot;
    first
      [ apply gldas_verify_unfailing
      | apply Hres
      | apply unfailing_confined, Hres
      | eapply confined_weaken; [|apply gldas_export_body_confined];
        unfold gldas_footprint; intros p [->|?]; auto ].
Qed.

Lemma gldas_roi_run (sample_tif : string) (w : world) :
  match roi_error transform_bounds ee_Geometry_Polygon (fs w) sample_tif with
  | None =>
      ∃ r, gldas21_retriever.get_roi_coords_from_tif transform_bounds sample_tif w
           = (Ok r, w) ∧ ee_Geometry_Polygon r = None
  | Some e =>
      gldas21_retriever.get_roi_coords_from_tif transform_bounds sample_tif w
      = (Raised e, w)
      ∨ ∃ r, gldas21_retriever.get_roi_coords_from_tif transform_bounds sample_tif w
             = (Ok r, w) ∧ ee_Geometry_Polygon r = Some e
  end.
Proof.
  unfold roi_error, gldas21_retriever.get_roi_coords_from_tif.
  destruct (fs w !! sample_tif) as [[r| |]|] eqn:Hp.
  - rewrite (bind_ok _ _ w w r) by (by apply rasterio_open_run).
    destruct (crs r) as [c|]; [|by left].
    change gldas21_retriever.TARGET_CRS with "EPSG:4326".
    destruct (bool_decide (c ≠ "EPSG:4326")).
    + destruct (transform_bounds r) as [e|]; [by left |].
      destruct (ee_Geometry_Polygon r) as [e|] eqn:He; [right|]; by exists r.
    + destruct (ee_Geometry_Polygon r) as [e|] eqn:He; [right|]; by exists r.
  - left. erewrite bind_raised; [done |]. apply rasterio_open_fail. intros x. by rewrite Hp.
  - left. erewrite bind_raised; [done |]. apply rasterio_open_fail. intros x. by rewrite Hp.
  - left. erewrite bind_raised; [done |]. apply rasterio_open_fail. intros x. by rewrite Hp.
Qed.

(** X7. Once the output folder is made and the region of interest is read
    from the sample raster, the GLDAS batch cannot be stopped by an
    exception: when the output folder is named by a path that is not empty
    and that no regular file is in the way of, and the first listed file is
    a raster with a CRS whose bounds [transform_bounds] and
    [ee.Geometry.Polygon] accept, [download_gldas_lsts] ends normally for
    every answer of the remote side, and it changes nothing outside the
    outputs of the dates it found, their [.resampled.tif] neighbours and
    [tmp_dl]. *)
Theorem gldas_batch_ends_normally (lst_folder out_folder sample_tif : string)
    (rest : list string) (w : world) :
  interrupt w = None →
  out_folder ≠ "" → ¬ in_the_way (fs w) out_folder →
  path_glob lst_folder = sample_tif :: rest →
  roi_error transform_bounds ee_Geometry_Polygon (fs w) sample_tif = None →
  let run := gldas21_retriever.download_gldas_lsts reproject glob transform_bounds
               ee_Geometry_Polygon path_glob lst_folder out_folder w in
  run.1 = Ok tt
  ∧ ∀ p, (∀ d, d ∈ gldas21_retriever.get_dates_from_folder glob lst_folder →
               ¬ gldas_footprint out_folder d p) →
         fs run.2 !! p = fs w !! p.
Proof.
  intros Hi Hne Hfree Hglob Hroi. cbv zeta.
  unfold gldas21_retriever.download_gldas_lsts.
  erewrite bind_ok by (by apply os_makedirs_run). rewrite Hglob.
  pose proof (gldas_roi_run sample_tif w) as Hrun. rewrite Hroi in Hrun.
  destruct Hrun as (r & Hrun & Hpoly).
  rewrite (bind_ok _ _ _ _ _ Hrun), Hpoly.
  erewrite bind_ok by reflexivity.
  destruct (gldas21_retriever.get_dates_from_folder glob lst_folder) as [|d0 ds].
  { by split. }
  set (P := λ p, ∃ d, d ∈ d0 :: ds ∧ gldas_footprint out_folder d p).
  match goal with
  | |- context [(?a ≫= ?k) w] => assert (unfailing P (a ≫= k)) as Hu
  end.
  { foot. eapply unfailing_weaken; [|apply gldas_date_unfailing].
    intros p Hp. eexists. by split. }
  destruct (Hu w Hi) as ([[] Hok] & _ & Hframe).
  split; [exact Hok |]. intros p Hp. apply Hframe. intros (d & Hd & Hf). by apply (Hp d).
Qed.

(** X8. The GLDAS batch does not guard its setup. When the path of the
    output folder is empty or a regular file is in its way, the call raises
    [OSError] from [os.makedirs]. Otherwise, when the first listed file does
    not open as a raster the call raises [RasterioIOError], when it opens
    but has no CRS [AttributeError], and when [transform_bounds] or
    [ee.Geometry.Polygon] raises, that exception. In every case this happens
    before any date is looked at, with no request made, no line printed and
    no file changed. *)
Theorem gldas_batch_setup_failure_raises (lst_folder out_folder sample_tif : string)
    (rest : list string) (w : world) :
  let run := gldas21_retriever.download_gldas_lsts reproject glob transform_bounds
               ee_Geometry_Polygon path_glob lst_folder out_folder w in
  (out_folder = "" ∨ in_the_way (fs w) out_folder → run = (Raised OSError, w))
  ∧ (out_folder ≠ "" → ¬ in_the_way (fs w) out_folder →
     path_glob lst_folder = sample_tif :: rest →
     ∀ e, roi_error transform_bounds ee_Geometry_Polygon (fs w) sample_tif = Some e →
          run = (Raised e, w)).
Proof.
  cbv zeta. unfold gldas21_retriever.download_gldas_lsts. split.
  - intros Hway. by erewrite bind_raised by (by apply os_makedirs_blocked).
  - intros Hne Hfree Hglob e Hroi.
    erewrite bind_ok by (by apply os_makedirs_run). rewrite Hglob.
    pose proof (gldas_roi_run sample_tif w) as Hrun. rewrite Hroi in Hrun.
    destruct Hrun as [Hrun|(r & Hrun & Hpoly)].
    + by erewrite bind_raised by exact Hrun.
    + rewrite (bind_ok _ _ _ _ _ Hrun), Hpoly. done.
Qed.
End GldasBatch.

(** X7 at a folder with one LST raster, the network down. *)
Lemma gldas_batch_ends_normally_witness :
  (gldas21_retriever.download_gldas_lsts Sample.reproject
     (λ _, [Sample.lst_path]) (λ _, None) (λ _, None) (λ _, [Sample.lst_path])
     "lst" "out"
     (Sample.world_of {[Sample.lst_path := GeoTiff Sample.lst]} Sample.offline None)).1
  = Ok tt.
Proof.
  destruct (gldas_batch_ends_normally Sample.reproject
              (λ _, [Sample.lst_path]) (λ _, [Sample.lst_path]) (λ _, None) (λ _, None)
              "lst" "out" Sample.lst_path []
              (Sample.world_of {[Sample.lst_path := GeoTiff Sample.lst]}
                               Sample.offline None))
    as [Hok _];
    [reflexivity | done | compute_done | reflexivity | reflexivity | exact Hok].
Defined.

(** X8 at a folder whose first listed file is no raster, and at an output
    folder that is a regular file. *)
Lemma gldas_batch_setup_failure_raises_witness :
  (gldas21_retriever.download_gldas_lsts Sample.reproject
     (λ _, [Sample.lst_path]) (λ _, None) (λ _, None) (λ _, [Sample.lst_path])
     "lst" "out"
     (Sample.world_of {[Sample.lst_path := OtherBytes]} Sample.offline None)).1
  = Raised RasterioIOError
  ∧ (gldas21_retriever.download_gldas_lsts Sample.reproject
       (λ _, [Sample.lst_path]) (λ _, None) (λ _, None) (λ _, [Sample.lst_path])
       "lst" "out"
       (Sample.world_of {[Sample.lst_path := GeoTiff Sample.lst; "out" := OtherBytes]}
                        Sample.offline None)).1
    = Raised OSError.
Proof.
  split.
  - destruct (gldas_batch_setup_failure_raises Sample.reproject
                (λ _, [Sample.lst_path]) (λ _, [Sample.lst_path]) (λ _, None) (λ _, None)
                "lst" "out" Sample.lst_path []
                (Sample.world_of {[Sample.lst_path := OtherBytes]} Sample.offline None))
      as [_ Hroi].
    rewrite (Hroi ltac:(done) ltac:(compute_done) eq_refl RasterioIOError eq_refl).
    reflexivity.
  - destruct (gldas_batch_setup_failure_raises Sample.reproject
                (λ _, [Sample.lst_path]) (λ _, [Sample.lst_path]) (λ _, None) (λ _, None)
                "lst" "out" Sample.lst_path []
                (Sample.world_of {[Sample.lst_path := GeoTiff Sample.lst;
                                   "out" := OtherBytes]} Sample.offline None))
      as [Hway _].
    rewrite (Hway ltac:(right; compute_done)). reflexivity.
Defined.

(** ** The ERA5 batch *)

Section RaisesOnly.
Context (E : exn → Prop) (P : string → Prop).

Lemma raises_only_unfailing {A} (m : M A) : unfailing P m → raises_only E P m.
Proof.
  intros H w Hi. destruct (H w Hi) as ([x Hx] & ? & ?).
  split_and!; [by rewrite Hx | done | done].
Qed.

Lemma raises_only_raise {A} (e : exn) : E e → raises_only E P (raise e : M A).
Proof. intros He w Hi. by split_and!. Qed.

Lemma raises_only_bind {A B} (m : M A) (k : A → M B) :
  raises_only E P m → (∀ x, raises_only E P (k x)) → raises_only E P (m ≫= k).
Proof.
  intros Hm Hk w Hi. destruct (Hm w Hi) as (Hn & Hi1 & Hf1).
  unfold mbind, M_bind. destruct (m w) as [[x|e|] w1]; simpl in *; [|done|done].
  destruct (Hk x w1 Hi1) as (Hn2 & Hi2 & Hf2).
  split_and!; [done | done |]. intros p Hp. by rewrite Hf2, Hf1.
Qed.

Lemma raises_only_try_except {A} (m : M A) (h : exn → M A) :
  confined P m → (∀ e, raises_only E P (h e)) → raises_only E P (try_except m h).
Proof.
  intros Hm Hh w Hi. destruct (Hm w Hi) as (Hn & Hi1 & Hf1).
  unfold try_except. destruct (m w) as [[x|e|] w1]; simpl in *; [done| |done].
  destruct (Hh e w1 Hi1) as (Hn2 & Hi2 & Hf2).
  split_and!; [done | done |]. intros p Hp. by rewrite Hf2, Hf1.
Qed.

Lemma raises_only_for_each {A} (l : list A) (body : A → M unit) :
  (∀ x, x ∈ l → raises_only E P (body x)) → raises_only E P (for_each l body).
Proof.
  induction l as [|x l IH]; intros Hb; simpl.
  - apply raises_only_unfailing, unfailing_ret.
  - apply raises_only_bind; [apply Hb; left |].
    intros _. apply IH. intros y Hy. apply Hb. by right.
Qed.
End RaisesOnly.

Lemma raises_only_weaken (E : exn → Prop) (P Q : string → Prop) {A} (m : M A) :
  (∀ p, P p → Q p) → raises_only E P m → raises_only E Q m.
Proof.
  intros HPQ Hm w Hi. destruct (Hm w Hi) as (? & ? & Hf).
  split_and!; [done | done |]. intros p Hp. apply Hf. intros HP. by apply Hp, HPQ.
Qed.

Section Era5Batch.
Variable reproject : raster → nat → raster → option band.
Variables (glob path_glob : gmap string file → string → list string).
Variables (transform_bounds ee_Geometry_Polygon : raster → option exn).

Lemma era5_verify_raises_only (P : string → Prop) (p : string) :
  raises_only (λ e, e = NameError) P (era5_retriever.verify_image p).
Proof.
  unfold era5_retriever.verify_image. apply raises_only_try_except.
  - foot.
  - intros e. by apply raises_only_raise.
Qed.

Lemma era5_date_raises_only (date : datetime) (out_folder reference : string) :
  raises_only (λ e, e = NameError) (era5_footprint out_folder date)
    (era5_retriever.get_era5_for_date reproject date out_folder reference).
Proof.
  assert (∀ ref, unfailing (era5_footprint out_folder date)
            (era5_retriever.resample_to_match_reference reproject
               (era5_out_path out_folder date) ref)) as Hres.
  { intros ref. eapply unfailing_weaken; [|apply era5_resample_unfailing].
    unfold era5_footprint. intros p [->| ->]; auto. }
  unfold era5_retriever.get_era5_for_date. fold (era5_out_path out_folder date).
  apply raises_only_bind; [apply raises_only_unfailing, unfailing_path_exists |].
  intros present. destruct (era5_retriever.SKIPPING && present).
  - apply raises_only_bind; [apply raises_only_unfailing, unfailing_print |]. intros _.
    apply raises_only_bind; [apply era5_verify_raises_only |]. intros _.
    apply raises_only_unfailing. foot. apply Hres.
  - apply raises_only_unfailing.
    foot;
      first
        [ apply unfailing_confined, Hres
        | eapply confined_weaken; [|apply era5_export_body_confined];
          unfold era5_footprint; fold (era5_out_path out_folder date);
          intros p [->|?]; auto ].
Qed.

Lemma unfailing_collect_dates (P : string → Prop) (tif_files : list string) :
  ∀ dates, unfailing P (era5_retriever.collect_dates tif_files dates).
Proof.
  induction tif_files as [|t rest IH]; intros dates; simpl; foot; apply IH.
Qed.

(** X9. [main] of era5_retriever.py, started with no interruption pending.
    When the path of the output folder is empty or a regular file is in its
    way, the call raises [OSError] from [os.makedirs], with no request made
    and no file changed. Otherwise it ends normally or with [NameError] (from [verify_image], on
    an output file that does not open as a raster) and with no other
    exception, whatever the remote side answers; and it changes no path
    outside the ERA5 outputs, their [.resampled.tif] neighbours and
    [temp_dl]. *)
Theorem era5_main_raises_only_OSError_and_NameError
    (input_folder output_folder : string) (w : world) :
  interrupt w = None →
  let run := era5_retriever.main reproject glob path_glob transform_bounds
               ee_Geometry_Polygon input_folder output_folder w in
  (output_folder = "" ∨ in_the_way (fs w) output_folder →
   run.1 = Raised OSError ∧ fs run.2 = fs w ∧ net run.2 = net w)
  ∧ (output_folder ≠ "" → ¬ in_the_way (fs w) output_folder →
     match run.1 with Ok _ => True | Raised e => e = NameError | Interrupted => False end
     ∧ interrupt run.2 = None
     ∧ ∀ p, (∀ date, ¬ era5_footprint output_folder date p) →
            fs run.2 !! p = fs w !! p).
Proof.
  intros Hi. cbv zeta.
  set (P := λ p, ∃ date, era5_footprint output_folder date p).
  assert (∀ {A} (m : M A), unfailing P m → raises_only (λ e, e = NameError) P m) as Hu.
  { intros A m. apply raises_only_unfailing. }
  unfold era5_retriever.main.
  do 2 (erewrite bind_ok by reflexivity).
  match goal with |- context [(os_makedirs _ ≫= _) ?W0] => set (W := W0) end.
  assert (fs W = fs w) as HfsW by reflexivity.
  split.
  - intros Hway.
    erewrite bind_raised by (apply os_makedirs_blocked; by rewrite HfsW).
    by split_and!.
  - intros Hne Hfree.
    erewrite bind_ok by (apply os_makedirs_run; [done | by rewrite HfsW]).
    match goal with
    | |- context [(get_fs ≫= ?k) W] =>
        assert (raises_only (λ e, e = NameError) P (get_fs ≫= k)) as Hr
    end.
    { apply raises_only_bind; [apply Hu, unfailing_get_fs |]. intros m.
      destruct (path_glob m input_folder) as [|sample_tif_path rest]; [apply Hu; foot |].
      apply raises_only_bind; [apply Hu; foot |]. intros _.
      apply raises_only_bind.
      { apply Hu. unfold era5_retriever.get_roi_coords_from_tif. foot. }
      intros [|]; [|apply Hu; foot].
      apply raises_only_bind.
      { apply Hu. unfold era5_retriever.get_dates_from_filenames.
        apply unfailing_bind; [apply unfailing_get_fs |]. intros m0.
        apply unfailing_collect_dates. }
      intros [|d0 ds]; [apply Hu; foot |].
      apply raises_only_bind; [apply Hu; foot |]. intros _.
      apply raises_only_bind.
      { apply raises_only_for_each. intros date _.
        apply raises_only_bind; [apply Hu; foot |]. intros _.
        eapply raises_only_weaken; [|apply era5_date_raises_only].
        intros p Hp. by exists date. }
      intros _.
      apply raises_only_bind; [apply Hu; foot |]. intros _.
      apply raises_only_bind; [apply Hu, unfailing_get_fs |]. intros m'.
      apply raises_only_bind; [|intros _; apply Hu; foot].
      apply raises_only_for_each. intros f _.
      apply raises_only_bind; [apply era5_verify_raises_only |]. intros _.
      apply Hu; foot. }
    destruct (Hr W Hi) as (Hout & Hi' & Hframe).
    split_and!; [exact Hout | exact Hi' |].
    intros p Hp. rewrite Hframe; [done |]. intros [date Hd]. by apply (Hp date).
Qed.

Lemma era5_roi_run (sample_tif : string) (w : world) (e : exn) :
  roi_error transform_bounds ee_Geometry_Polygon (fs w) sample_tif = Some e →
  ∃ w', fs w' = fs w ∧ net w' = net w
        ∧ (era5_retriever.get_roi_coords_from_tif transform_bounds sample_tif w
           = (Raised e, w')
           ∨ ∃ r, era5_retriever.get_roi_coords_from_tif transform_bounds sample_tif w
                  = (Ok r, w') ∧ ee_Geometry_Polygon r = Some e).
Proof.
  unfold roi_error, era5_retriever.get_roi_coords_from_tif.
  destruct (fs w !! sample_tif) as [[r| |]|] eqn:Hp.
  - rewrite (bind_ok _ _ w w r) by (by apply rasterio_open_run).
    destruct (crs r) as [c|].
    2:{ intros [= <-]. exists w. split_and!; [done | done | by left]. }
    change era5_retriever.TARGET_CRS with "EPSG:4326".
    destruct (bool_decide (c ≠ "EPSG:4326")).
    + destruct (transform_bounds r) as [e'|].
      * intros [= <-]. eexists. split_and!; [| | left; reflexivity]; done.
      * intros He. eexists. split_and!; [| | right; exists r; split; [reflexivity | done]];
          done.
    + intros He. exists w. split_and!; [done | done | right; by exists r].
  - intros [= <-]. exists w. split_and!; [done | done | left].
    erewrite bind_raised; [done |]. apply rasterio_open_fail. intros x. by rewrite Hp.
  - intros [= <-]. exists w. split_and!; [done | done | left].
    erewrite bind_raised; [done |]. apply rasterio_open_fail. intros x. by rewrite Hp.
  - intros [= <-]. exists w. split_and!; [done | done | left].
    erewrite bind_raised; [done |]. apply rasterio_open_fail. intros x. by rewrite Hp.
Qed.

(** X10. [main] of era5_retriever.py guards its setup once the output folder
    is made: with an output folder named by a path that is not empty and
    that no regular file is in the way of, and with no file listed in the
    input folder, or with a first listed file that does not open as a
    raster, has no CRS, or whose bounds [transform_bounds] or
    [ee.Geometry.Polygon] rejects, the call returns normally after printing
    the error, having made no request and changed no file (the GLDAS batch
    raises in the same situation). *)
Theorem era5_main_setup_failure_returns (input_folder output_folder : string)
    (w : world) :
  output_folder ≠ "" → ¬ in_the_way (fs w) output_folder →
  match path_glob (fs w) input_folder with
  | [] => True
  | sample_tif_path :: _ =>
      is_Some (roi_error transform_bounds ee_Geometry_Polygon (fs w) sample_tif_path)
  end →
  let run := era5_retriever.main reproject glob path_glob transform_bounds
               ee_Geometry_Polygon input_folder output_folder w in
  run.1 = Ok tt ∧ fs run.2 = fs w ∧ net run.2 = net w.
Proof.
  intros Hne Hfree Hs. cbv zeta. unfold era5_retriever.main.
  do 2 (erewrite bind_ok by reflexivity).
  erewrite bind_ok by (by apply os_makedirs_run).
  erewrite bind_ok by reflexivity.
  cbn [fs remote net temps trace interrupt].
  destruct (path_glob (fs w) input_folder) as [|sample rest]; [by repeat split |].
  erewrite bind_ok by reflexivity.
  match goal with |- context [(try_except ?a ?h ≫= ?k) ?W0] => set (W := W0) end.
  destruct Hs as [e He].
  destruct (era5_roi_run sample W e He) as (W' & HfsW & HnetW & Hrun).
  erewrite bind_ok.
  2:{ unfold try_except.
      destruct Hrun as [Hrun|(r & Hrun & Hpoly)].
      - erewrite bind_raised by exact Hrun. reflexivity.
      - rewrite (bind_ok _ _ _ _ _ Hrun), Hpoly. reflexivity. }
  simpl. rewrite HfsW, HnetW. done.
Qed.
End Era5Batch.

(** X9 at a folder whose ERA5 output is no raster, and at an output folder
    that is a regular file. *)
Lemma era5_main_raises_only_OSError_and_NameError_witness :
  match (era5_retriever.main Sample.reproject
           (λ _ _, [Sample.lst_path]) (λ _ _, [Sample.lst_path]) (λ _, None) (λ _, None)
           "lst" "out"
           (Sample.world_of {[Sample.lst_path := GeoTiff Sample.lst;
                              Sample.era5_path := OtherBytes]}
                            Sample.era5_answers None)).1 with
  | Ok _ => True
  | Raised e => e = NameError
  | Interrupted => False
  end
  ∧ (era5_retriever.main Sample.reproject
       (λ _ _, [Sample.lst_path]) (λ _ _, [Sample.lst_path]) (λ _, None) (λ _, None)
       "lst" "out"
       (Sample.world_of {[Sample.lst_path := GeoTiff Sample.lst; "out" := OtherBytes]}
                        Sample.era5_answers None)).1
    = Raised OSError.
Proof.
  split.
  - destruct (era5_main_raises_only_OSError_and_NameError Sample.reproject
                (λ _ _, [Sample.lst_path]) (λ _ _, [Sample.lst_path])
                (λ _, None) (λ _, None) "lst" "out"
                (Sample.world_of {[Sample.lst_path := GeoTiff Sample.lst;
                                   Sample.era5_path := OtherBytes]}
                                 Sample.era5_answers None) eq_refl) as [_ Hfree].
    destruct Hfree as (H & _); [done | compute_done | exact H].
  - destruct (era5_main_raises_only_OSError_and_NameError Sample.reproject
                (λ _ _, [Sample.lst_path]) (λ _ _, [Sample.lst_path])
                (λ _, None) (λ _, None) "lst" "out"
                (Sample.world_of {[Sample.lst_path := GeoTiff Sample.lst;
                                   "out" := OtherBytes]}
                                 Sample.era5_answers None) eq_refl) as [Hway _].
    destruct Hway as (H & _); [right; compute_done | exact H].
Defined.

(** X10 at a folder whose first listed file does not exist any more. *)
Lemma era5_main_setup_failure_returns_witness :
  (era5_retriever.main Sample.reproject
     (λ _ _, [Sample.lst_path]) (λ _ _, [Sample.lst_path]) (λ _, None) (λ _, None)
     "lst" "out"
     (Sample.world_of ∅ Sample.era5_answers None)).1 = Ok tt.
Proof.
  destruct (era5_main_setup_failure_returns Sample.reproject
              (λ _ _, [Sample.lst_path]) (λ _ _, [Sample.lst_path])
              (λ _, None) (λ _, None) "lst" "out"
              (Sample.world_of ∅ Sample.era5_answers None)) as (H & _).
  - done.
  - compute_done.
  - by eexists.
  - exact H.
Defined.

(** ** Temporary directories *)

Lemma plain_end_cons (c : ascii) (s : string) : plain_end s → plain_end (String c s).
Proof. intros H acc. apply H. Qed.

Lemma prefix_cons_ne (c x : ascii) (s t : string) :
  c ≠ x → String.prefix (String c s) (String x t) = false.
Proof. intros Hne. cbn -[ascii_dec]. by destruct (ascii_dec c x). Qed.

Lemma pretty_N_char_plain (y : N) : plain_end (String (pretty_N_char y) "").
Proof.
  assert ("/"%char ≠ pretty_N_char y) as Hne.
  { destruct y as [|p]; [done |].
    do 4 (try destruct p as [p|p|]); done. }
  intros acc. by apply prefix_cons_ne.
Qed.

Lemma pretty_N_go_plain (x : N) : ∀ s, plain_end s → plain_end (pretty_N_go x s).
Proof.
  induction (N.lt_wf_0 x) as [x _ IH]. intros s Hs.
  destruct (decide (0 < x)%N) as [Hpos|Hz].
  - rewrite pretty_N_go_step by done.
    apply IH; [by apply N.div_lt | by apply plain_end_cons].
  - assert (x = 0%N) as -> by lia. by rewrite pretty_N_go_0.
Qed.

Lemma pretty_nat_plain (n : nat) : plain_end (pretty n).
Proof.
  unfold pretty, pretty_nat, pretty, pretty_N.
  destruct (decide (N.of_nat n = 0%N)) as [_|Hne]; [by intros acc |].
  rewrite pretty_N_go_step by lia.
  apply pretty_N_go_plain, pretty_N_char_plain.
Qed.

Lemma next_temp_dir_plain (w : world) :
  next_temp_dir w ≠ "" ∧ String.prefix "/" (String.rev (next_temp_dir w)) = false.
Proof.
  unfold next_temp_dir. split; [done |].
  unfold String.rev. rewrite rev_app_app. apply pretty_nat_plain.
Qed.

Lemma prefix_app_l (a b p : string) :
  String.prefix (a +:+ b) p = true → String.prefix a p = true.
Proof.
  revert p. induction a as [|x a IH]; intros p; [by destruct p |].
  change (String x a +:+ b) with (String x (a +:+ b)).
  destruct p as [|y p]; simpl; [done |].
  destruct (ascii_dec x y); [apply IH | done].
Qed.

Lemma under_next_temp_dir (w : world) (p : string) :
  under (next_temp_dir w) p → String.prefix "/tmp/tmp" p = true.
Proof.
  unfold under, next_temp_dir. intros H.
  rewrite string_app_assoc in H. by apply prefix_app_l in H.
Qed.

(** What [shutil.rmtree] leaves of a map. *)
Lemma lookup_rmtree (dir p : string) (m : gmap string file) :
  filter (λ kv, negb (String.prefix (dir +:+ "/") kv.1) = true) m !! p
  = if String.prefix (dir +:+ "/") p then None else m !! p.
Proof.
  destruct (String.prefix (dir +:+ "/") p) eqn:Hp.
  - apply map_lookup_filter_None. right. intros x _. simpl. by rewrite Hp.
  - destruct (m !! p) as [x|] eqn:Hx.
    + apply map_lookup_filter_Some. split; [done |]. simpl. by rewrite Hp.
    + apply map_lookup_filter_None. by left.
Qed.

(** ** The NDVI downloads and the files *)

Ltac unfold_run :=
  unfold mbind, M_bind, mret, M_ret, ret, raise, print, emit, fs_write, get_fs,
    with_fs, with_interrupt; cbn -[Py.path_join pretty append].

Section NdviFiles.
Import ndvi_retrieval.

(** One attempt and the files: the directory it was given is empty again,
    the final path holds the package's first TIFF when the answer was
    accepted and is as before otherwise, and nothing else has changed. *)
Lemma download_attempt_fs (ndvi_name date_str url final : string) (attempt : nat)
    (w : world) :
  interrupt w = None → String.prefix "/tmp/tmp" final = false →
  lacks "/" ndvi_name = true → lacks "/" date_str = true →
  flat_package (remote w (net w)) = true →
  let r := remote w (net w) in
  ∃ w', download_attempt ndvi_name date_str url final attempt w = (Ok (reply_ok r), w')
    ∧ temps w' = S (temps w) ∧ net w' = S (net w) ∧ remote w' = remote w
    ∧ interrupt w' = None
    ∧ (∀ p, under (next_temp_dir w) p → fs w' !! p = None)
    ∧ (∀ p, p ≠ final → ¬ under (next_temp_dir w) p → fs w' !! p = fs w !! p)
    ∧ fs w' !! final = (if reply_ok r then fetched r else fs w !! final).
Proof.
  intros Hi Hfinal Hname Hdate Hflat. cbv zeta.
  assert (String.prefix (next_temp_dir w +:+ "/") final = false) as Hout.
  { destruct (String.prefix (next_temp_dir w +:+ "/") final) eqn:Hu; [|done].
    apply under_next_temp_dir in Hu. congruence. }
  destruct (next_temp_dir_plain w) as [Hne Hrev].
  pose proof (λ b, path_join_under (next_temp_dir w) b Hne Hrev) as Hjoin.
  assert (String.prefix "/" (ndvi_name +:+ date_str +:+ ".zip") = false) as Hzip.
  { apply lacks_not_absolute. by rewrite !lacks_app, Hname, Hdate. }
  unfold under in *. clear Hne Hrev Hfinal.
  destruct w as [m rem n t tr i]. simpl in Hi. subst i.
  unfold next_temp_dir in *. simpl temps in *. simpl remote in *. simpl net in *.
  unfold download_attempt, mkdtemp, try_finally, try_except, requests_get, request,
    raise_for_status, shutil_rmtree, zip_open, shutil_move.
  unfold_run.
  set (dir := "/tmp/tmp" +:+ pretty t) in *. clearbody dir.
  set (zip := ndvi_name +:+ date_str +:+ ".zip") in *. clearbody zip.
  assert (∀ mm : gmap string file,
            (∀ p, String.prefix (dir +:+ "/") p = false → p ≠ final → mm !! p = m !! p) →
            ∀ o : option file, mm !! final = o →
            (∀ p, String.prefix (dir +:+ "/") p = true →
                  filter (λ kv : string * file,
                            negb (String.prefix (dir +:+ "/") kv.1) = true) mm !! p = None)
            ∧ (∀ p, p ≠ final → String.prefix (dir +:+ "/") p ≠ true →
                  filter (λ kv : string * file,
                            negb (String.prefix (dir +:+ "/") kv.1) = true) mm !! p
                  = m !! p)
            ∧ filter (λ kv : string * file,
                        negb (String.prefix (dir +:+ "/") kv.1) = true) mm !! final = o)
    as Hleaf.
  { intros mm Hframe o Ho. split_and!.
    - intros p Hp. by rewrite lookup_rmtree, Hp.
    - intros p Hpf Hp. rewrite lookup_rmtree.
      destruct (String.prefix (dir +:+ "/") p) eqn:Hpre; [done |]. by apply Hframe.
    - by rewrite lookup_rmtree, Hout. }
  assert (∀ b, String.prefix "/" b = false → Py.path_join dir b ≠ final) as Hjf.
  { intros b Hb Heq. specialize (Hjoin b Hb). rewrite Heq in Hjoin. congruence. }
  assert (∀ b p, String.prefix "/" b = false →
                 String.prefix (dir +:+ "/") p = false → Py.path_join dir b ≠ p) as Hjp.
  { intros b p Hb Hp Heq. specialize (Hjoin b Hb). rewrite Heq in Hjoin. congruence. }
  pose proof (Hjf zip Hzip) as Hzf. pose proof (λ p, Hjp zip p Hzip) as Hzp.
  destruct (rem n) as [e|?|?|?|?|status body] eqn:Hr; cbn -[Py.path_join pretty append];
    try (eexists; split; [reflexivity |]; do 4 (split; [reflexivity |]); by apply Hleaf).
  - destruct e; cbn -[Py.path_join pretty append];
      (eexists; split; [reflexivity |]; do 4 (split; [reflexivity |]); by apply Hleaf).
  - destruct ((400 <=? status)%Z && (status <? 600)%Z) eqn:Hst;
      cbn -[Py.path_join pretty append].
    { assert ((status =? 200)%Z = false) as Hne by lia.
      destruct body; cbn -[Py.path_join pretty append]; rewrite ?Hne;
        cbn -[Py.path_join pretty append];
        (eexists; split; [reflexivity |]; do 4 (split; [reflexivity |]); by apply Hleaf). }
    destruct (status =? 200)%Z eqn:H200; cbn -[Py.path_join pretty append].
    2:{ destruct body; cbn -[Py.path_join pretty append];
          (eexists; split; [reflexivity |]; do 4 (split; [reflexivity |]); by apply Hleaf). }
    rewrite lookup_insert_eq.
    destruct body as [x|members|]; cbn -[Py.path_join pretty append];
      try (eexists; split; [reflexivity |]; do 4 (split; [reflexivity |]);
           apply Hleaf; [intros p Hp Hpf |]; by rewrite lookup_insert_ne by auto).
    fold (tif_members members).
    destruct (tif_members members) as [|name rest] eqn:Htif;
      cbn -[Py.path_join pretty append].
    { try rewrite bool_decide_false by (intros H; by apply H).
      eexists; split; [reflexivity |]; do 4 (split; [reflexivity |]).
      apply Hleaf; [intros p Hp Hpf |]; by rewrite lookup_insert_ne by auto. }
    try rewrite bool_decide_true by done.
    simpl in Hflat.
    rewrite (ndvi_member_extract members name _ rest Hflat Htif).
    assert (String.prefix "/" name = false) as Hrel.
    { apply lacks_not_absolute. apply flat_names_spec in Hflat as [_ Hall].
      apply Hall. rewrite Htif. left. }
    pose proof (Hjf name Hrel) as Hnf. pose proof (λ p, Hjp name p Hrel) as Hnp.
    unfold fs_write. cbn -[Py.path_join pretty append].
    rewrite lookup_insert_eq. cbn -[Py.path_join pretty append].
    eexists; split; [reflexivity |]; do 4 (split; [reflexivity |]).
    apply Hleaf.
    + intros p Hp Hpf.
      rewrite lookup_insert_ne by done.
      rewrite lookup_delete_ne by auto.
      by rewrite !lookup_insert_ne by auto.
    + rewrite lookup_insert_eq. unfold member_file.
      by destruct (dict_get_head_filter _ members name rest Htif) as [[x|] ->].
Qed.

Lemma retry_loop_fs (ndvi_name date_str url final : string) (attempts : list nat) :
  String.prefix "/tmp/tmp" final = false →
  lacks "/" ndvi_name = true → lacks "/" date_str = true →
  ∀ w, interrupt w = None →
    (∀ k, (k < List.length attempts)%nat →
          flat_package (remote w (k + net w)%nat) = true) →
    ∃ b w', retry_loop ndvi_name date_str url final attempts w = (Ok b, w')
      ∧ interrupt w' = None
      ∧ (∀ p, p ≠ final → String.prefix "/tmp/tmp" p = false → fs w' !! p = fs w !! p)
      ∧ fs w' !! final
        = match first_accepted (remote w) (net w) (List.length attempts) with
          | Some r => fetched r
          | None => fs w !! final
          end.
Proof.
  intros Hfinal Hname Hdate.
  induction attempts as [|attempt rest IH]; intros w Hi Hflat.
  { exists false, w. by split_and!. }
  cbn [retry_loop List.length first_accepted].
  destruct (download_attempt_fs ndvi_name date_str url final attempt w Hi Hfinal
              Hname Hdate)
    as (w1 & Hrun & _ & Hn1 & Hr1 & Hi1 & _ & Hframe1 & Hfin1).
  { apply (Hflat 0%nat). simpl. lia. }
  rewrite (bind_ok _ _ _ _ _ Hrun).
  assert (∀ p, p ≠ final → String.prefix "/tmp/tmp" p = false → fs w1 !! p = fs w !! p)
    as Hf1.
  { intros p Hp Hpre. apply Hframe1; [done |]. intros Hu.
    apply under_next_temp_dir in Hu. congruence. }
  destruct (reply_ok (remote w (net w))) eqn:Hok.
  { exists true, w1. by split_and!. }
  match goal with
  | |- context [((if ?c then sleep ?z else ret tt) ≫= ?k) w1] =>
      assert (∃ w1s, ((if c then sleep z else ret tt) ≫= k) w1 = k tt w1s
                     ∧ fs w1s = fs w1 ∧ net w1s = net w1 ∧ remote w1s = remote w1
                     ∧ interrupt w1s = interrupt w1) as (w1s & -> & Hfs & Hn & Hr & His)
  end.
  { destruct (attempt <? max_retries - 1)%nat; eexists; (split; [reflexivity |]); done. }
  cbv beta.
  destruct (IH w1s) as (b & w' & Hloop & Hi' & Hframe & Hfin); [congruence | |].
  { intros k Hk. rewrite Hr, Hn, Hr1, Hn1.
    replace (k + S (net w))%nat with (S k + net w)%nat by lia.
    apply Hflat. simpl. lia. }
  exists b, w'. split_and!; [done | done | |].
  - intros p Hp Hpre. rewrite Hframe, Hfs by done. by apply Hf1.
  - by rewrite Hfin, Hr, Hn, Hfs, Hr1, Hn1, Hfin1.
Qed.

(** X11. One attempt of the NDVI retry loop, run without interruption with
    a final path outside [/tmp/tmp*] whose folder no regular file is in the
    way of, and with a name prefix and a date string without slash: whatever
    the remote side answers (a package, if it is one, with flat and distinct
    names for its [*.tif] members), the temporary directory of the attempt
    is empty afterwards, the final path holds the first [*.tif] member of
    the package when the answer was accepted and is as before otherwise, and
    no other path has changed. *)
Theorem ndvi_attempt_leaves_no_temp_files
    (ndvi_name date_str download_url final_tif_path : string) (attempt : nat)
    (w : world) :
  interrupt w = None → String.prefix "/tmp/tmp" final_tif_path = false →
  ¬ in_the_way (fs w) (Py.dirname final_tif_path) →
  lacks "/" ndvi_name = true → lacks "/" date_str = true →
  flat_package (remote w (net w)) = true →
  let r := remote w (net w) in
  let run := download_attempt ndvi_name date_str download_url final_tif_path attempt w in
  run.1 = Ok (reply_ok r)
  ∧ (∀ p, under (next_temp_dir w) p → fs run.2 !! p = None)
  ∧ (∀ p, p ≠ final_tif_path → ¬ under (next_temp_dir w) p → fs run.2 !! p = fs w !! p)
  ∧ fs run.2 !! final_tif_path
    = (if reply_ok r then fetched r else fs w !! final_tif_path).
Proof.
  intros Hi Hfinal _ Hname Hdate Hflat. cbv zeta.
  destruct (download_attempt_fs ndvi_name date_str download_url final_tif_path attempt
              w Hi Hfinal Hname Hdate Hflat)
    as (w' & -> & _ & _ & _ & _ & Hclean & Hframe & Hfin).
  by split_and!.
Qed.

(** X12. The retry loop of [download_ndvi] and the final path, run without
    interruption with a final path outside [/tmp/tmp*] whose folder no
    regular file is in the way of, with a name prefix and a date string
    without slash, against answers whose packages have flat and distinct
    names for their [*.tif] members: the call ends normally; when one of the
    next three answers is accepted, the final path holds the first [*.tif]
    member of the first accepted package; when none is, the final path is as
    before (no partial file appears); and no path outside [/tmp/tmp*] other
    than the final path has changed. *)
Theorem ndvi_fetch_writes_first_accepted_package
    (ndvi_name date_str download_url final_tif_path : string) (w : world) :
  interrupt w = None → String.prefix "/tmp/tmp" final_tif_path = false →
  ¬ in_the_way (fs w) (Py.dirname final_tif_path) →
  lacks "/" ndvi_name = true → lacks "/" date_str = true →
  (∀ k, (k < max_retries)%nat → flat_package (remote w (k + net w)%nat) = true) →
  let run := download_with_retries ndvi_name date_str download_url final_tif_path w in
  run.1 = Ok tt
  ∧ (∀ p, p ≠ final_tif_path → String.prefix "/tmp/tmp" p = false →
          fs run.2 !! p = fs w !! p)
  ∧ fs run.2 !! final_tif_path
    = match first_accepted (remote w) (net w) max_retries with
      | Some r => fetched r
      | None => fs w !! final_tif_path
      end.
Proof.
  intros Hi Hfinal _ Hname Hdate Hflat. cbv zeta. unfold download_with_retries.
  destruct (retry_loop_fs ndvi_name date_str download_url final_tif_path
              (seq 0 max_retries) Hfinal Hname Hdate w Hi)
    as (b & w' & Hloop & Hi' & Hframe & Hfin).
  { intros k Hk. apply Hflat. by rewrite length_seq in Hk. }
  rewrite (bind_ok _ _ _ _ _ Hloop).
  rewrite length_seq in Hfin. destruct b; simpl; by split_and!.
Qed.
End NdviFiles.

(** X11 with the sample package as the answer. *)
Lemma ndvi_attempt_leaves_no_temp_files_witness :
  let w := Sample.world_of ∅ (λ _, Http 200 (ZipArchive [("download.NDVI.tif",
                                                          Some Sample.tile_a)])) None in
  fs (ndvi_retrieval.download_attempt "ndvi8days_" "2022-01-15"
        "https://earthengine.example/ndvi" "ndvi/ndvi8days_2022-01-15.tif" 0 w).2
    !! "ndvi/ndvi8days_2022-01-15.tif" = Some (GeoTiff Sample.tile_a).
Proof.
  cbv zeta.
  destruct (ndvi_attempt_leaves_no_temp_files "ndvi8days_" "2022-01-15"
              "https://earthengine.example/ndvi" "ndvi/ndvi8days_2022-01-15.tif" 0
              (Sample.world_of ∅ (λ _, Http 200 (ZipArchive [("download.NDVI.tif",
                                                              Some Sample.tile_a)])) None))
    as (_ & _ & _ & Hfin);
    [reflexivity | reflexivity | compute_done | reflexivity | reflexivity
    | reflexivity |].
  rewrite Hfin. reflexivity.
Defined.

(** X12 with answers that fail twice before the package arrives. *)
Lemma ndvi_fetch_writes_first_accepted_package_witness :
  let answers n := match n with
                   | 0 => Fails RequestException
                   | 1 => Http 200 OtherBytes
                   | _ => Http 200 (ZipArchive [("download.NDVI.tif", Some Sample.tile_a)])
                   end%nat in
  fs (ndvi_retrieval.download_with_retries "ndvi8days_" "2022-01-15"
        "https://earthengine.example/ndvi" "ndvi/ndvi8days_2022-01-15.tif"
        (Sample.world_of ∅ answers None)).2
    !! "ndvi/ndvi8days_2022-01-15.tif" = Some (GeoTiff Sample.tile_a).
Proof.
  cbv zeta.
  destruct (ndvi_fetch_writes_first_accepted_package "ndvi8days_" "2022-01-15"
              "https://earthengine.example/ndvi" "ndvi/ndvi8days_2022-01-15.tif"
              (Sample.world_of ∅
                 (λ n, match n with
                       | 0 => Fails RequestException
                       | 1 => Http 200 OtherBytes
                       | _ => Http 200 (ZipArchive [("download.NDVI.tif",
                                                     Some Sample.tile_a)])
                       end%nat) None))
    as (_ & _ & Hfin);
    [reflexivity | reflexivity | compute_done | reflexivity | reflexivity | |].
  - intros k Hk. do 3 (destruct k as [|k]; [reflexivity |]).
    unfold ndvi_retrieval.max_retries in Hk. lia.
  - rewrite Hfin. reflexivity.
Defined.

(** ** The synchronisation and the files *)

Section SyncFiles.
Import synchronize_ndvi_to_lst.
Variable glob : string → list string.

Lemma find_nearest_image_get {V} (target : datetime) (source_map : list (datetime * V))
    (v : V) :
  find_nearest_image target source_map = Some v →
  ∃ d, dict_get d source_map = Some v.
Proof.
  unfold find_nearest_image. destruct (py_min _ _) as [d|]; [|done]. by exists d.
Qed.

(** Every path of a date map carries the date it is filed under. *)
Lemma date_map_get_parsed (folder_path : string) (d : datetime) (path : string) :
  dict_get d (get_image_date_map glob folder_path) = Some path →
  parsed_date path = Some d.
Proof.
  unfold get_image_date_map.
  destruct (fold_date_map (glob (Py.path_join folder_path "*.tif")) [])
    as [_ Hget]; [constructor |].
  rewrite Hget.
  destruct (List.find _ _) as [f|] eqn:Hfind; [|done].
  intros [= ->]. apply List.find_some in Hfind as [_ Hd].
  by apply bool_decide_eq_true in Hd.
Qed.


End SyncFiles.


(** ** Dates *)

Section DateFacts.
Import Datetime.

Lemma digit_char_spec (n : Z) :
  Py.is_digit (digit_char n) = true ∧ Py.digit_val (digit_char n) = (n mod 10)%Z.
Proof.
  pose proof (Z.mod_pos_bound n 10 eq_refl) as Hb. unfold digit_char.
  assert (n mod 10 = 0 ∨ n mod 10 = 1 ∨ n mod 10 = 2 ∨ n mod 10 = 3 ∨ n mod 10 = 4
          ∨ n mod 10 = 5 ∨ n mod 10 = 6 ∨ n mod 10 = 7 ∨ n mod 10 = 8 ∨ n mod 10 = 9)%Z
    as Hcases by lia.
  destruct Hcases as [H|[H|[H|[H|[H|[H|[H|[H|[H|H]]]]]]]]]; rewrite H; by vm_compute.
Qed.

Lemma parse_Y_pad4 (y : Z) (r : string) :
  (0 ≤ y ≤ 9999)%Z → parse_Y (pad4 y +:+ r) = Some (y, r).
Proof.
  intros Hy. unfold pad4, pad2.
  change (parse_Y (String (digit_char (y / 1000))
            (String (digit_char (y / 100))
               (String (digit_char (y / 10)) (String (digit_char y) r))))
          = Some (y, r)).
  unfold parse_Y.
  destruct (digit_char_spec (y / 1000)) as [-> ->].
  destruct (digit_char_spec (y / 100)) as [-> ->].
  destruct (digit_char_spec (y / 10)) as [-> ->].
  destruct (digit_char_spec y) as [-> ->]. cbn [andb].
  do 2 f_equal. Z.div_mod_to_equations. lia.
Qed.

Lemma parse_m_pad2 (m : Z) (r : string) :
  (1 ≤ m ≤ 12)%Z → parse_m (pad2 m +:+ r) = Some (m, r).
Proof.
  intros Hm.
  assert (m = 1 ∨ m = 2 ∨ m = 3 ∨ m = 4 ∨ m = 5 ∨ m = 6 ∨ m = 7 ∨ m = 8 ∨ m = 9
          ∨ m = 10 ∨ m = 11 ∨ m = 12)%Z as Hcases by lia.
  destruct Hcases as [->|[->|[->|[->|[->|[->|[->|[->|[->|[->|[->| ->]]]]]]]]]]];
    reflexivity.
Qed.

Lemma parse_d_pad2 (d : Z) : (1 ≤ d ≤ 31)%Z → parse_d (pad2 d) = Some (d, "").
Proof.
  intros Hd.
  assert (∃ k : nat, (k < 31)%nat ∧ d = (1 + Z.of_nat k)%Z) as (k & Hk & ->).
  { exists (Z.to_nat (d - 1)). lia. }
  do 31 (destruct k as [|k]; [reflexivity |]). lia.
Qed.

Lemma days_in_month_le (y m : Z) : (28 ≤ days_in_month y m ≤ 31)%Z.
Proof.
  unfold days_in_month.
  destruct (m =? 2)%Z; [destruct (is_leap y); lia |].
  destruct (_ || _); lia.
Qed.

Lemma valid_bounds (y m d : Z) :
  valid y m d = true →
  (1 ≤ y ≤ 9999 ∧ 1 ≤ m ≤ 12 ∧ 1 ≤ d ≤ days_in_month y m)%Z.
Proof. unfold valid. intros H. repeat (apply andb_prop in H as [H ?]). lia. Qed.

(** The calendar day a [strptime] result stands for exists. *)
Lemma strptime_valid (s : string) (d : datetime) :
  strptime s = Some d → valid (year d) (month d) (day d) = true.
Proof.
  unfold strptime. intros H.
  repeat match type of H with
         | match ?x with _ => _ end = _ => destruct x eqn:?; try discriminate
         | (let (_, _) := ?x in _) = _ => destruct x eqn:?
         | (if ?x then _ else _) = _ => destruct x eqn:?; try discriminate
         end.
  by injection H as <-.
Qed.

(** X14. Writing a date with [strftime('%Y-%m-%d')] and reading it back with
    [strptime(..., '%Y-%m-%d')] gives the date again, for every calendar day
    of the years 1000 to 9999 (below 1000 the platform decides whether the
    year is padded to four digits, which [strptime] needs). *)
Theorem strptime_strftime (d : datetime) :
  valid (year d) (month d) (day d) = true → (1000 ≤ year d)%Z →
  strptime (strftime d) = Some d.
Proof.
  intros Hv _. destruct d as [y m dd]. simpl in Hv.
  pose proof (valid_bounds _ _ _ Hv) as (Hy & Hm & Hd).
  pose proof (days_in_month_le y m).
  unfold strptime, strftime. cbn [year month day].
  rewrite parse_Y_pad4 by lia.
  change (expect "-" ("-" +:+ pad2 m +:+ "-" +:+ pad2 dd))
    with (Some (pad2 m +:+ "-" +:+ pad2 dd)).
  cbv iota beta. rewrite parse_m_pad2 by lia.
  change (expect "-" ("-" +:+ pad2 dd)) with (Some (pad2 dd)).
  cbv iota beta. rewrite parse_d_pad2 by lia. by rewrite Hv.
Qed.

(** *** The order of dates *)

Lemma ltb_irrefl (a : datetime) : ltb a a = false.
Proof. unfold ltb. rewrite !Z.ltb_irrefl, !Z.eqb_refl. done. Qed.

Lemma ltb_lt (a b : datetime) :
  ltb a b = true
  ↔ (year a < year b
     ∨ (year a = year b
        ∧ (month a < month b ∨ (month a = month b ∧ day a < day b))))%Z.
Proof.
  unfold ltb.
  rewrite orb_true_iff, andb_true_iff, orb_true_iff, andb_true_iff.
  rewrite !Z.ltb_lt, !Z.eqb_eq. done.
Qed.

Lemma ltb_trans (a b c : datetime) : ltb a b = true → ltb b c = true → ltb a c = true.
Proof. rewrite !ltb_lt. lia. Qed.

Lemma ltb_asym (a b : datetime) : ltb a b = true → ltb b a = false.
Proof. intros H. apply not_true_iff_false. revert H. rewrite !ltb_lt. lia. Qed.

Lemma ltb_total (a b : datetime) : ltb a b = false → a ≠ b → ltb b a = true.
Proof.
  intros H Hne. apply not_true_iff_false in H. revert H. rewrite !ltb_lt.
  intros H. destruct a as [y1 m1 d1], b as [y2 m2 d2]. simpl in *.
  assert (¬ (y1 = y2 ∧ m1 = m2 ∧ d1 = d2)) by (intros (-> & -> & ->); done). lia.
Qed.

(** *** Ordinals *)

Lemma days_before_year_succ (y : Z) :
  days_before_year (y + 1)
  = (days_before_year y + 365 + (if is_leap y then 1 else 0))%Z.
Proof.
  unfold days_before_year, is_leap. cbv zeta.
  replace (y + 1 - 1)%Z with y by lia.
  destruct (Z.eqb_spec (y mod 4) 0), (Z.eqb_spec (y mod 100) 0),
    (Z.eqb_spec (y mod 400) 0); simpl; Z.div_mod_to_equations; lia.
Qed.

Lemma days_before_year_mono (y1 y2 : Z) :
  (y1 ≤ y2)%Z → (days_before_year y1 ≤ days_before_year y2)%Z.
Proof. unfold days_before_year. cbv zeta. intros H. Z.div_mod_to_equations. lia. Qed.

Ltac month_cases m H :=
  assert (m = 1 ∨ m = 2 ∨ m = 3 ∨ m = 4 ∨ m = 5 ∨ m = 6 ∨ m = 7 ∨ m = 8 ∨ m = 9
          ∨ m = 10 ∨ m = 11 ∨ m = 12)%Z as H by lia;
  destruct H as [->|[->|[->|[->|[->|[->|[->|[->|[->|[->|[->| ->]]]]]]]]]]].

(** A day of the year lies within the year. *)
Lemma day_of_year_bounds (y m d : Z) :
  (1 ≤ m ≤ 12)%Z → (1 ≤ d ≤ days_in_month y m)%Z →
  (1 ≤ days_before_month y m + d ≤ 365 + (if is_leap y then 1 else 0))%Z.
Proof.
  intros Hm. unfold days_before_month, days_in_month.
  destruct (is_leap y); month_cases m H; simpl; lia.
Qed.

(** Within one year, a later month starts after the earlier month has ended. *)
Lemma day_of_year_mono (y m1 m2 : Z) :
  (1 ≤ m1)%Z → (m1 < m2)%Z → (m2 ≤ 12)%Z →
  (days_before_month y m1 + days_in_month y m1 ≤ days_before_month y m2)%Z.
Proof.
  intros H1 H12 H2. unfold days_before_month, days_in_month.
  destruct (is_leap y); month_cases m1 Hm1; month_cases m2 Hm2; simpl; lia.
Qed.

Lemma toordinal_lt (a b : datetime) :
  valid (year a) (month a) (day a) = true →
  valid (year b) (month b) (day b) = true →
  ltb a b = true → (toordinal a < toordinal b)%Z.
Proof.
  intros Ha Hb Hlt. apply valid_bounds in Ha as (Hya & Hma & Hda).
  apply valid_bounds in Hb as (Hyb & Hmb & Hdb). apply ltb_lt in Hlt.
  destruct a as [y1 m1 d1], b as [y2 m2 d2]. unfold toordinal. simpl in *.
  pose proof (day_of_year_bounds y1 m1 d1 Hma Hda).
  pose proof (day_of_year_bounds y2 m2 d2 Hmb Hdb).
  destruct Hlt as [Hy|[-> [Hm|[-> Hd]]]].
  - pose proof (days_before_year_succ y1).
    pose proof (days_before_year_mono (y1 + 1) y2). lia.
  - pose proof (day_of_year_mono y2 m1 m2). lia.
  - lia.
Qed.

Lemma toordinal_inj (a b : datetime) :
  valid (year a) (month a) (day a) = true →
  valid (year b) (month b) (day b) = true →
  toordinal a = toordinal b → a = b.
Proof.
  intros Ha Hb Heq. destruct (decide (a = b)) as [|Hne]; [done |]. exfalso.
  destruct (ltb a b) eqn:Hab.
  - pose proof (toordinal_lt a b Ha Hb Hab). lia.
  - pose proof (toordinal_lt b a Hb Ha (ltb_total a b Hab Hne)). lia.
Qed.
End DateFacts.

(** X14 for the sample date. *)
Lemma strptime_strftime_witness :
  Datetime.strptime (Datetime.strftime Sample.date) = Some Sample.date.
Proof. apply strptime_strftime; [reflexivity | done]. Defined.

(** ** Date maps and date lists *)

Section DateLists.
Import Datetime.

Lemma dict_keys_get {V} (k : datetime) (m : list (datetime * V)) :
  k ∈ dict_keys m → is_Some (dict_get k m).
Proof.
  induction m as [|[k' v] m IH]; simpl; [by intros ?%elem_of_nil |].
  intros Hin. case_decide; [by eexists |].
  apply elem_of_cons in Hin as [?|?]; [done | auto].
Qed.

Lemma parsed_date_valid (path : string) (d : datetime) :
  parsed_date path = Some d → valid (year d) (month d) (day d) = true.
Proof.
  unfold parsed_date. destruct (Py.re_search _ _); [|done]. apply strptime_valid.
Qed.

(** X15. On a date map built by [get_image_date_map], a target date that
    is itself in the map gets its own image from [find_nearest_image]: no
    other date is at distance zero, because two different calendar days never
    have the same ordinal. *)
Theorem nearest_image_of_a_mapped_date_is_its_own
    (glob : string → list string) (folder_path : string)
    (target_date : datetime) (path : string) :
  let source_map := synchronize_ndvi_to_lst.get_image_date_map glob folder_path in
  dict_get target_date source_map = Some path →
  synchronize_ndvi_to_lst.find_nearest_image target_date source_map = Some path.
Proof.
  cbv zeta. intros Hget.
  assert (∀ d, d ∈ dict_keys (synchronize_ndvi_to_lst.get_image_date_map glob folder_path) →
               valid (year d) (month d) (day d) = true) as Hvalid.
  { intros d [p Hp]%dict_keys_get.
    by eapply parsed_date_valid, date_map_get_parsed. }
  assert (target_date
          ∈ dict_keys (synchronize_ndvi_to_lst.get_image_date_map glob folder_path))
    as Hin.
  { apply dict_get_elem_of in Hget. unfold dict_keys.
    apply list_elem_of_fmap. by exists (target_date, path). }
  revert Hget Hvalid Hin.
  generalize (synchronize_ndvi_to_lst.get_image_date_map glob folder_path).
  intros [|[d0 p0] rest] Hget Hvalid Hin; [done |].
  unfold synchronize_ndvi_to_lst.find_nearest_image. cbn [dict_keys map fst py_min].
  set (f := λ date, abs_diff date target_date).
  destruct (py_min_from_least f d0 (map fst rest)) as [Hbest Hall].
  set (best := py_min_from f d0 (map fst rest)) in *.
  change (d0 :: map fst rest) with (dict_keys ((d0, p0) :: rest)) in Hbest, Hall.
  assert (best = target_date) as ->; [|done].
  apply toordinal_inj; [by apply Hvalid | by apply Hvalid |].
  rewrite Forall_forall in Hall. specialize (Hall target_date Hin).
  unfold f, abs_diff in Hall. lia.
Qed.

(** *** The order the dates are visited in *)

Lemma insert_sorted_perm (x : datetime * string) (l : list (datetime * string)) :
  synchronize_ndvi_to_lst.insert_sorted x l ≡ₚ x :: l.
Proof.
  induction l as [|y r IH]; simpl; [done |].
  destruct (synchronize_ndvi_to_lst.item_ltb x y); [done |].
  rewrite IH. apply Permutation_swap.
Qed.

Lemma sorted_items_perm (d : list (datetime * string)) :
  synchronize_ndvi_to_lst.sorted_items d ≡ₚ d.
Proof.
  induction d as [|x d IH]; simpl; [done |].
  rewrite insert_sorted_perm. by rewrite IH.
Qed.

Lemma insert_sorted_sorted (x : datetime * string) (l : list (datetime * string)) :
  x.1 ∉ dict_keys l →
  StronglySorted (λ a b, ltb a.1 b.1 = true) l →
  StronglySorted (λ a b, ltb a.1 b.1 = true)
                 (synchronize_ndvi_to_lst.insert_sorted x l).
Proof.
  intros Hx Hs. induction Hs as [|y r Hr IH Hy]; simpl.
  { repeat constructor. }
  apply not_elem_of_cons in Hx as [Hne Hx].
  unfold synchronize_ndvi_to_lst.item_ltb.
  rewrite (bool_decide_false (x.1 = y.1)) by done. rewrite andb_false_l, orb_false_r.
  destruct (ltb x.1 y.1) eqn:Hlt.
  - constructor; [by constructor |]. constructor; [done |].
    eapply Forall_impl; [exact Hy |]. intros z Hz. by eapply ltb_trans.
  - constructor; [by apply IH |].
    rewrite insert_sorted_perm. constructor; [by apply ltb_total | done].
Qed.

(** X16. [main] of synchronize_ndvi_to_lst.py visits the LST dates in
    strictly increasing order, each date once: [sorted(lst_date_map.items())]
    on a date map built by [get_image_date_map] is a rearrangement of the
    map's entries in which every entry's date is earlier than the dates of
    all entries after it. *)
Theorem sync_visits_dates_in_increasing_order
    (glob : string → list string) (folder_path : string) :
  let date_map := synchronize_ndvi_to_lst.get_image_date_map glob folder_path in
  synchronize_ndvi_to_lst.sorted_items date_map ≡ₚ date_map
  ∧ StronglySorted (λ a b, ltb a.1 b.1 = true)
                   (synchronize_ndvi_to_lst.sorted_items date_map).
Proof.
  cbv zeta. split; [apply sorted_items_perm |].
  assert (NoDup (dict_keys (synchronize_ndvi_to_lst.get_image_date_map glob folder_path)))
    as Hnd.
  { unfold synchronize_ndvi_to_lst.get_image_date_map.
    apply fold_date_map. constructor. }
  revert Hnd. generalize (synchronize_ndvi_to_lst.get_image_date_map glob folder_path).
  intros m. induction m as [|x m IH]; simpl; intros Hnd; [constructor |].
  apply NoDup_cons in Hnd as [Hx Hnd].
  apply insert_sorted_sorted; [|by apply IH].
  intros Hin. apply Hx. revert Hin. unfold dict_keys.
  rewrite !list_elem_of_fmap. intros (y & Hy1 & Hy2). exists y. split; [done |].
  by rewrite <- (sorted_items_perm m).
Qed.

(** *** The date lists of the retrievers *)

Lemma insert_date_spec (d : datetime) (l : list datetime) :
  StronglySorted (λ a b, ltb a b = true) l →
  StronglySorted (λ a b, ltb a b = true) (gldas21_retriever.insert_date d l)
  ∧ ∀ x, x ∈ gldas21_retriever.insert_date d l ↔ x = d ∨ x ∈ l.
Proof.
  intros Hs. induction Hs as [|y r Hr IH Hy]; simpl.
  { split; [repeat constructor |]. intros x. rewrite list_elem_of_singleton.
    split; [by left | intros [?|?%elem_of_nil]; done]. }
  destruct IH as [IHs IHin]. case_bool_decide as Hdy.
  { subst y. split; [by constructor |]. intros x. rewrite elem_of_cons. tauto. }
  destruct (ltb d y) eqn:Hlt.
  - split.
    + constructor; [by constructor |]. constructor; [done |].
      eapply Forall_impl; [exact Hy |]. intros z Hz. by eapply ltb_trans.
    + intros x. rewrite !elem_of_cons. tauto.
  - split.
    + constructor; [done |]. rewrite Forall_forall. intros z Hz.
      apply IHin in Hz as [->|Hz]; [by apply ltb_total |].
      rewrite Forall_forall in Hy. by apply Hy.
    + intros x. rewrite !elem_of_cons, IHin. tauto.
Qed.

Lemma era5_insert_date (d : datetime) (l : list datetime) :
  era5_retriever.insert_date d l = gldas21_retriever.insert_date d l.
Proof. induction l as [|x r IH]; simpl; [done | by rewrite IH]. Qed.

(** The date a retriever reads off a file name: what follows the last
    underscore of the base name, without [.tif]. *)
Lemma gldas_dates_fold (tifs : list string) (acc : list datetime) :
  StronglySorted (λ a b, ltb a b = true) acc →
  let step := λ dates tif,
    match strptime (Py.replace ".tif" "" (Py.split_last "_" (Py.basename tif))) with
    | Some date => gldas21_retriever.insert_date date dates
    | None => dates
    end in
  StronglySorted (λ a b, ltb a b = true) (fold_left step tifs acc)
  ∧ ∀ d, d ∈ fold_left step tifs acc
         ↔ d ∈ acc
           ∨ ∃ tif, tif ∈ tifs
                    ∧ strptime (Py.replace ".tif" ""
                                  (Py.split_last "_" (Py.basename tif))) = Some d.
Proof.
  cbv zeta. revert acc. induction tifs as [|tif rest IH]; intros acc Hs; simpl.
  { split; [done |]. intros d. split; [by left |].
    intros [?|(tif & ?%elem_of_nil & _)]; done. }
  destruct (strptime (Py.replace ".tif" "" (Py.split_last "_" (Py.basename tif))))
    as [date|] eqn:Hdate.
  - destruct (insert_date_spec date acc Hs) as [Hs' Hin'].
    destruct (IH _ Hs') as [IHs IHin]. split; [done |].
    intros d. rewrite IHin, Hin'. split.
    + intros [[->|?]|(t & Ht & Hd)]; [right; exists tif; split; [left | done]
                                     | by left
                                     | right; exists t; split; [by right | done]].
    + intros [?|(t & Ht & Hd)]; [left; by right |].
      apply elem_of_cons in Ht as [->|Ht].
      * left. left. congruence.
      * right. by exists t.
  - destruct (IH _ Hs) as [IHs IHin]. split; [done |].
    intros d. rewrite IHin. split.
    + intros [?|(t & Ht & Hd)]; [by left | right; exists t; split; [by right | done]].
    + intros [?|(t & Ht & Hd)]; [by left |].
      apply elem_of_cons in Ht as [->|Ht]; [congruence |]. right. by exists t.
Qed.

Lemma era5_collect_dates_run (tifs : list string) :
  ∀ (acc : list datetime) (w : world),
    ∃ w', era5_retriever.collect_dates tifs acc w
          = (Ok (fold_left
                   (λ dates tif,
                      match strptime (Py.replace ".tif" ""
                                        (Py.split_last "_" (Py.basename tif))) with
                      | Some date => gldas21_retriever.insert_date date dates
                      | None => dates
                      end) tifs acc), w')
          ∧ fs w' = fs w ∧ net w' = net w.
Proof.
  induction tifs as [|tif rest IH]; intros acc w; simpl.
  { by exists w. }
  destruct (strptime _) as [date|].
  - rewrite era5_insert_date. apply IH.
  - erewrite bind_ok by reflexivity.
    match goal with |- context [era5_retriever.collect_dates rest acc ?W] =>
      destruct (IH acc W) as (w' & -> & Hfs & Hnet) end.
    by exists w'.
Qed.

(** X17. The date lists of the two retrievers. [get_dates_from_folder] of
    gldas21_retriever.py returns the dates of the listed files in strictly
    increasing order (so none twice), and a date is in the list exactly when
    some listed file name ends, after its last underscore, in that date and
    [.tif]; names that do not parse are left out. [get_dates_from_filenames]
    of era5_retriever.py returns the same list for the same listing, and
    changes no file and makes no request. *)
Theorem retriever_dates_sorted_and_exact
    (glob : string → list string) (folder_path : string) :
  let dates := gldas21_retriever.get_dates_from_folder glob folder_path in
  StronglySorted (λ a b, ltb a b = true) dates
  ∧ (∀ d, d ∈ dates
          ↔ ∃ tif, tif ∈ glob (Py.path_join folder_path "*.tif")
                   ∧ strptime (Py.replace ".tif" ""
                                 (Py.split_last "_" (Py.basename tif))) = Some d)
  ∧ ∀ w, ∃ w', era5_retriever.get_dates_from_filenames (λ _, glob) folder_path w
               = (Ok dates, w')
               ∧ fs w' = fs w ∧ net w' = net w.
Proof.
  cbv zeta. unfold gldas21_retriever.get_dates_from_folder.
  destruct (gldas_dates_fold (glob (Py.path_join folder_path "*.tif")) [])
    as [Hs Hin]; [constructor |].
  split_and!; [exact Hs | |].
  - intros d. rewrite Hin. split; [intros [?%elem_of_nil|?]; done | by right].
  - intros w. unfold era5_retriever.get_dates_from_filenames.
    erewrite bind_ok by reflexivity. apply era5_collect_dates_run.
Qed.
End DateLists.

(** X15 at a folder with images of two consecutive days. *)
Lemma nearest_image_of_a_mapped_date_is_its_own_witness :
  synchronize_ndvi_to_lst.find_nearest_image Sample.date
    (synchronize_ndvi_to_lst.get_image_date_map
       (λ _, ["ndvi/ndvi8days_2022-01-14.tif"; "ndvi/ndvi8days_2022-01-15.tif"]) "ndvi")
  = Some "ndvi/ndvi8days_2022-01-15.tif".
Proof.
  apply (nearest_image_of_a_mapped_date_is_its_own
           (λ _, ["ndvi/ndvi8days_2022-01-14.tif"; "ndvi/ndvi8days_2022-01-15.tif"])
           "ndvi" Sample.date "ndvi/ndvi8days_2022-01-15.tif").
  reflexivity.
Defined.

(** ** The order of the merged bands *)

Section BandOrder.
Import era5_retriever.

Lemma order_tifs_length (bands tif_files : list string) :
  (List.length (order_tifs bands tif_files) ≤ List.length bands)%nat.
Proof.
  induction bands as [|b rest IH]; simpl; [done |].
  rewrite length_app. fold (order_tifs rest tif_files).
  destruct (first_match b tif_files) as [[|c t]|]; simpl; lia.
Qed.

(** X18. The file order of the exports. When the matching loop of
    [export_ee_image] finds a file for every requested band (the case in
    which its result is used instead of the package order), the i-th file it
    returns is the first extracted file whose base name contains the i-th
    band name; so the bands of the merged raster follow the requested
    order. *)
Theorem order_tifs_follows_bands (bands tif_files : list string) :
  List.length (order_tifs bands tif_files) = List.length bands →
  Forall2 (λ b t, first_match b tif_files = Some t
                  ∧ t ∈ tif_files ∧ Py.contains b (Py.basename t) = true)
          bands (order_tifs bands tif_files).
Proof.
  induction bands as [|b rest IH]; simpl; [constructor |].
  fold (order_tifs rest tif_files).
  pose proof (order_tifs_length rest tif_files) as Hle.
  destruct (first_match b tif_files) as [[|c t]|] eqn:Hfirst; simpl;
    intros Hlen; try lia.
  constructor; [|apply IH; lia].
  split; [done |]. unfold first_match in Hfirst.
  apply List.find_some in Hfirst as [Hin Hc]. split; [|done].
  by apply list_elem_of_In.
Qed.
End BandOrder.

(** X18 on the sample package, whose members come in the other order. *)
Lemma order_tifs_follows_bands_witness :
  Forall2 (λ b t, era5_retriever.first_match b
                    ["img.skin_temperature.tif"; "img.temperature_2m.tif"] = Some t
                  ∧ t ∈ ["img.skin_temperature.tif"; "img.temperature_2m.tif"]
                  ∧ Py.contains b (Py.basename t) = true)
          ["temperature_2m"; "skin_temperature"]
          (era5_retriever.order_tifs ["temperature_2m"; "skin_temperature"]
             ["img.skin_temperature.tif"; "img.temperature_2m.tif"]).
Proof.
  apply (order_tifs_follows_bands ["temperature_2m"; "skin_temperature"]
           ["img.skin_temperature.tif"; "img.temperature_2m.tif"]).
  reflexivity.
Defined.

(** ** Composites that are not downloaded *)

Section NdviSkips.
Import ndvi_retrieval.

(** X19. A composite whose output file exists is not downloaded, whatever
    the file holds: with the four metadata queries answered (placeholder
    time, NDVI band present, a start time other than the placeholder's, the
    date) and any file at the final path, [download_ndvi]'s loop body ends
    normally after those four requests; no download URL or package is
    requested and no file is changed. *)
Theorem ndvi_existing_file_is_not_downloaded
    (out_folder ndvi_name date_str : string) (i : nat) (exclude t : Z) (w : world) :
  remote w (net w) = Number exclude →
  remote w (1 + net w)%nat = Flag true →
  remote w (2 + net w)%nat = Number t → t ≠ exclude →
  remote w (3 + net w)%nat = Text date_str →
  is_Some (fs w !! Py.path_join out_folder (ndvi_name +:+ date_str +:+ ".tif")) →
  let run := download_image out_folder ndvi_name i w in
  run.1 = Ok tt ∧ fs run.2 = fs w ∧ net run.2 = (4 + net w)%nat.
Proof.
  intros H0 H1 H2 Hne H3 Hfile. cbv zeta. unfold download_image.
  rewrite (bind_ok _ _ _ _ _ (getInfo_number_run w exclude H0)).
  rewrite (bind_ok _ _ _ _ _ (getInfo_flag_run (bump w) true H1)). cbv iota.
  erewrite bind_ok.
  2:{ erewrite bind_ok by (by apply getInfo_number_run). reflexivity. }
  rewrite (proj2 (Z.eqb_neq t exclude)) by done. cbv iota.
  rewrite (bind_ok _ _ _ _ _ (getInfo_text_run (bump (bump (bump w))) date_str H3)).
  rewrite (bind_ok _ _ _ _ _ (path_exists_run _ _)).
  rewrite bool_decide_true by done. done.
Qed.
End NdviSkips.

(** X19 with a file at the final path that is no raster. *)
Lemma ndvi_existing_file_is_not_downloaded_witness :
  net (ndvi_retrieval.download_image "ndvi" "ndvi8days_" 0
         (Sample.world_of {["ndvi/ndvi8days_2022-01-15.tif" := OtherBytes]}
                          Sample.ndvi_answers None)).2 = 4%nat.
Proof.
  destruct (ndvi_existing_file_is_not_downloaded "ndvi" "ndvi8days_" "2022-01-15" 0
              (-2208988800000) 1642204800000
              (Sample.world_of {["ndvi/ndvi8days_2022-01-15.tif" := OtherBytes]}
                               Sample.ndvi_answers None))
    as (_ & _ & Hnet);
    [reflexivity | reflexivity | reflexivity | done | reflexivity | by eexists |].
  exact Hnet.
Defined.

(** ** File names and the dates they carry *)

Section NameFacts.

Lemma match_here_split (pat : list (ascii → bool)) :
  ∀ s, Py.match_here pat s = true →
    ∃ g rest, s = g +:+ rest ∧ String.length g = List.length pat
              ∧ Py.match_here pat g = true
              ∧ String.substring 0 (List.length pat) s = g.
Proof.
  induction pat as [|p pat IH]; intros s H.
  { exists "", s. split_and!; try done. by destruct s. }
  destruct s as [|c s]; [done |]. simpl in H. apply andb_prop in H as [Hp H].
  destruct (IH s H) as (g & rest & -> & Hlen & Hg & Hsub).
  exists (String c g), rest. split_and!; [done | by simpl; rewrite Hlen | |].
  - simpl. by rewrite Hp, Hg.
  - simpl. by rewrite Hsub.
Qed.

Lemma match_here_app (pat : list (ascii → bool)) :
  ∀ g t, Py.match_here pat g = true → Py.match_here pat (g +:+ t) = true.
Proof.
  induction pat as [|p pat IH]; intros g t H; [done |].
  destruct g as [|c g]; [done |]. simpl in H. apply andb_prop in H as [Hp H].
  change (Py.match_here (p :: pat) (String c (g +:+ t)) = true). simpl.
  by rewrite Hp, IH.
Qed.

(** Only the first characters count, as many as the pattern has classes. *)
Lemma match_here_app_long (q : list (ascii → bool)) :
  ∀ g t, (List.length q ≤ String.length g)%nat →
         Py.match_here q (g +:+ t) = Py.match_here q g.
Proof.
  induction q as [|p q IH]; intros g t Hlen; [done |].
  destruct g as [|c g]; [simpl in Hlen; lia |].
  change (Py.match_here (p :: q) (String c (g +:+ t))
          = Py.match_here (p :: q) (String c g)).
  simpl. rewrite IH; [done | simpl in Hlen; lia].
Qed.

Lemma substring_app (g t : string) : String.substring 0 (String.length g) (g +:+ t) = g.
Proof.
  induction g as [|c g IH]; [by destruct t |].
  change (String.substring 0 (S (String.length g)) (String c (g +:+ t)) = String c g).
  simpl. by rewrite IH.
Qed.

Lemma prefix_split (g s : string) : String.prefix g s = true → ∃ t, s = g +:+ t.
Proof.
  revert s. induction g as [|c g IH]; intros s H; [by exists s |].
  destruct s as [|x s]; [done |]. simpl in H.
  destruct (ascii_dec c x) as [->|]; [|done].
  destruct (IH s H) as [t ->]. by exists t.
Qed.

(** What [re.search] returns is where it first matched. *)
Lemma re_search_cases (pat : list (ascii → bool)) (s g : string) :
  Py.re_search pat s = Some g →
  (Py.match_here pat s = true ∧ g = String.substring 0 (List.length pat) s)
  ∨ (Py.match_here pat s = false
     ∧ ∃ c r, s = String c r ∧ Py.re_search pat r = Some g).
Proof.
  destruct s as [|c r]; simpl; destruct (Py.match_here pat _) eqn:Hm;
    intros H; simplify_eq; eauto 6.
Qed.


Lemma re_search_hit (pat : list (ascii → bool)) (s : string) :
  Py.match_here pat s = true →
  Py.re_search pat s = Some (String.substring 0 (List.length pat) s).
Proof. intros H. destruct s; simpl; by rewrite H. Qed.

Lemma re_search_miss (pat : list (ascii → bool)) (c : ascii) (r : string) :
  Py.match_here pat (String c r) = false →
  Py.re_search pat (String c r) = Py.re_search pat r.
Proof. intros H. simpl Py.re_search. by rewrite H. Qed.

(** The text a search returns matches the pattern and is as long as it. *)
Lemma re_search_match (pat : list (ascii → bool)) (s g : string) :
  Py.re_search pat s = Some g →
  Py.match_here pat g = true ∧ String.length g = List.length pat.
Proof.
  induction s as [|c r IH]; intros H;
    apply re_search_cases in H as [[Hm ->]|(Hm & c' & r' & Heq & Hr)];
    try (destruct (match_here_split pat _ Hm) as (g & rest & _ & Hlen & Hg & ->);
         by split);
    simplify_eq. by apply IH.
Qed.

Lemma replace_aux_hit (old new : string) (c : ascii) (r : string) :
  String.prefix old (String c r) = true →
  Py.replace_aux old new 0 (String c r)
  = new +:+ Py.replace_aux old new (String.length old - 1) r.
Proof. intros H. cbn [Py.replace_aux]. by rewrite H. Qed.

Lemma replace_aux_miss (old new : string) (c : ascii) (r : string) :
  String.prefix old (String c r) = false →
  Py.replace_aux old new 0 (String c r) = String c (Py.replace_aux old new 0 r).
Proof. intros H. cbn [Py.replace_aux]. by rewrite H. Qed.

(** *** Character classes *)

Lemma digit_not_dash (a : ascii) : Py.is_digit a = true → Py.is_char "-" a = false.
Proof.
  intros H. unfold Py.is_char. destruct (Ascii.eqb_spec "-" a) as [<-|]; [|done].
  by vm_compute in H.
Qed.

Lemma digit_not_slash (a : ascii) : Py.is_digit a = true → Py.is_char "/" a = false.
Proof.
  intros H. unfold Py.is_char. destruct (Ascii.eqb_spec "/" a) as [<-|]; [|done].
  by vm_compute in H.
Qed.

Lemma date_pattern_respects :
  Forall (λ p : ascii → bool, ∀ a b, same_class a b → p a = p b) Py.date_pattern.
Proof.
  unfold Py.date_pattern.
  repeat (apply Forall_cons; split; [by intros a b [? ?] |]).
  by apply Forall_nil.
Qed.

Lemma date_pattern_determines :
  Forall (λ p : ascii → bool, ∀ a b, p a = true → p b = true → same_class a b)
         Py.date_pattern.
Proof.
  assert (∀ a b, Py.is_digit a = true → Py.is_digit b = true → same_class a b) as Hd.
  { intros a b Ha Hb. split; [congruence |]. by rewrite !digit_not_dash. }
  assert (∀ a b, Py.is_char "-" a = true → Py.is_char "-" b = true → same_class a b)
    as Hc.
  { intros a b Ha Hb. unfold Py.is_char in *.
    apply Ascii.eqb_eq in Ha, Hb. by subst. }
  unfold Py.date_pattern.
  repeat (apply Forall_cons; split; [first [exact Hd | exact Hc] |]).
  by apply Forall_nil.
Qed.

Lemma match_here_same_shape (q : list (ascii → bool)) :
  Forall (λ p : ascii → bool, ∀ a b, same_class a b → p a = p b) q →
  ∀ s t, same_shape s t → Py.match_here q s = Py.match_here q t.
Proof.
  induction 1 as [|p q Hp Hq IH]; intros s t Hst; [done |].
  destruct s as [|a s], t as [|b t]; try done. simpl in *.
  destruct Hst as [Hab Hst]. by rewrite (Hp a b Hab), (IH s t Hst).
Qed.

Lemma match_same_shape (pat : list (ascii → bool)) :
  Forall (λ p : ascii → bool, ∀ a b, p a = true → p b = true → same_class a b) pat →
  ∀ s t, Py.match_here pat s = true → Py.match_here pat t = true →
         String.length s = List.length pat → String.length t = List.length pat →
         same_shape s t.
Proof.
  induction 1 as [|p pat Hp Hpat IH]; intros s t Hs Ht Hls Hlt.
  { by destruct s, t. }
  destruct s as [|a s], t as [|b t]; try done. simpl in *.
  apply andb_prop in Hs as [Ha Hs]. apply andb_prop in Ht as [Hb Ht].
  split; [by apply Hp |]. apply IH; [done | done | lia | lia].
Qed.

(** *** Replacing the date of a name *)

Section ReplaceDate.
Variable pat : list (ascii → bool).
Hypothesis pat_respects :
  Forall (λ p : ascii → bool, ∀ a b, same_class a b → p a = p b) pat.
Hypothesis pat_determines :
  Forall (λ p : ascii → bool, ∀ a b, p a = true → p b = true → same_class a b) pat.
Hypothesis pat_not_empty : pat ≠ [].
Variables (g nd : string).
Hypothesis g_match : Py.match_here pat g = true.
Hypothesis g_length : String.length g = List.length pat.
Hypothesis nd_match : Py.match_here pat nd = true.
Hypothesis nd_length : String.length nd = List.length pat.

Lemma no_early_prefix (c : ascii) (r : string) :
  Py.match_here pat (String c r) = false → String.prefix g (String c r) = false.
Proof.
  intros Hm. destruct (String.prefix g (String c r)) eqn:Hpre; [|done].
  apply prefix_split in Hpre as [t Ht]. rewrite Ht in Hm.
  by rewrite match_here_app in Hm.
Qed.

(** Up to the end of the first match, the new name has the classes of the
    old one: no shorter pattern sees a difference. *)
Lemma replace_keeps_matches (r : string) :
  Py.re_search pat r = Some g →
  ∀ q, Forall (λ p : ascii → bool, ∀ a b, same_class a b → p a = p b) q →
       (List.length q ≤ List.length pat)%nat →
       Py.match_here q (Py.replace g nd r) = Py.match_here q r.
Proof.
  unfold Py.replace.
  induction r as [|c r IH]; intros Hr q Hq Hlen;
    apply re_search_cases in Hr as [[Hm Hg]|(Hm & c' & r' & Heq & Hr)].
  - destruct pat; [done | done].
  - done.
  - destruct (match_here_split pat _ Hm) as (g' & rest & Heq & _ & _ & Hsub).
    assert (g' = g) as -> by congruence.
    rewrite replace_aux_hit by (rewrite Heq; apply prefix_app).
    rewrite Heq. rewrite !match_here_app_long by lia.
    apply match_here_same_shape; [done |].
    by apply (match_same_shape pat).
  - injection Heq as <- <-.
    rewrite replace_aux_miss by (by apply no_early_prefix).
    destruct q as [|p q]; [done |]. simpl.
    apply Forall_cons in Hq as [_ Hq]. rewrite IH; [done | done | done |].
    simpl in Hlen. lia.
Qed.

(** The first date-shaped token of the new name is the new date. *)
Lemma re_search_replace (name : string) :
  Py.re_search pat name = Some g →
  Py.re_search pat (Py.replace g nd name) = Some nd.
Proof.
  induction name as [|c r IH]; intros Hr;
    pose proof Hr as Hr0;
    apply re_search_cases in Hr as [[Hm Hg]|(Hm & c' & r' & Heq & Hr)].
  - destruct pat; [done | done].
  - done.
  - destruct (match_here_split pat _ Hm) as (g' & rest & Heq & _ & _ & Hsub).
    assert (g' = g) as -> by congruence.
    unfold Py.replace.
    rewrite replace_aux_hit by (rewrite Heq; apply prefix_app).
    rewrite re_search_hit by (by apply match_here_app).
    by rewrite <- nd_length, substring_app.
  - injection Heq as <- <-.
    unfold Py.replace. rewrite replace_aux_miss by (by apply no_early_prefix).
    fold (Py.replace g nd r).
    rewrite re_search_miss; [by apply IH |].
    rewrite <- Hm.
    pose proof (replace_keeps_matches r Hr) as Hkeep.
    destruct pat as [|p0 pat']; [done |]. simpl. f_equal.
    apply Forall_cons in pat_respects as [_ Hq].
    apply Hkeep; [done |]. simpl. lia.
Qed.
End ReplaceDate.

(** *** Base names *)

Lemma after_last_lacks_id (sep : ascii) (p : string) :
  ∀ acc, lacks sep p = true → Py.after_last sep acc p = acc.
Proof.
  induction p as [|c r IH]; intros acc H; [done |]. simpl in *.
  apply andb_prop in H as [Hc Hr]. apply negb_true_iff in Hc. rewrite Hc. by apply IH.
Qed.

Lemma after_last_acc (sep : ascii) (p : string) :
  ∀ X Y, lacks sep p = false → Py.after_last sep X p = Py.after_last sep Y p.
Proof.
  induction p as [|c r IH]; intros X Y H; [done |]. simpl in *.
  destruct (Py.is_char sep c); [done |]. by apply IH.
Qed.

Lemma after_last_lacks (sep : ascii) (p : string) :
  ∀ acc, (lacks sep p = true → lacks sep acc = true) →
         lacks sep (Py.after_last sep acc p) = true.
Proof.
  induction p as [|c r IH]; intros acc H; simpl in *; [by apply H |].
  destruct (Py.is_char sep c); [by apply IH | by apply IH].
Qed.

Lemma after_last_app (sep : ascii) (b : string) :
  lacks sep b = true →
  ∀ a acc, Py.after_last sep acc (a +:+ b)
           = if lacks sep a then acc else Py.after_last sep acc a +:+ b.
Proof.
  intros Hb. induction a as [|c a IH]; intros acc.
  { by apply after_last_lacks_id. }
  change (Py.after_last sep acc (String c (a +:+ b))
          = if lacks sep (String c a) then acc
            else Py.after_last sep acc (String c a) +:+ b).
  simpl. destruct (Py.is_char sep c); simpl; [|apply IH].
  rewrite IH. destruct (lacks sep a) eqn:Ha.
  - by rewrite after_last_lacks_id.
  - by rewrite (after_last_acc sep a (a +:+ b) a).
Qed.

Lemma ends_slash (a : string) :
  ∀ acc, a ≠ "" → String.prefix "/" (String.rev_app a acc) = true →
         lacks "/" a = false ∧ ∀ X, Py.after_last "/" X a = "".
Proof.
  induction a as [|c a IH]; intros acc Hne H; [done |].
  change (String.prefix "/" (String.rev_app a (String c acc)) = true) in H.
  destruct a as [|c' a'].
  - change (String.prefix "/" (String c acc) = true) in H.
    assert (c = "/"%char) as ->.
    { destruct (ascii_dec "/" c) as [<-|Hc]; [done |].
      by rewrite (prefix_cons_ne _ _ _ _ Hc) in H. }
    by split.
  - destruct (IH (String c acc)) as [Hl Ha]; [done | done |].
    split.
    + change (negb (Py.is_char "/" c) && lacks "/" (String c' a') = false).
      rewrite Hl. apply andb_false_r.
    + intros X. change (Py.after_last "/" X (String c (String c' a')))
        with (if Py.is_char "/" c
              then Py.after_last "/" (String c' a') (String c' a')
              else Py.after_last "/" X (String c' a')).
      destruct (Py.is_char "/" c); apply Ha.
Qed.

Lemma after_last_app_sep (sep : ascii) (b : string) :
  lacks sep b = true →
  ∀ s acc, Py.after_last sep acc (s +:+ String sep b) = b.
Proof.
  intros Hb. induction s as [|x s IHs]; intros acc.
  - change (Py.after_last sep acc (String sep b) = b). simpl.
    unfold Py.is_char. rewrite Ascii.eqb_refl. by apply after_last_lacks_id.
  - change (Py.after_last sep acc (String x (s +:+ String sep b)) = b).
    simpl. destruct (Py.is_char sep x); apply IHs.
Qed.

(** The base name of a path joined from a folder and a plain name is the
    name. *)
Lemma basename_path_join (a b : string) :
  lacks "/" b = true → Py.basename (Py.path_join a b) = b.
Proof.
  intros Hb. rewrite path_join_relative by (by apply lacks_not_absolute).
  unfold Py.basename.
  destruct a as [|c a]; [by apply after_last_lacks_id |].
  destruct (String.prefix "/" (String.rev (String c a))) eqn:Hend.
  - destruct (ends_slash (String c a) "" ltac:(done) Hend) as [Hl Ha].
    rewrite after_last_app by done. by rewrite Hl, Ha.
  - change (String c a +:+ "/" +:+ b) with (String c a +:+ String "/" b).
    by apply after_last_app_sep.
Qed.

Lemma replace_aux_lacks (c : ascii) (old new : string) :
  lacks c new = true →
  ∀ s skip, lacks c s = true → lacks c (Py.replace_aux old new skip s) = true.
Proof.
  intros Hnew. induction s as [|x s IH]; intros skip Hs; [done |].
  simpl in Hs. apply andb_prop in Hs as [Hx Hs]. cbn [Py.replace_aux].
  destruct skip as [|k]; [|by apply IH].
  destruct (String.prefix old (String x s)).
  - rewrite lacks_app, Hnew. by apply IH.
  - simpl. rewrite Hx. by apply IH.
Qed.

Lemma strftime_shape (d : datetime) :
  Py.match_here Py.date_pattern (Datetime.strftime d) = true
  ∧ String.length (Datetime.strftime d) = 10%nat
  ∧ lacks "/" (Datetime.strftime d) = true.
Proof.
  unfold Datetime.strftime, Datetime.pad4, Datetime.pad2.
  set (y := year d). set (m := month d). set (dd := day d).
  change (String (Datetime.digit_char (y / 1000))
            (String (Datetime.digit_char (y / 100))
               (String (Datetime.digit_char (y / 10))
                  (String (Datetime.digit_char y) "")))
          +:+ "-" +:+ String (Datetime.digit_char (m / 10))
                        (String (Datetime.digit_char m) "")
          +:+ "-" +:+ String (Datetime.digit_char (dd / 10))
                        (String (Datetime.digit_char dd) ""))
    with (String (Datetime.digit_char (y / 1000))
            (String (Datetime.digit_char (y / 100))
               (String (Datetime.digit_char (y / 10))
                  (String (Datetime.digit_char y)
                     (String "-"
                        (String (Datetime.digit_char (m / 10))
                           (String (Datetime.digit_char m)
                              (String "-"
                                 (String (Datetime.digit_char (dd / 10))
                                    (String (Datetime.digit_char dd) "")))))))))).
  pose proof (λ n, proj1 (digit_char_spec n)) as Hdigit.
  cbn [Py.match_here Py.date_pattern String.length lacks].
  rewrite !Hdigit.
  rewrite !(digit_not_slash (Datetime.digit_char _)) by apply Hdigit. done.
Qed.
End NameFacts.

Section SyncNames.
Import synchronize_ndvi_to_lst.
Variable glob : string → list string.

Lemma strftime_parses (d : datetime) :
  Datetime.valid (year d) (month d) (day d) = true →
  Datetime.strptime (Datetime.strftime d) = Some d.
Proof.
  intros Hv. destruct d as [y m dd]. simpl in Hv.
  pose proof (valid_bounds _ _ _ Hv) as (Hy & Hm & Hd).
  pose proof (days_in_month_le y m).
  unfold Datetime.strptime, Datetime.strftime. cbn [year month day].
  rewrite parse_Y_pad4 by lia.
  change (Datetime.expect "-" ("-" +:+ Datetime.pad2 m +:+ "-" +:+ Datetime.pad2 dd))
    with (Some (Datetime.pad2 m +:+ "-" +:+ Datetime.pad2 dd)).
  cbv iota beta. rewrite parse_m_pad2 by lia.
  change (Datetime.expect "-" ("-" +:+ Datetime.pad2 dd)) with (Some (Datetime.pad2 dd)).
  cbv iota beta. rewrite parse_d_pad2 by lia. by rewrite Hv.
Qed.

(** The name [main] gives the copy of an image, for a date: the image's base
    name with its date token replaced. *)
Lemma renamed_carries_date (output_folder path g : string) (lst_date : datetime) :
  Datetime.valid (year lst_date) (month lst_date) (day lst_date) = true →
  Py.re_search Py.date_pattern (Py.basename path) = Some g →
  parsed_date (Py.path_join output_folder
                 (Py.replace g (Datetime.strftime lst_date) (Py.basename path)))
  = Some lst_date.
Proof.
  intros Hv Hg. destruct (strftime_shape lst_date) as (Hm & Hl & Hs).
  destruct (re_search_match _ _ _ Hg) as [Hgm Hgl].
  unfold parsed_date. rewrite basename_path_join.
  - rewrite (re_search_replace Py.date_pattern date_pattern_respects
               date_pattern_determines ltac:(done) g (Datetime.strftime lst_date)
               Hgm Hgl Hm Hl _ Hg).
    by apply strftime_parses.
  - apply replace_aux_lacks; [done |]. apply after_last_lacks. done.
Qed.

(** X20. The copy that [main] of synchronize_ndvi_to_lst.py makes for an
    LST date is filed under that date. For an LST date of the years 1000 to
    9999 and the nearest image of a date map built by [get_image_date_map],
    there is an output path whose name carries the LST date as its first
    date token (so [get_image_date_map] on the output folder files it under
    the LST date), and one uninterrupted step of the loop, with the image
    present and not at that path itself, ends normally and puts the image's
    content there, leaving every other path as it was. *)
Theorem sync_copy_is_filed_under_the_lst_date
    (ndvi_folder output_folder lst_path path : string) (lst_date : datetime) :
  let ndvi_date_map := get_image_date_map glob ndvi_folder in
  Datetime.valid (year lst_date) (month lst_date) (day lst_date) = true →
  (1000 ≤ year lst_date)%Z →
  find_nearest_image lst_date ndvi_date_map = Some path →
  ∃ output_path,
    parsed_date output_path = Some lst_date
    ∧ ∀ (w : world) (x : file),
        interrupt w = None → fs w !! path = Some x → path ≠ output_path →
        let run := main_step ndvi_date_map output_folder (lst_date, lst_path) w in
        run.1 = Ok tt ∧ fs run.2 = <[output_path := x]> (fs w).
Proof.
  cbv zeta. intros Hv _ Hnear.
  destruct (find_nearest_image_get _ _ _ Hnear) as [d Hd].
  apply date_map_get_parsed in Hd. pose proof Hd as Hparsed.
  unfold parsed_date in Hd.
  destruct (Py.re_search Py.date_pattern (Py.basename path)) as [g|] eqn:Hg; [|done].
  exists (Py.path_join output_folder
            (Py.replace g (Datetime.strftime lst_date) (Py.basename path))).
  split; [by apply renamed_carries_date |].
  intros w x Hi Hx Hne. unfold main_step. cbn [fst]. rewrite Hnear.
  destruct path as [|c0 rest]; [done |]. rewrite Hg.
  erewrite bind_ok.
  2:{ unfold shutil_copy2. erewrite bind_ok by reflexivity. rewrite Hx.
      rewrite bool_decide_false by done. by apply fs_write_run. }
  done.
Qed.
End SyncNames.

(** X20 at the sample date and an image of the day before. *)
Lemma sync_copy_is_filed_under_the_lst_date_witness :
  ∃ output_path, parsed_date output_path = Some Sample.date.
Proof.
  destruct (sync_copy_is_filed_under_the_lst_date
              (λ _, ["ndvi/ndvi8days_2022-01-14.tif"]) "ndvi" "out" Sample.lst_path
              "ndvi/ndvi8days_2022-01-14.tif" Sample.date)
    as (output_path & Hdate & _); [reflexivity | done | reflexivity |].
  by exists output_path.
Defined.

(** ** What an export writes *)

Section ExportMerge.
Import era5_retriever.

Lemma dict_keys_get_some {K V} `{EqDecision K} (k : K) (m : list (K * V)) :
  k ∈ dict_keys m → is_Some (dict_get k m).
Proof.
  induction m as [|[k' v] m IH]; simpl; [by intros ?%elem_of_nil |].
  intros Hin. case_decide; [by eexists |].
  apply elem_of_cons in Hin as [?|?]; [done | auto].
Qed.

Lemma path_join_inj (dir a b : string) :
  String.prefix "/" a = false → String.prefix "/" b = false →
  Py.path_join dir a = Py.path_join dir b → a = b.
Proof.
  intros Ha Hb. rewrite !path_join_relative by done.
  destruct dir as [|c dir]; [done |].
  destruct (String.prefix "/" (String.rev (String c dir))); intros H.
  - by apply (String.app_inj (String c dir)) in H.
  - apply (String.app_inj (String c dir)) in H. by apply (String.app_inj "/") in H.
Qed.

(** The [*.tif] members of a package with flat, distinct names. *)
Lemma tif_member_flat (members : list (string * option raster)) (t : string) :
  flat_names (List.filter (λ f, Py.endswith f ".tif") (dict_keys members)) = true →
  t ∈ List.filter (λ f, Py.endswith f ".tif") (dict_keys members) →
  lacks "/" t = true ∧ String.prefix "/" t = false
  ∧ ∀ dir, zip_extract members t dir
           = fs_write (λ m, <[Py.path_join dir t := member_file members t]> m).
Proof.
  intros [Hnd Hall]%flat_names_spec Hin.
  pose proof (Hall t Hin) as Hflat.
  split_and!; [done | by apply lacks_not_absolute |]. intros dir.
  pose proof Hin as Hin'. apply list_elem_of_In, List.filter_In in Hin' as [Hk Hp].
  apply (zip_extract_member (λ f, Py.endswith f ".tif")); try done.
  - by apply tif_name_kept'.
  - apply dict_keys_get_some. by apply list_elem_of_In.
Qed.

(** Extracting the TIFF members: each lands at its path below the download
    directory, and nothing else changes. *)
Lemma extract_all_run (members : list (string * option raster)) (dir : string)
    (tifs : list string) :
  flat_names (List.filter (λ f, Py.endswith f ".tif") (dict_keys members)) = true →
  (∀ t, t ∈ tifs → t ∈ List.filter (λ f, Py.endswith f ".tif") (dict_keys members)) →
  ∀ w, interrupt w = None →
    ∃ w', for_each tifs (λ tif, zip_extract members tif dir) w = (Ok tt, w')
      ∧ interrupt w' = None ∧ trace w' = trace w
      ∧ (∀ t, t ∈ tifs → fs w' !! Py.path_join dir t = Some (member_file members t))
      ∧ (∀ p, (∀ t, t ∈ tifs → p ≠ Py.path_join dir t) → fs w' !! p = fs w !! p).
Proof.
  intros Hflat. induction tifs as [|t rest IH]; intros Hmem w Hi; simpl.
  { exists w. split_and!; try done. intros t Ht. by apply elem_of_nil in Ht. }
  destruct (tif_member_flat members t Hflat (Hmem t ltac:(left))) as (_ & Hrel & Hext).
  rewrite Hext. erewrite bind_ok by (by apply fs_write_run).
  destruct (IH (λ t' Ht', Hmem t' ltac:(by right))
               (with_fs w (<[Py.path_join dir t := member_file members t]> (fs w))) Hi)
    as (w' & Hrun & Hi' & Htr & Hin & Hout).
  exists w'. split_and!; [done | done | done | |].
  - intros t' Ht'. destruct (decide (t' ∈ rest)) as [Hr|Hr]; [by apply Hin |].
    apply elem_of_cons in Ht' as [->|?]; [|done].
    rewrite Hout.
    + simpl. by rewrite lookup_insert_eq.
    + intros t'' Ht'' Heq. apply path_join_inj in Heq; [by subst | done |].
      by destruct (tif_member_flat members t'' Hflat (Hmem t'' ltac:(by right)))
        as (_ & ? & _).
  - intros p Hp. rewrite Hout.
    + simpl. rewrite lookup_insert_ne; [done |]. intros Heq. by apply (Hp t); [left |].
    + intros t' Ht'. apply Hp. by right.
Qed.

Lemma read_first_bands_run (dir : string) (w : world) (tifs : list string)
    (arrays : list band) :
  Forall2 (λ t b, ∃ r, fs w !! Py.path_join dir t = Some (GeoTiff r)
                       ∧ bands r !! 0%nat = Some b) tifs arrays →
  read_first_bands dir tifs w = (Ok arrays, w).
Proof.
  induction 1 as [|t b tifs arrays (r & Hr & Hb) _ IH]; simpl; [done |].
  rewrite (bind_ok _ _ _ _ _ (rasterio_open_run _ r w Hr)).
  rewrite (bind_ok _ _ _ _ _ (dataset_read_run _ r 0 b w Hr Hb)).
  by rewrite (bind_ok _ _ _ _ _ IH).
Qed.

(** Writing the arrays over the blank bands of a fresh dataset. *)
Lemma write_bands_run (path : string) (arrays : list band) :
  ∀ (w : world) (r : raster) (written blank : list band),
    interrupt w = None → fs w !! path = Some (GeoTiff r) →
    bands r = written ++ blank → List.length blank = List.length arrays →
    ∃ w', write_bands path (S (List.length written)) arrays w = (Ok tt, w')
      ∧ interrupt w' = None
      ∧ fs w' = <[path := GeoTiff (set_bands r (written ++ arrays))]> (fs w).
Proof.
  induction arrays as [|arr rest IH]; intros w r written blank Hi Hp Hb Hlen; simpl.
  { destruct blank; [|done]. exists w. split_and!; [done | done |].
    rewrite <- Hb. rewrite set_bands_same. by rewrite insert_id. }
  destruct blank as [|b0 blank]; [done |].
  rewrite (bind_ok _ _ _ _ _ (dataset_write_run path r _ arr w Hi Hp)).
  rewrite Hb, insert_app_r_alt, Nat.sub_diag by lia. simpl.
  edestruct (IH (with_fs w (<[path := GeoTiff (set_bands r (written ++ arr :: blank))]>
                              (fs w)))
                (set_bands r (written ++ arr :: blank)) (written ++ [arr]) blank)
    as (w' & Hrun & Hi' & Hfs).
  - done.
  - simpl. by rewrite lookup_insert_eq.
  - simpl. by rewrite <- app_assoc.
  - simpl in Hlen. lia.
  - rewrite length_app, Nat.add_1_r in Hrun. exists w'.
    split_and!; [done | done |]. rewrite Hfs. simpl.
    rewrite insert_insert_eq. by rewrite <- app_assoc.
Qed.

Lemma getInfo_names_run (w : world) (l : list string) :
  remote w (net w) = Names l → getInfo_names w = (Ok l, bump w).
Proof.
  intros H. unfold getInfo_names, request, mbind, M_bind. simpl. by rewrite H.
Qed.

Lemma requests_get_run (url : string) (w : world) (status : Z) (body : file) :
  remote w (net w) = Http status body →
  requests_get url w = (Ok (status, body), bump w).
Proof.
  intros H. unfold requests_get, request, mbind, M_bind. simpl. by rewrite H.
Qed.

Lemma raise_for_status_run (status : Z) (w : world) :
  (status < 400 ∨ 600 ≤ status)%Z → raise_for_status status w = (Ok tt, w).
Proof.
  intros H. unfold raise_for_status.
  destruct (Z.leb_spec 400 status), (Z.ltb_spec status 600); simpl; try done; lia.
Qed.

Lemma zip_open_run (path : string) (members : list (string * option raster))
    (w : world) :
  fs w !! path = Some (ZipArchive members) → zip_open path w = (Ok members, w).
Proof.
  intros H. unfold zip_open. rewrite (bind_ok get_fs _ w w (fs w)); [|done].
  by rewrite H.
Qed.

(** The files that are merged are among the extracted ones. *)
Lemma export_order_extracted (bands : list string)
    (members : list (string * option raster)) (t : string) :
  t ∈ export_order bands members →
  t ∈ List.filter (λ f, Py.endswith f ".tif") (dict_keys members).
Proof.
  unfold export_order. cbv zeta. case_bool_decide; [done |].
  unfold order_tifs. rewrite list_elem_of_In. intros Hin.
  apply in_flat_map in Hin as (b & _ & Hin).
  destruct (first_match b _) as [[|c s]|] eqn:Hfirst; try done.
  destruct Hin as [<-|[]]. unfold first_match in Hfirst.
  apply List.find_some in Hfirst as [Hin _]. by apply list_elem_of_In.
Qed.

Lemma filter_tif_member (members : list (string * option raster)) (t : string) :
  t ∈ List.filter (λ f, Py.endswith f ".tif") (dict_keys members) →
  is_Some (dict_get t members).
Proof.
  rewrite list_elem_of_In. intros Hin. apply List.filter_In in Hin as [Hin _].
  apply dict_keys_get_some. by apply list_elem_of_In.
Qed.


Lemma Forall2_impl_elem {A B} (P Q : A → B → Prop) (l : list A) (k : list B) :
  Forall2 P l k → (∀ x y, x ∈ l → P x y → Q x y) → Forall2 Q l k.
Proof.
  induction 1 as [|x y l k Hxy _ IH]; intros HPQ; constructor.
  - apply HPQ; [left | done].
  - apply IH. intros x' y' Hx'. apply HPQ. by right.
Qed.

Lemma era5_export_run (band_names : list string) (out_path url : string)
    (names : list string) (status : Z) (members : list (string * option raster))
    (first : string) (rest : list string) (profile : raster) (arrays : list band)
    (w : world) :
  let temp_dir := Py.path_join (Py.dirname out_path) "temp_dl" in
  interrupt w = None → ¬ in_the_way (fs w) temp_dir →
  remote w (net w) = Names names → names ≠ [] →
  remote w (S (net w)) = Text url →
  remote w (S (S (net w))) = Http status (ZipArchive members) →
  (status < 400 ∨ 600 ≤ status)%Z →
  flat_names (List.filter (λ f, Py.endswith f ".tif") (dict_keys members)) = true →
  export_order band_names members = first :: rest →
  dict_get first members = Some (Some profile) →
  Forall2 (λ t b, ∃ r, dict_get t members = Some (Some r) ∧ bands r !! 0%nat = Some b)
          (export_order band_names members) arrays →
  ¬ under temp_dir out_path →
  ∃ w', export_ee_image band_names out_path w = (Ok tt, w')
    ∧ fs w' !! out_path = Some (GeoTiff (set_bands profile arrays)).
Proof.
  cbv zeta. intros Hi Hfree Hnames Hne Hurl Hzip Hstatus Hflat Horder Hfirst Hall Hout.
  destruct (temp_dl_dir (Py.dirname out_path)) as [Hdne Hdrev].
  pose proof (λ b, path_join_under _ b Hdne Hdrev) as Hunder.
  unfold export_ee_image.
  set (temp_dir := Py.path_join (Py.dirname out_path) "temp_dl") in *.
  erewrite bind_ok by (by apply os_makedirs_run).
  unfold try_finally, try_except.
  rewrite (bind_ok _ _ _ _ _ (getInfo_names_run w names Hnames)).
  destruct names as [|n0 ns]; [done |].
  rewrite (bind_ok _ _ _ _ _ (getInfo_text_run (bump w) url Hurl)).
  rewrite (bind_ok _ _ _ _ _ (requests_get_run url (bump (bump w)) _ _ Hzip)).
  cbn [fst snd].
  rewrite (bind_ok _ _ _ _ _ (raise_for_status_run status _ Hstatus)).
  erewrite bind_ok by (by apply fs_write_run).
  erewrite bind_ok by (apply zip_open_run; simpl; apply lookup_insert_eq).
  set (tifs := List.filter (λ f, Py.endswith f ".tif") (dict_keys members)) in *.
  change (if bool_decide (List.length (order_tifs band_names tifs)
                          ≠ List.length band_names)
          then tifs else order_tifs band_names tifs)
    with (export_order band_names members).
  rewrite Horder.
  assert (∀ t, t ∈ tifs → is_Some (dict_get t members)) as Hmem
    by (intros t Ht; by apply filter_tif_member).
  assert (∀ t, t ∈ export_order band_names members → t ∈ tifs) as Hsub
    by (intros t Ht; by eapply export_order_extracted).
  destruct tifs as [|t0 tifs'] eqn:Htifs.
  { exfalso. eapply elem_of_nil, Hsub. rewrite Horder. left. }
  rewrite <- Htifs in *.
  match goal with
  | |- context [(for_each _ _ ≫= _) ?W0] =>
      destruct (extract_all_run members temp_dir tifs Hflat (λ t Ht, Ht) W0 Hi)
        as (w1 & Hext & Hi1 & _ & Hin1 & _)
  end.
  rewrite (bind_ok _ _ _ _ _ Hext).
  erewrite bind_ok
    by (apply rasterio_open_run; rewrite Hin1 by (apply Hsub; rewrite Horder; left);
        unfold member_file; by rewrite Hfirst).
  rewrite <- Horder.
  erewrite bind_ok.
  2:{ apply read_first_bands_run.
      eapply Forall2_impl_elem; [exact Hall |].
      intros t b Ht (r & Hr & Hb). exists r. split; [|done].
      rewrite Hin1 by (by apply Hsub). unfold member_file. by rewrite Hr. }
  erewrite bind_ok by (by apply fs_write_run).
  match goal with
  | |- context [(write_bands ?path 1 ?arrs ≫= _) ?W2] =>
      destruct (write_bands_run path arrs W2
                  (set_bands profile (replicate (List.length arrs) (blank_band profile)))
                  [] (replicate (List.length arrs) (blank_band profile)))
        as (w3 & Hwr & Hi3 & Hfs3);
        [ exact Hi1 | simpl; apply lookup_insert_eq | reflexivity
        | apply length_replicate |]
  end.
  rewrite (bind_ok _ _ _ _ _ Hwr).
  unfold print, emit. cbv beta iota.
  erewrite bind_ok by (apply fs_write_run; exact Hi3).
  eexists. split; [reflexivity |].
  simpl. rewrite lookup_rmtree.
  destruct (String.prefix (temp_dir +:+ "/") out_path) eqn:Hpre; [by destruct Hout |].
  rewrite Hfs3. by rewrite lookup_insert_eq.
Qed.

Lemma gldas_export_run (band_names : list string) (out_path url : string)
    (n_bands : Z) (status : Z) (members : list (string * option raster))
    (first : string) (rest : list string) (profile : raster) (arrays : list band)
    (w : world) :
  let temp_dir := Py.path_join (Py.dirname out_path) "tmp_dl" in
  interrupt w = None → ¬ in_the_way (fs w) temp_dir →
  remote w (net w) = Number n_bands → n_bands ≠ 0%Z →
  remote w (S (net w)) = Text url →
  remote w (S (S (net w))) = Http status (ZipArchive members) →
  (status < 400 ∨ 600 ≤ status)%Z →
  flat_names (List.filter (λ f, Py.endswith f ".tif") (dict_keys members)) = true →
  export_order band_names members = first :: rest →
  dict_get first members = Some (Some profile) →
  Forall2 (λ t b, ∃ r, dict_get t members = Some (Some r) ∧ bands r !! 0%nat = Some b)
          (export_order band_names members) arrays →
  ¬ under temp_dir out_path →
  ∃ w', gldas21_retriever.export_ee_image band_names out_path w = (Ok tt, w')
    ∧ fs w' !! out_path = Some (GeoTiff (set_bands profile arrays)).
Proof.
  cbv zeta. intros Hi Hfree Hnames Hne Hurl Hzip Hstatus Hflat Horder Hfirst Hall Hout.
  destruct (tmp_dl_dir (Py.dirname out_path)) as [Hdne Hdrev].
  pose proof (λ b, path_join_under _ b Hdne Hdrev) as Hunder.
  unfold gldas21_retriever.export_ee_image.
  set (temp_dir := Py.path_join (Py.dirname out_path) "tmp_dl") in *.
  erewrite bind_ok by (by apply os_makedirs_run).
  unfold try_finally, try_except.
  rewrite (bind_ok _ _ _ _ _ (getInfo_number_run w n_bands Hnames)).
  rewrite (proj2 (Z.eqb_neq n_bands 0)) by done.
  rewrite (bind_ok _ _ _ _ _ (getInfo_text_run (bump w) url Hurl)).
  rewrite (bind_ok _ _ _ _ _ (requests_get_run url (bump (bump w)) _ _ Hzip)).
  cbn [fst snd].
  rewrite (bind_ok _ _ _ _ _ (raise_for_status_run status _ Hstatus)).
  erewrite bind_ok by (by apply fs_write_run).
  erewrite bind_ok by (apply zip_open_run; simpl; apply lookup_insert_eq).
  set (tifs := List.filter (λ f, Py.endswith f ".tif") (dict_keys members)) in *.
  change (if bool_decide (List.length (order_tifs band_names tifs)
                          ≠ List.length band_names)
          then tifs else order_tifs band_names tifs)
    with (export_order band_names members).
  rewrite Horder.
  assert (∀ t, t ∈ tifs → is_Some (dict_get t members)) as Hmem
    by (intros t Ht; by apply filter_tif_member).
  assert (∀ t, t ∈ export_order band_names members → t ∈ tifs) as Hsub
    by (intros t Ht; by eapply export_order_extracted).
  destruct tifs as [|t0 tifs'] eqn:Htifs.
  { exfalso. eapply elem_of_nil, Hsub. rewrite Horder. left. }
  rewrite <- Htifs in *.
  match goal with
  | |- context [(for_each _ _ ≫= _) ?W0] =>
      destruct (extract_all_run members temp_dir tifs Hflat (λ t Ht, Ht) W0 Hi)
        as (w1 & Hext & Hi1 & _ & Hin1 & _)
  end.
  rewrite (bind_ok _ _ _ _ _ Hext).
  erewrite bind_ok
    by (apply rasterio_open_run; rewrite Hin1 by (apply Hsub; rewrite Horder; left);
        unfold member_file; by rewrite Hfirst).
  rewrite <- Horder.
  erewrite bind_ok.
  2:{ apply read_first_bands_run.
      eapply Forall2_impl_elem; [exact Hall |].
      intros t b Ht (r & Hr & Hb). exists r. split; [|done].
      rewrite Hin1 by (by apply Hsub). unfold member_file. by rewrite Hr. }
  erewrite bind_ok by (by apply fs_write_run).
  match goal with
  | |- context [(write_bands ?path 1 ?arrs ≫= _) ?W2] =>
      destruct (write_bands_run path arrs W2
                  (set_bands profile (replicate (List.length arrs) (blank_band profile)))
                  [] (replicate (List.length arrs) (blank_band profile)))
        as (w3 & Hwr & Hi3 & Hfs3);
        [ exact Hi1 | simpl; apply lookup_insert_eq | reflexivity
        | apply length_replicate |]
  end.
  rewrite (bind_ok _ _ _ _ _ Hwr).
  unfold print, emit. cbv beta iota.
  erewrite bind_ok by (apply fs_write_run; exact Hi3).
  eexists. split; [reflexivity |].
  simpl. rewrite lookup_rmtree.
  destruct (String.prefix (temp_dir +:+ "/") out_path) eqn:Hpre; [by destruct Hout |].
  rewrite Hfs3. by rewrite lookup_insert_eq.
Qed.

(** X21. What a successful export writes. With no regular file in the way
    of the download directory, a download URL answered, a package delivered
    with a status outside 400..599 whose [*.tif] members have flat and
    distinct names, and every file of the merge order (the [*.tif] members
    matched to the requested bands, or all of them in package order when a
    band has no match) a raster with at least one band and with the width,
    height and sample type of the first of them, an uninterrupted
    [export_ee_image] ends normally and the output is a raster with the grid
    and metadata of the first merged file whose bands are the first bands of
    the merged files, in merge order. This holds for the ERA5 export (band
    names answered, not empty) and for the GLDAS export (a band count other
    than zero answered), for an output path outside the download
    directory. *)
Theorem export_writes_merged_first_bands (band_names : list string)
    (out_path url : string) (status : Z) (members : list (string * option raster))
    (first : string) (rest : list string) (profile : raster) (arrays : list band)
    (w : world) :
  interrupt w = None →
  remote w (S (net w)) = Text url →
  remote w (S (S (net w))) = Http status (ZipArchive members) →
  (status < 400 ∨ 600 ≤ status)%Z →
  flat_names (List.filter (λ f, Py.endswith f ".tif") (dict_keys members)) = true →
  export_order band_names members = first :: rest →
  dict_get first members = Some (Some profile) →
  Forall2 (λ t b, ∃ r, dict_get t members = Some (Some r) ∧ bands r !! 0%nat = Some b
                       ∧ width r = width profile ∧ height r = height profile
                       ∧ dtype r = dtype profile)
          (export_order band_names members) arrays →
  (∀ names, remote w (net w) = Names names → names ≠ [] →
     ¬ in_the_way (fs w) (Py.path_join (Py.dirname out_path) "temp_dl") →
     ¬ under (Py.path_join (Py.dirname out_path) "temp_dl") out_path →
     let run := export_ee_image band_names out_path w in
     run.1 = Ok tt
     ∧ fs run.2 !! out_path = Some (GeoTiff (set_bands profile arrays)))
  ∧ (∀ n_bands, remote w (net w) = Number n_bands → n_bands ≠ 0%Z →
       ¬ in_the_way (fs w) (Py.path_join (Py.dirname out_path) "tmp_dl") →
       ¬ under (Py.path_join (Py.dirname out_path) "tmp_dl") out_path →
       let run := gldas21_retriever.export_ee_image band_names out_path w in
       run.1 = Ok tt
       ∧ fs run.2 !! out_path = Some (GeoTiff (set_bands profile arrays))).
Proof.
  intros Hi Hurl Hzip Hstatus Hflat Horder Hfirst Hsame.
  assert (Forall2 (λ t b, ∃ r, dict_get t members = Some (Some r)
                               ∧ bands r !! 0%nat = Some b)
                  (export_order band_names members) arrays) as Hall.
  { eapply Forall2_impl; [exact Hsame |]. intros t b (r & Hr & Hb & _). by exists r. }
  split.
  - intros names Hnames Hne Hfree Hout. cbv zeta.
    destruct (era5_export_run band_names out_path url names status members first rest
                profile arrays w Hi Hfree Hnames Hne Hurl Hzip Hstatus Hflat Horder
                Hfirst Hall Hout)
      as (w' & -> & Hfs). by split.
  - intros n_bands Hn Hne Hfree Hout. cbv zeta.
    destruct (gldas_export_run band_names out_path url n_bands status members first rest
                profile arrays w Hi Hfree Hn Hne Hurl Hzip Hstatus Hflat Horder
                Hfirst Hall Hout)
      as (w' & -> & Hfs). by split.
Qed.
End ExportMerge.

(** X21 on the sample package: the two tiles, sent in the other order, end
    up as the two bands of the ERA5 output in the requested order. *)
Lemma export_writes_merged_first_bands_witness :
  fs (era5_retriever.export_ee_image ["temperature_2m"; "skin_temperature"]
        Sample.era5_path (mk_world ∅ Sample.era5_answers 1 0 [] None)).2
    !! Sample.era5_path
  = Some (GeoTiff Sample.era5_coarse).
Proof.
  destruct (export_writes_merged_first_bands ["temperature_2m"; "skin_temperature"]
              Sample.era5_path "https://earthengine.example/download" 200
              [("img.skin_temperature.tif", Some Sample.tile_b);
               ("img.temperature_2m.tif", Some Sample.tile_a)]
              "img.temperature_2m.tif" ["img.skin_temperature.tif"]
              Sample.tile_a [[Sample.f300]; [Sample.f340]]
              (mk_world ∅ Sample.era5_answers 1 0 [] None))
    as [Hera5 _];
    [reflexivity | reflexivity | reflexivity | lia | reflexivity | reflexivity
    | reflexivity | |].
  - repeat constructor; eexists; split_and!; reflexivity.
  - destruct (Hera5 ["temperature_2m"; "skin_temperature"]) as [_ Hfs];
      [reflexivity | done | compute_done | by vm_compute |].
    exact Hfs.
Defined.
